(** * UniFormerV2: the CLIP weight extraction script and the Hvu dataset

    A shallow embedding of [extract_clip/extract.py] and of
    [slowfast/datasets/hvu.py], and the properties of both that the
    specification states.

    Python values are modelled as follows: [int] is [Z], [str] is [string]
    (ASCII text), [float] is a binary64 [float], a [list] is a [list], a
    [dict] with integer keys is a [gmap Z], an [OrderedDict] is an
    association list in insertion order, and a raised exception is the
    [Raise] case of [result]. *)

From Stdlib Require Import ZArith Ascii String Floats.
From stdpp Require Import gmap strings list.

Open Scope Z_scope.

(** ** Python built-ins *)

Module Py.

Inductive exn :=
  | AssertionError
  | ValueError
  | IndexError
  | KeyError
  | RuntimeError
  | OverflowError
  | ZeroDivisionError
  | NotImplementedError
  | AttributeError
  | LibraryError.

Inductive result (A : Type) :=
  | Ok (a : A)
  | Raise (e : exn).
Arguments Ok {A} a.
Arguments Raise {A} e.

Definition rbind {A B} (x : result A) (f : A → result B) : result B :=
  match x with
  | Ok a => f a
  | Raise e => Raise e
  end.

Fixpoint rmap {A B} (f : A → result B) (l : list A) : result (list B) :=
  match l with
  | [] => Ok []
  | a :: l' => rbind (f a) (λ b, rbind (rmap f l') (λ bs, Ok (b :: bs)))
  end.

(** [l[i]] on a list: a negative index counts from the end, anything outside
    [-len, len) raises [IndexError]. *)
Definition norm_index (n i : Z) : Z := if i <? 0 then i + n else i.

Definition py_index {A} (l : list A) (i : Z) : result A :=
  let j := norm_index (Z.of_nat (length l)) i in
  if 0 <=? j then
    match l !! Z.to_nat j with
    | Some x => Ok x
    | None => Raise IndexError
    end
  else Raise IndexError.

(** [d[k]] on a dict: a missing key raises [KeyError], whatever its sign. *)
Definition dict_get {A} (d : gmap Z A) (k : Z) : result A :=
  match d !! k with
  | Some x => Ok x
  | None => Raise KeyError
  end.

(** [range(n)] *)
Definition range (n : Z) : list Z := Z.of_nat <$> seq 0 (Z.to_nat n).

(** [sub in s] on strings. *)
Fixpoint str_in (sub s : string) : bool :=
  String.prefix sub s ||
  match s with
  | EmptyString => false
  | String _ s' => str_in sub s'
  end.

(** [s[n:]] for [n >= 0]. *)
Fixpoint str_from (n : nat) (s : string) : string :=
  match n, s with
  | O, _ => s
  | S n', String _ s' => str_from n' s'
  | S _, EmptyString => EmptyString
  end.

(** [s.split(sep)] for a string [sep]; the empty separator raises
    [ValueError].  [skip] counts the characters of a separator that has been
    recognised and is still to be passed over. *)
Fixpoint split_go (sep : string) (skip : nat) (cur s : string) : list string :=
  match s with
  | EmptyString => [cur]
  | String c s' =>
      match skip with
      | S k => split_go sep k cur s'
      | O =>
          if String.prefix sep s
          then cur :: split_go sep (String.length sep - 1) EmptyString s'
          else split_go sep O (cur +:+ String c EmptyString) s'
      end
  end.

Definition str_split (sep s : string) : result (list string) :=
  match sep with
  | EmptyString => Raise ValueError
  | _ => Ok (split_go sep O EmptyString s)
  end.

(** [int(s)] on ASCII text: white space around, an optional sign, decimal
    digits, single underscores between digits.  The white space that [int]
    strips from ASCII text is that of C: the bytes 9 to 13 (tab, line feed,
    vertical tab, form feed, carriage return) and the space; the separators
    28 to 31 are not stripped, although [str.isspace] holds of them. *)
Definition is_space (c : ascii) : bool :=
  let n := nat_of_ascii c in
  ((9 <=? n) && (n <=? 13) || (n =? 32))%nat.

Fixpoint lstrip (s : string) : string :=
  match s with
  | String c s' => if is_space c then lstrip s' else s
  | EmptyString => EmptyString
  end.

Fixpoint rstrip (s : string) : string :=
  match s with
  | String c s' =>
      match rstrip s' with
      | EmptyString => if is_space c then EmptyString else String c EmptyString
      | t => String c t
      end
  | EmptyString => EmptyString
  end.

Definition digit_of (c : ascii) : option Z :=
  let n := nat_of_ascii c in
  if ((48 <=? n) && (n <=? 57))%nat then Some (Z.of_nat (n - 48)) else None.

Fixpoint int_digits (acc : Z) (after_digit : bool) (s : string) : option Z :=
  match s with
  | EmptyString => if after_digit then Some acc else None
  | String c s' =>
      match digit_of c with
      | Some d => int_digits (10 * acc + d) true s'
      | None =>
          if bool_decide (c = "_"%char) && after_digit
          then int_digits acc false s'
          else None
      end
  end.

Definition py_int (s : string) : result Z :=
  let parsed :=
    match rstrip (lstrip s) with
    | String "+" t => int_digits 0 false t
    | String "-" t => Z.opp <$> int_digits 0 false t
    | t => int_digits 0 false t
    end in
  match parsed with
  | Some z => Ok z
  | None => Raise ValueError
  end.

(** [os.path.join(a, b)] on POSIX paths. *)
Definition ends_with_slash (s : string) : bool :=
  match String.length s with
  | O => false
  | S n => bool_decide (String.get n s = Some "/"%char)
  end.

Definition os_path_join (a b : string) : string :=
  if String.prefix "/" b then b
  else if bool_decide (a = EmptyString) || ends_with_slash a then a +:+ b
  else a +:+ "/" +:+ b.

(** [float(n)] for an [int]: the nearest binary64, [OverflowError] when [n]
    is too large for one. *)
Definition float_of_int (n : Z) : result float :=
  let f := SF2Prim (binary_normalize prec emax n 0 false) in
  if PrimFloat.is_infinity f then Raise OverflowError else Ok f.

(** [round(x)] for a float: the nearest integer, a tie going to the even
    one; [ValueError] on a NaN and [OverflowError] on an infinity. *)
Definition round_half_even (m : positive) (e : Z) : Z :=
  if 0 <=? e then Z.pos m * 2 ^ e
  else
    let d := 2 ^ (- e) in
    let q := Z.pos m / d in
    let r := Z.pos m mod d in
    if 2 * r <? d then q
    else if d <? 2 * r then q + 1
    else if Z.even q then q else q + 1.

Definition py_round (x : float) : result Z :=
  match Prim2SF x with
  | S754_zero _ => Ok 0
  | S754_infinity _ => Raise OverflowError
  | S754_nan => Raise ValueError
  | S754_finite s m e =>
      Ok (if s then - round_half_even m e else round_half_even m e)
  end.

End Py.

(** ** extract_clip/extract.py *)

Module Extract.
Import Py.

Section extract.

Context {Tensor : Type}.

(** An [OrderedDict] from parameter names to tensors, in insertion order. *)
Definition OrderedDict : Type := list (string * Tensor).

(** [d[k] = v]: an existing key keeps its place and takes the new value, a
    new key goes to the end. *)
Fixpoint od_set (k : string) (v : Tensor) (d : OrderedDict) : OrderedDict :=
  match d with
  | [] => [(k, v)]
  | (k', v') :: d' =>
      if decide (k' = k) then (k, v) :: d' else (k', v') :: od_set k v d'
  end.

Fixpoint od_get (k : string) (d : OrderedDict) : option Tensor :=
  match d with
  | [] => None
  | (k', v') :: d' => if decide (k' = k) then Some v' else od_get k d'
  end.

Definition od_keys (d : OrderedDict) : list string := d.*1.

Definition dropped_keys : list string :=
  ["proj"; "ln_post.weight"; "ln_post.bias"].

(** The two tests of the loop body on a key [k]. *)
Definition selected (k : string) : bool :=
  str_in "visual." k && bool_decide (str_from 7 k ∉ dropped_keys).

(** One iteration of [for k, v in model.state_dict().items()]. *)
Definition extract_step (new_state_dict : OrderedDict) (kv : string * Tensor)
  : OrderedDict :=
  let '(k, v) := kv in
  if str_in "visual." k then
    if bool_decide (str_from 7 k ∉ dropped_keys)
    then od_set (str_from 7 k) v new_state_dict
    else new_state_dict
  else new_state_dict.

Definition extract (state_dict : OrderedDict) : OrderedDict :=
  foldl extract_step [] state_dict.

(** The script: [clip_load name] is the state dict of the model that
    [clip.load(name, device='cuda')] returns, and the result lists the files
    written by [torch.save], in order, with what was saved in each. *)
Definition script (clip_load : string → OrderedDict)
  : list (string * OrderedDict) :=
  [ ("vit_b16.pth", extract (clip_load "ViT-B/16"));
    ("vit_l14.pth", extract (clip_load "ViT-L/14"));
    ("vit_l14_336.pth", extract (clip_load "ViT-L/14@336px")) ].

(** The model loaded for each saved file. *)
Definition model_of : list (string * string) :=
  [ ("vit_b16.pth", "ViT-B/16");
    ("vit_l14.pth", "ViT-L/14");
    ("vit_l14_336.pth", "ViT-L/14@336px") ].

(** No two selected keys of [sd] are renamed to the same key. *)
Definition rename_injective (sd : OrderedDict) : Prop :=
  ∀ k1 k2, k1 ∈ od_keys sd → k2 ∈ od_keys sd →
    selected k1 = true → selected k2 = true →
    str_from 7 k1 = str_from 7 k2 → k1 = k2.

End extract.
End Extract.

(** ** The parts of torch that hvu.py uses on label vectors *)

Module Torch.
Import Py.

Inductive dtype := float32.

Record Tensor := { t_dtype : dtype; t_data : list float }.

(** [torch.zeros(n, dtype=torch.float32)] *)
Definition zeros (n : Z) : result Tensor :=
  if n <? 0 then Raise RuntimeError
  else Ok {| t_dtype := float32; t_data := replicate (Z.to_nat n) 0%float |}.

(** [t[i] = v] for an integer [i]: as for a list, a negative index counts
    from the end and an index outside the vector raises [IndexError]. *)
Definition setitem (t : Tensor) (i : Z) (v : float) : result Tensor :=
  let n := Z.of_nat (length (t_data t)) in
  let j := norm_index n i in
  if (0 <=? j) && (j <? n)
  then Ok {| t_dtype := t_dtype t; t_data := <[Z.to_nat j := v]> (t_data t) |}
  else Raise IndexError.

End Torch.

(** ** The configuration node, with the fields that hvu.py reads *)

Module Config.

Record DataCfg := {
  PATH_TO_DATA_DIR : string;
  PATH_LABEL_SEPARATOR : string;
  PATH_PREFIX : string;
  TRAIN_JITTER_SCALES : list Z;
  TRAIN_CROP_SIZE : Z;
  TEST_CROP_SIZE : Z;
  SAMPLING_RATE : Z;
  NUM_FRAMES : Z;
  TARGET_FPS : Z;
  DECODING_BACKEND : string;
  USE_OFFSET_SAMPLING : bool;
  MEAN : list float;
  STD : list float;
  RANDOM_FLIP : bool;
  INV_UNIFORM_SAMPLE : bool;
  TRAIN_JITTER_SCALES_RELATIVE : list float;
  TRAIN_JITTER_ASPECT_RELATIVE : list float;
  TRAIN_JITTER_MOTION_SHIFT : bool
}.

Record ModelCfg := { NUM_CLASSES : Z }.

Record TestCfg := { NUM_ENSEMBLE_VIEWS : Z; NUM_SPATIAL_CROPS : Z }.

Record AugCfg := {
  ENABLE : bool;
  RE_PROB : float;
  NUM_SAMPLE : Z;
  AA_TYPE : string;
  INTERPOLATION : string;
  RE_MODE : string;
  RE_COUNT : Z
}.

Record MultigridCfg := {
  SHORT_CYCLE_FACTORS : list float;
  DEFAULT_S : Z;
  LONG_CYCLE_SAMPLING_RATE : Z
}.

Record DataLoaderCfg := { ENABLE_MULTI_THREAD_DECODE : bool }.

Record Cfg := {
  DATA : DataCfg;
  MODEL : ModelCfg;
  TEST : TestCfg;
  AUG : AugCfg;
  MULTIGRID : MultigridCfg;
  DATA_LOADER : DataLoaderCfg
}.

(** [cfg.TEST.NUM_ENSEMBLE_VIEWS = v] and [cfg.TEST.NUM_SPATIAL_CROPS = v] *)
Definition set_NUM_ENSEMBLE_VIEWS (v : Z) (cfg : Cfg) : Cfg :=
  {| DATA := DATA cfg; MODEL := MODEL cfg;
     TEST := {| NUM_ENSEMBLE_VIEWS := v;
                NUM_SPATIAL_CROPS := NUM_SPATIAL_CROPS (TEST cfg) |};
     AUG := AUG cfg; MULTIGRID := MULTIGRID cfg;
     DATA_LOADER := DATA_LOADER cfg |}.

Definition set_NUM_SPATIAL_CROPS (v : Z) (cfg : Cfg) : Cfg :=
  {| DATA := DATA cfg; MODEL := MODEL cfg;
     TEST := {| NUM_ENSEMBLE_VIEWS := NUM_ENSEMBLE_VIEWS (TEST cfg);
                NUM_SPATIAL_CROPS := v |};
     AUG := AUG cfg; MULTIGRID := MULTIGRID cfg;
     DATA_LOADER := DATA_LOADER cfg |}.

End Config.

(** ** The libraries that hvu.py calls

    The video container, the decoder, the image transforms and the random
    number generator are outside the repository.  They are taken as an
    interface: [Ext] is the state they work on (the video files, the random
    generator), and an operation that depends on it or changes it takes and
    returns it. *)

Module Lib.
Import Py Config.

Class Library := {
  Container : Type;
  Frames : Type;
  Image : Type;
  Meta : Type;
  Ext : Type;
  (** [{}], the meta data of a clip before anything is decoded *)
  empty_meta : Meta;
  (** [utils.get_random_sampling_rate(long_cycle_sampling_rate, sampling_rate)] *)
  get_random_sampling_rate : Z → Z → Ext → Ext * Z;
  (** [container.get_video_container(path, multi_thread_decode, backend)]:
      returns a container or [None], or raises *)
  get_video_container :
    string → bool → string → Ext → Ext * result (option Container);
  (** [decoder.decode(container, sampling_rate, num_frames, clip_idx,
      num_clips, video_meta, target_fps, backend, max_spatial_scale,
      use_offset, sparse)]: the frames or [None], and the meta data it
      leaves in [video_meta] *)
  decode :
    Container → Z → Z → Z → Z → Meta → Z → string → Z → bool → bool →
    Ext → Ext * (Meta * option Frames);
  (** [utils.tensor_normalize(frames, mean, std)] *)
  tensor_normalize : Frames → list float → list float → Frames;
  (** [frames.permute(dims)] *)
  permute : Frames → list Z → Frames;
  (** [frames.size(d)] and [frames[i]] *)
  size : Frames → Z → Z;
  frame_at : Frames → Z → Frames;
  (** [utils.spatial_sampling(frames, spatial_idx, min_scale, max_scale,
      crop_size, random_horizontal_flip, inverse_uniform_sampling,
      aspect_ratio, scale, motion_shift)] *)
  spatial_sampling :
    Frames → Z → Z → Z → Z → bool → bool →
    option (list float) → option (list float) → bool → Ext → Ext * Frames;
  (** [utils.pack_pathway_output(cfg, frames)] *)
  pack_pathway_output : Cfg → Frames → list Frames;
  (** [create_random_augment(input_size, auto_augment, interpolation)]
      applied to a list of images *)
  random_augment :
    Z * Z → string → string → list Image → Ext → Ext * list Image;
  (** [transforms.ToPILImage()], [transforms.ToTensor()], [torch.stack] *)
  to_pil_image : Frames → Image;
  to_tensor : Image → Frames;
  stack : list Frames → Frames;
  (** [RandomErasing(prob, mode, max_count, num_splits, device)(frames)] *)
  random_erasing : float → string → Z → Z → string → Frames → Ext → Ext * Frames;
  (** [random.randint(a, b)] for [a <= b] *)
  randint : Z → Z → Ext → Ext * Z;
  randint_range : ∀ a b e, a ≤ b → a ≤ (randint a b e).2 ≤ b
}.

End Lib.

(** ** slowfast/datasets/hvu.py *)

Module Hvu.
Import Py Torch Config Lib.

Section state.

Context `{Library}.

(** An [Hvu] object.  [_labels] holds references into the store of tensors:
    the clips of one video share one label vector. *)
Record Hvu := {
  mode : string;
  _num_retries : Z;
  _num_clips : Z;
  _path_to_videos : list string;
  _labels : list nat;
  _spatial_temporal_idx : list Z;
  _video_meta : gmap Z Meta;
  aug : bool;
  rand_erase : bool
}.

Definition set_video_meta (index : Z) (m : Meta) (self : Hvu) : Hvu :=
  {| mode := mode self; _num_retries := _num_retries self;
     _num_clips := _num_clips self;
     _path_to_videos := _path_to_videos self; _labels := _labels self;
     _spatial_temporal_idx := _spatial_temporal_idx self;
     _video_meta := <[index := m]> (_video_meta self);
     aug := aug self; rand_erase := rand_erase self |}.

(** What the path manager was asked for. *)
Inductive fs_event :=
  | Exists (path : string)
  | Read (path : string).

(** The state a call runs in: the configuration node shared with the caller,
    the text files (as their lines), the file accesses made so far, the
    tensors and the [Hvu] objects allocated so far, and the state of the
    libraries. *)
Record World := {
  w_cfg : Cfg;
  w_files : gmap string (list string);
  w_reads : list fs_event;
  w_tensors : list Tensor;
  w_objects : list Hvu;
  w_ext : Ext
}.

Definition with_cfg (f : Cfg → Cfg) (w : World) : World :=
  {| w_cfg := f (w_cfg w); w_files := w_files w; w_reads := w_reads w;
     w_tensors := w_tensors w; w_objects := w_objects w; w_ext := w_ext w |}.

Definition with_reads (f : list fs_event → list fs_event) (w : World) : World :=
  {| w_cfg := w_cfg w; w_files := w_files w; w_reads := f (w_reads w);
     w_tensors := w_tensors w; w_objects := w_objects w; w_ext := w_ext w |}.

Definition with_tensors (f : list Tensor → list Tensor) (w : World) : World :=
  {| w_cfg := w_cfg w; w_files := w_files w; w_reads := w_reads w;
     w_tensors := f (w_tensors w); w_objects := w_objects w; w_ext := w_ext w |}.

Definition with_objects (f : list Hvu → list Hvu) (w : World) : World :=
  {| w_cfg := w_cfg w; w_files := w_files w; w_reads := w_reads w;
     w_tensors := w_tensors w; w_objects := f (w_objects w); w_ext := w_ext w |}.

Definition with_ext (e : Ext) (w : World) : World :=
  {| w_cfg := w_cfg w; w_files := w_files w; w_reads := w_reads w;
     w_tensors := w_tensors w; w_objects := w_objects w; w_ext := e |}.

(** Computations that read and change the world and may raise. *)
Definition M (A : Type) : Type := World → World * result A.

Definition ret {A} (a : A) : M A := λ w, (w, Ok a).
Definition raise {A} (e : exn) : M A := λ w, (w, Raise e).
Definition bind {A B} (c : M A) (k : A → M B) : M B :=
  λ w, match c w with
       | (w', Ok a) => k a w'
       | (w', Raise e) => (w', Raise e)
       end.
Definition lift {A} (r : result A) : M A := λ w, (w, r).
Definition assert (b : bool) : M unit :=
  if b then ret tt else raise AssertionError.
Definition get_cfg : M Cfg := λ w, (w, Ok (w_cfg w)).
Definition update (f : World → World) : M unit := λ w, (f w, Ok tt).
Definition call {A} (f : Ext → Ext * A) : M A :=
  λ w, let '(e, a) := f (w_ext w) in (with_ext e w, Ok a).

End state.

Notation "x <- c ;; k" := (bind c (λ x, k))
  (at level 100, c at next level, right associativity).
Notation "c ;;; k" := (bind c (λ _, k))
  (at level 100, right associativity).
Notation "x <-? c ;; k" := (rbind c (λ x, k))
  (at level 100, c at next level, right associativity).

Section hvu.

Context `{Library}.

(** *** [_construct_loader] *)

(** The lists that the loader fills. *)
Record Loaded := {
  l_paths : list string;
  l_labels : list nat;
  l_idx : list Z;
  l_meta : gmap Z Meta
}.

Definition no_entries : Loaded :=
  {| l_paths := []; l_labels := []; l_idx := []; l_meta := ∅ |}.

(** [path, label_str = path_label.split(sep)], then
    [labels = list(map(int, label_str.split('|')))] *)
Definition parse_line (sep path_label : string) : result (string * list Z) :=
  parts <-? str_split sep path_label ;;
  match parts with
  | [path; label_str] =>
      strs <-? str_split "|" label_str ;;
      labels <-? rmap py_int strs ;;
      Ok (path, labels)
  | _ => Raise ValueError
  end.

(** [one_hot_labels = torch.zeros(num_classes, dtype=torch.float32)]: a new
    tensor, known by its place in the store. *)
Definition new_zeros (num_classes : Z) : M nat :=
  λ w, match zeros num_classes with
       | Ok t => (with_tensors (λ ts, ts ++ [t]) w, Ok (length (w_tensors w)))
       | Raise e => (w, Raise e)
       end.

(** [one_hot_labels[label] = 1] *)
Definition set_one (r : nat) (label : Z) : M unit :=
  λ w, match w_tensors w !! r with
       | Some t =>
           match setitem t label 1%float with
           | Ok t' => (with_tensors (λ ts, <[r := t']> ts) w, Ok tt)
           | Raise e => (w, Raise e)
           end
       | None => (w, Raise RuntimeError)
       end.

Fixpoint set_ones (r : nat) (labels : list Z) : M unit :=
  match labels with
  | [] => ret tt
  | label :: rest => set_one r label ;;; set_ones r rest
  end.

(** The body of [for idx in range(self._num_clips)]. *)
Definition add_clip (prefix path : string) (r : nat) (clip_idx num_clips : Z)
    (acc : Loaded) (idx : Z) : Loaded :=
  {| l_paths := l_paths acc ++ [os_path_join prefix path];
     l_labels := l_labels acc ++ [r];
     l_idx := l_idx acc ++ [idx];
     l_meta := <[clip_idx * num_clips + idx := empty_meta]> (l_meta acc) |}.

(** The body of [for clip_idx, path_label in enumerate(...)]. *)
Definition load_line (cfg : Cfg) (num_clips : Z) (acc : Loaded)
    (clip_idx : Z) (path_label : string) : M Loaded :=
  entry <- lift (parse_line (PATH_LABEL_SEPARATOR (DATA cfg)) path_label) ;;
  let '(path, labels) := entry in
  r <- new_zeros (NUM_CLASSES (MODEL cfg)) ;;
  set_ones r labels ;;;
  ret (foldl (add_clip (PATH_PREFIX (DATA cfg)) path r clip_idx num_clips)
         acc (range num_clips)).

Fixpoint load_lines (cfg : Cfg) (num_clips : Z) (acc : Loaded)
    (clip_idx : Z) (lines : list string) : M Loaded :=
  match lines with
  | [] => ret acc
  | path_label :: rest =>
      acc' <- load_line cfg num_clips acc clip_idx path_label ;;
      load_lines cfg num_clips acc' (clip_idx + 1) rest
  end.

(** [g_pathmgr.exists(path)] and the lines of
    [g_pathmgr.open(path, "r").read().splitlines()] *)
Definition pathmgr_exists (path : string) : M bool :=
  λ w, (with_reads (λ l, l ++ [Exists path]) w,
        Ok (bool_decide (is_Some (w_files w !! path)))).

Definition pathmgr_read_lines (path : string) : M (list string) :=
  λ w, (with_reads (λ l, l ++ [Read path]) w,
        match w_files w !! path with
        | Some lines => Ok lines
        | None => Raise LibraryError
        end).

Definition split_file (cfg : Cfg) (mode : string) : string :=
  os_path_join (PATH_TO_DATA_DIR (DATA cfg)) (mode +:+ ".csv").

Definition _construct_loader (mode : string) (num_clips : Z) : M Loaded :=
  cfg <- get_cfg ;;
  let path_to_file := split_file cfg mode in
  found <- pathmgr_exists path_to_file ;;
  assert found ;;;
  lines <- pathmgr_read_lines path_to_file ;;
  acc <- load_lines cfg num_clips no_entries 0 lines ;;
  assert (bool_decide (0 < length (l_paths acc))%nat) ;;;
  ret acc.

(** *** [__init__]

    The last branch of the choice of [_num_clips] stands for the attribute
    being left unset; the assertion before it excludes that. *)

Definition new_object (self : Hvu) : M nat :=
  λ w, (with_objects (λ l, l ++ [self]) w, Ok (length (w_objects w))).

Definition __init__ (mode : string) (num_retries : Z) : M nat :=
  assert (bool_decide (mode ∈ ["train"; "val"; "test"])) ;;;
  num_clips <-
    (if bool_decide (mode ∈ ["train"; "val"]) then
       update (with_cfg (set_NUM_ENSEMBLE_VIEWS 1)) ;;;
       update (with_cfg (set_NUM_SPATIAL_CROPS 1)) ;;;
       ret 1
     else if bool_decide (mode ∈ ["test"]) then
       cfg <- get_cfg ;;
       ret (NUM_ENSEMBLE_VIEWS (TEST cfg) * NUM_SPATIAL_CROPS (TEST cfg))
     else raise AttributeError) ;;
  acc <- _construct_loader mode num_clips ;;
  cfg <- get_cfg ;;
  let aug := bool_decide (mode = "train") && ENABLE (AUG cfg) in
  let rand_erase := aug && PrimFloat.ltb 0 (RE_PROB (AUG cfg)) in
  new_object
    {| mode := mode; _num_retries := num_retries; _num_clips := num_clips;
       _path_to_videos := l_paths acc; _labels := l_labels acc;
       _spatial_temporal_idx := l_idx acc; _video_meta := l_meta acc;
       aug := aug; rand_erase := rand_erase |}.

(** [__len__] and [num_videos] *)
Definition __len__ (self : Hvu) : Z := Z.of_nat (length (_path_to_videos self)).
Definition num_videos (self : Hvu) : Z := Z.of_nat (length (_path_to_videos self)).


(** *** [__getitem__] *)

Record Sampling := {
  temporal_sample_index : Z;
  spatial_sample_index : Z;
  min_scale : Z;
  max_scale : Z;
  crop_size : Z
}.

(** Lines 103 to 119: the sampling indices and the scales, from the mode,
    the sample index and the short cycle index ([None] when a plain index
    was passed). *)
Definition sampling (self : Hvu) (cfg : Cfg) (index : Z)
    (short_cycle_idx : option Z) : result Sampling :=
  if bool_decide (mode self ∈ ["train"]) then
    min_scale <-? py_index (TRAIN_JITTER_SCALES (DATA cfg)) 0 ;;
    max_scale <-? py_index (TRAIN_JITTER_SCALES (DATA cfg)) 1 ;;
    let crop_size := TRAIN_CROP_SIZE (DATA cfg) in
    crop_size <-?
      (match short_cycle_idx with
       | Some i =>
           if bool_decide (i ∈ [0; 1]) then
             factor <-? py_index (SHORT_CYCLE_FACTORS (MULTIGRID cfg)) i ;;
             s <-? float_of_int (DEFAULT_S (MULTIGRID cfg)) ;;
             py_round (factor * s)%float
           else Ok crop_size
       | None => Ok crop_size
       end) ;;
    min_scale <-?
      (if 0 <? DEFAULT_S (MULTIGRID cfg) then
         m <-? float_of_int min_scale ;;
         c <-? float_of_int crop_size ;;
         s <-? float_of_int (DEFAULT_S (MULTIGRID cfg)) ;;
         py_round (m * c / s)%float
       else Ok min_scale) ;;
    Ok {| temporal_sample_index := -1; spatial_sample_index := -1;
          min_scale := min_scale; max_scale := max_scale;
          crop_size := crop_size |}
  else if bool_decide (mode self ∈ ["val"; "test"]) then
    sti <-? py_index (_spatial_temporal_idx self) index ;;
    let crops := NUM_SPATIAL_CROPS (TEST cfg) in
    if crops =? 0 then Raise ZeroDivisionError
    else
      Ok {| temporal_sample_index := sti / crops;
            spatial_sample_index := if 1 <? crops then sti mod crops else 1;
            min_scale := TEST_CROP_SIZE (DATA cfg);
            max_scale := TEST_CROP_SIZE (DATA cfg);
            crop_size := TEST_CROP_SIZE (DATA cfg) |}
  else Raise NotImplementedError.

(** The values that [__getitem__] returns, as a tuple of components. *)
#[warnings="-register-all"]
Inductive pyval :=
  | PFrames (pathways : list Frames)
  | PTensor (r : nat)
  | PInt (z : Z)
  | PEmptyDict
  | PList (l : list pyval).

Definition get_self (r : nat) : M Hvu :=
  λ w, (w, match w_objects w !! r with
           | Some self => Ok self
           | None => Raise RuntimeError
           end).

Definition py_randint (a b : Z) : M Z :=
  if a <=? b then call (randint a b) else raise ValueError.

Fixpoint times {A} (n : nat) (c : M A) : M (list A) :=
  match n with
  | O => ret []
  | S n' => a <- c ;; rest <- times n' c ;; ret (a :: rest)
  end.

Definition _frame_to_list_img (frames : Frames) : list Image :=
  (λ i, to_pil_image (frame_at frames i)) <$> range (size frames 0).

Definition _list_img_to_frames (img_list : list Image) : Frames :=
  stack (to_tensor <$> img_list).

Definition _aug_frame (self : Hvu) (cfg : Cfg) (frames : Frames)
    (spatial_sample_index min_scale max_scale crop_size : Z) : M Frames :=
  let input_size := (size frames 1, size frames 2) in
  let frames := permute frames [0; 3; 1; 2] in
  let list_img := _frame_to_list_img frames in
  list_img <- call (random_augment input_size (AA_TYPE (AUG cfg))
                      (INTERPOLATION (AUG cfg)) list_img) ;;
  let frames := _list_img_to_frames list_img in
  let frames := permute frames [0; 2; 3; 1] in
  let frames := tensor_normalize frames (MEAN (DATA cfg)) (STD (DATA cfg)) in
  let frames := permute frames [3; 0; 1; 2] in
  let scl := TRAIN_JITTER_SCALES_RELATIVE (DATA cfg) in
  let asp := TRAIN_JITTER_ASPECT_RELATIVE (DATA cfg) in
  let in_train := bool_decide (mode self ∈ ["train"]) in
  let relative_scales :=
    if negb in_train || bool_decide (length scl = 0%nat) then None else Some scl in
  let relative_aspect :=
    if negb in_train || bool_decide (length asp = 0%nat) then None else Some asp in
  frames <- call (spatial_sampling frames spatial_sample_index min_scale
                    max_scale crop_size (RANDOM_FLIP (DATA cfg))
                    (INV_UNIFORM_SAMPLE (DATA cfg)) relative_aspect
                    relative_scales
                    (if in_train then TRAIN_JITTER_MOTION_SHIFT (DATA cfg)
                     else false)) ;;
  if rand_erase self then
    let frames := permute frames [1; 0; 2; 3] in
    frames <- call (random_erasing (RE_PROB (AUG cfg)) (RE_MODE (AUG cfg))
                      (RE_COUNT (AUG cfg)) (RE_COUNT (AUG cfg)) "cpu" frames) ;;
    ret (permute frames [1; 0; 2; 3])
  else ret frames.

(** Lines 205 to 207. *)
Definition single (self : Hvu) (cfg : Cfg) (frames : Frames) (index : Z)
  : M (list pyval) :=
  labels <- lift (py_index (_labels self) index) ;;
  ret [PFrames (pack_pathway_output cfg frames); PTensor labels; PInt index;
       PEmptyDict].

(** Lines 171 to 207: what is returned once [frames] has been decoded. *)
Definition produce (self : Hvu) (cfg : Cfg) (s : Sampling) (frames : Frames)
    (index : Z) : M (list pyval) :=
  if aug self then
    if 1 <? NUM_SAMPLE (AUG cfg) then
      samples <-
        times (Z.to_nat (NUM_SAMPLE (AUG cfg)))
          (new_frames <- _aug_frame self cfg frames (spatial_sample_index s)
                           (min_scale s) (max_scale s) (crop_size s) ;;
           labels <- lift (py_index (_labels self) index) ;;
           ret (PFrames (pack_pathway_output cfg new_frames), PTensor labels,
                PInt index)) ;;
      ret [PList (samples.*1.*1); PList (samples.*1.*2); PList (samples.*2);
           PEmptyDict]
    else
      frames <- _aug_frame self cfg frames (spatial_sample_index s)
                  (min_scale s) (max_scale s) (crop_size s) ;;
      single self cfg frames index
  else
    let frames := tensor_normalize frames (MEAN (DATA cfg)) (STD (DATA cfg)) in
    let frames := permute frames [3; 0; 1; 2] in
    frames <- call (spatial_sampling frames (spatial_sample_index s)
                      (min_scale s) (max_scale s) (crop_size s)
                      (RANDOM_FLIP (DATA cfg)) (INV_UNIFORM_SAMPLE (DATA cfg))
                      None None false) ;;
    single self cfg frames index.

(** Lines 124 to 130: the [try] block.  Every message that is logged
    formats [self._path_to_videos[index]], so that look-up is made where the
    source makes it; in the handler it is outside the [try]. *)
Definition load (self : Hvu) (cfg : Cfg) (index : Z) : M (option Container) :=
  match py_index (_path_to_videos self) index with
  | Raise _ =>
      lift (py_index (_path_to_videos self) index) ;;;
      ret None
  | Ok path =>
      loaded <- call (get_video_container path
                        (ENABLE_MULTI_THREAD_DECODE (DATA_LOADER cfg))
                        (DECODING_BACKEND (DATA cfg))) ;;
      match loaded with
      | Raise _ =>
          lift (py_index (_path_to_videos self) index) ;;;
          ret None
      | Ok video_container => ret video_container
      end
  end.

(** Lines 133 to 148: the index of the next trial after a failed load. *)
Definition after_failed_load (self : Hvu) (i_try index : Z) : M Z :=
  lift (py_index (_path_to_videos self) index) ;;;
  if negb (bool_decide (mode self ∈ ["test"])) && (_num_retries self / 2 <? i_try)
  then py_randint 0 (Z.of_nat (length (_path_to_videos self)) - 1)
  else if bool_decide (mode self ∈ ["test"]) && (_num_retries self / 2 <? i_try)
  then
    lift (py_index (_path_to_videos self) index) ;;;
    ret (index - 1)
  else ret index.

(** Lines 165 to 169: the index of the next trial after a failed decode. *)
Definition after_failed_decode (self : Hvu) (i_try index : Z) : M Z :=
  lift (py_index (_path_to_videos self) index) ;;;
  if negb (bool_decide (mode self ∈ ["test"])) && (_num_retries self / 2 <? i_try)
  then py_randint 0 (Z.of_nat (length (_path_to_videos self)) - 1)
  else ret index.

(** Lines 151 to 163: the call of the decoder on [self._video_meta[index]],
    which the decoder may fill. *)
Definition decode_clip (r : nat) (cfg : Cfg) (s : Sampling) (sampling_rate : Z)
    (video_container : Container) (index : Z) : M (option Frames) :=
  self <- get_self r ;;
  video_meta <- lift (dict_get (_video_meta self) index) ;;
  decoded <- call (decode video_container sampling_rate (NUM_FRAMES (DATA cfg))
                     (temporal_sample_index s) (NUM_ENSEMBLE_VIEWS (TEST cfg))
                     video_meta (TARGET_FPS (DATA cfg))
                     (DECODING_BACKEND (DATA cfg)) (min_scale s)
                     (USE_OFFSET_SAMPLING (DATA cfg)) true) ;;
  update (with_objects (λ l, <[r := set_video_meta index decoded.1 self]> l)) ;;;
  ret decoded.2.

(** The loop [for i_try in range(self._num_retries)], with [trials] of its
    iterations left, and the [raise] after it. *)
Fixpoint retry (r : nat) (cfg : Cfg) (s : Sampling) (sampling_rate : Z)
    (trials : nat) (i_try index : Z) : M (list pyval) :=
  match trials with
  | O =>
      self <- get_self r ;;
      lift (py_index (_path_to_videos self) index) ;;;
      raise RuntimeError
  | S trials' =>
      self <- get_self r ;;
      video_container <- load self cfg index ;;
      match video_container with
      | None =>
          index' <- after_failed_load self i_try index ;;
          retry r cfg s sampling_rate trials' (i_try + 1) index'
      | Some c =>
          frames <- decode_clip r cfg s sampling_rate c index ;;
          match frames with
          | None =>
              index' <- after_failed_decode self i_try index ;;
              retry r cfg s sampling_rate trials' (i_try + 1) index'
          | Some frames => produce self cfg s frames index
          end
      end
  end.

(** [self[index]], or [self[(index, short_cycle_idx)]].  Nothing that runs
    during the call assigns to the configuration, so it is read once. *)
Definition __getitem__ (r : nat) (index : Z) (short_cycle_idx : option Z)
  : M (list pyval) :=
  self <- get_self r ;;
  cfg <- get_cfg ;;
  s <- lift (sampling self cfg index short_cycle_idx) ;;
  sampling_rate <- call (get_random_sampling_rate
                           (LONG_CYCLE_SAMPLING_RATE (MULTIGRID cfg))
                           (SAMPLING_RATE (DATA cfg))) ;;
  retry r cfg s sampling_rate (Z.to_nat (_num_retries self)) 0 index.

End hvu.
End Hvu.

(** ** A small instance, for running the definitions

    Video files either open or are unreadable, every container decodes, a
    clip is the list of the numbers it was sampled with, and the random
    generator is a counter. *)

Module Demo.
Import Py Torch Config Lib Hvu.

Record DemoExt := { unreadable : list string; seed : Z }.

Definition demo_randint (a b : Z) (e : DemoExt) : DemoExt * Z :=
  ({| unreadable := unreadable e; seed := seed e + 1 |},
   a + seed e mod (b - a + 1)).

Definition demo_library : Library :=
  {| Container := string;
     Frames := list Z;
     Image := Z;
     Meta := list Z;
     Ext := DemoExt;
     empty_meta := [];
     get_random_sampling_rate := λ _ rate e, (e, rate);
     get_video_container := λ path _ _ e,
       (e, if bool_decide (path ∈ unreadable e)
           then Raise LibraryError else Ok (Some path));
     decode := λ _ rate num_frames clip_idx num_clips _ _ _ _ _ _ e,
       (e, ([num_frames], Some [rate; clip_idx; num_clips]));
     tensor_normalize := λ frames _ _, frames;
     permute := λ frames _, frames;
     size := λ frames _, Z.of_nat (length frames);
     frame_at := λ frames i, [default 0 (frames !! Z.to_nat i)];
     spatial_sampling := λ frames spatial_idx _ _ crop _ _ _ _ _ e,
       (e, frames ++ [spatial_idx; crop]);
     pack_pathway_output := λ _ frames, [frames];
     random_augment := λ _ _ _ imgs e, (e, imgs);
     to_pil_image := λ frame, default 0 (head frame);
     to_tensor := λ img, [img];
     stack := λ l, concat l;
     random_erasing := λ _ _ _ _ _ frames e, (e, frames);
     randint := demo_randint;
     randint_range :=
       ltac:(abstract
               (intros a b e Hab; simpl;
                pose proof (Z.mod_pos_bound (seed e) (b - a + 1)); lia)) |}.

Definition demo_cfg (views crops : Z) (augment : bool) (samples : Z) : Cfg :=
  {| DATA :=
       {| PATH_TO_DATA_DIR := "/data"; PATH_LABEL_SEPARATOR := " ";
          PATH_PREFIX := "/videos"; TRAIN_JITTER_SCALES := [256; 320];
          TRAIN_CROP_SIZE := 224; TEST_CROP_SIZE := 224; SAMPLING_RATE := 8;
          NUM_FRAMES := 16; TARGET_FPS := 30; DECODING_BACKEND := "pyav";
          USE_OFFSET_SAMPLING := true;
          MEAN := [0.5%float; 0.5%float; 0.5%float];
          STD := [0.5%float; 0.5%float; 0.5%float];
          RANDOM_FLIP := true; INV_UNIFORM_SAMPLE := false;
          TRAIN_JITTER_SCALES_RELATIVE := []; TRAIN_JITTER_ASPECT_RELATIVE := [];
          TRAIN_JITTER_MOTION_SHIFT := false |};
     MODEL := {| NUM_CLASSES := 4 |};
     TEST := {| NUM_ENSEMBLE_VIEWS := views; NUM_SPATIAL_CROPS := crops |};
     AUG := {| ENABLE := augment; RE_PROB := 0.25%float; NUM_SAMPLE := samples;
               AA_TYPE := "rand-m7-n4-mstd0.5-inc1";
               INTERPOLATION := "bicubic"; RE_MODE := "pixel"; RE_COUNT := 1 |};
     MULTIGRID :=
       {| SHORT_CYCLE_FACTORS := [0.5%float; 0x1.6a09e667f3bcdp-1%float];
          DEFAULT_S := 0; LONG_CYCLE_SAMPLING_RATE := 0 |};
     DATA_LOADER := {| ENABLE_MULTI_THREAD_DECODE := false |} |}.

(** Two videos, the first with the labels 0 and 2, the second with 1. *)
Definition demo_lines : list string := ["a.mp4 0|2"; "b.mp4 1"].

Definition demo_files : gmap string (list string) :=
  {[ "/data/train.csv" := demo_lines; "/data/val.csv" := demo_lines;
     "/data/test.csv" := demo_lines ]}.

Definition demo_world (cfg : Cfg) (bad : list string) : @World demo_library :=
  {| w_cfg := cfg; w_files := demo_files; w_reads := []; w_tensors := [];
     w_objects := [];
     w_ext := ({| unreadable := bad; seed := 0 |} : @Ext demo_library) |}.



(** The world after [Hvu(cfg, mode, num_retries)] in [demo_world cfg bad]. *)
Definition demo_dataset (cfg : Cfg) (bad : list string) (mode : string)
    (num_retries : Z) : @World demo_library :=
  (__init__ (H := demo_library) mode num_retries (demo_world cfg bad)).1.

(** The object [r] of a world. *)
Definition no_object : @Hvu demo_library :=
  {| mode := ""; _num_retries := 0; _num_clips := 0; _path_to_videos := [];
     _labels := []; _spatial_temporal_idx := []; _video_meta := ∅;
     aug := false; rand_erase := false |}.

Definition demo_object (w : @World demo_library) (r : nat) : @Hvu demo_library :=
  default no_object (w_objects w !! r).

(** What a call returned, the empty tuple standing for an exception. *)
Definition returned (run : @World demo_library * result (list (@pyval demo_library)))
  : list (@pyval demo_library) :=
  match run.2 with
  | Ok out => out
  | Raise _ => []
  end.

(** A state dict with the layout of a CLIP model, tensors standing as
    numbers. *)
Definition demo_state_dict : @Extract.OrderedDict nat :=
  [ ("positional_embedding", 0%nat); ("text_projection", 1%nat);
    ("logit_scale", 2%nat); ("visual.class_embedding", 3%nat);
    ("visual.positional_embedding", 4%nat); ("visual.proj", 5%nat);
    ("visual.conv1.weight", 6%nat); ("visual.ln_pre.weight", 7%nat);
    ("visual.ln_pre.bias", 8%nat);
    ("visual.transformer.resblocks.0.attn.in_proj_weight", 9%nat);
    ("visual.transformer.resblocks.0.ln_1.weight", 10%nat);
    ("visual.ln_post.weight", 11%nat); ("visual.ln_post.bias", 12%nat);
    ("transformer.resblocks.0.attn.in_proj_weight", 13%nat);
    ("token_embedding.weight", 14%nat); ("ln_final.weight", 15%nat);
    ("ln_final.bias", 16%nat) ].

Definition demo_clip_load (name : string) : @Extract.OrderedDict nat :=
  demo_state_dict.

End Demo.

(** ** Notions used to state the properties of hvu.py *)

Module Inv.
Import Py Torch Config Lib Hvu.

(** The vector that the loop [for label in labels] leaves in a tensor. *)
Fixpoint set_all (t : Tensor) (labels : list Z) : result Tensor :=
  match labels with
  | [] => Ok t
  | label :: rest => t' <-? setitem t label 1%float ;; set_all t' rest
  end.

Definition one_hot (num_classes : Z) (labels : list Z) : result Tensor :=
  t <-? zeros num_classes ;; set_all t labels.

(** What one line of the split file stands for: a path, its labels and
    their vector. *)
Definition line_entry (cfg : Cfg) (path_label : string)
  : result (string * list Z * Tensor) :=
  entry <-? parse_line (PATH_LABEL_SEPARATOR (DATA cfg)) path_label ;;
  t <-? one_hot (NUM_CLASSES (MODEL cfg)) entry.2 ;;
  Ok (entry, t).

(** Each element [num_clips] times, in order. *)
Definition clips {A} (num_clips : Z) (xs : list A) : list A :=
  xs ≫= replicate (Z.to_nat num_clips).

(** The configuration and the number of clips per video that [__init__]
    leaves for a mode. *)
Definition init_cfg (mode : string) (cfg : Cfg) : Cfg :=
  if bool_decide (mode ∈ ["train"; "val"])
  then set_NUM_SPATIAL_CROPS 1 (set_NUM_ENSEMBLE_VIEWS 1 cfg) else cfg.

Definition init_num_clips (mode : string) (cfg : Cfg) : Z :=
  if bool_decide (mode ∈ ["train"; "val"]) then 1
  else NUM_ENSEMBLE_VIEWS (TEST cfg) * NUM_SPATIAL_CROPS (TEST cfg).

Section inv.

Context `{Library}.

(** Two states of one [Hvu] object: everything but the contents of the meta
    data is the same. *)
Definition same_dataset (a b : Hvu) : Prop :=
  mode a = mode b ∧ _num_retries a = _num_retries b ∧
  _num_clips a = _num_clips b ∧
  _path_to_videos a = _path_to_videos b ∧ _labels a = _labels b ∧
  _spatial_temporal_idx a = _spatial_temporal_idx b ∧
  aug a = aug b ∧ rand_erase a = rand_erase b ∧
  dom (_video_meta a) = dom (_video_meta b).

(** What the constructor establishes of an object. *)
Definition well_formed (self : Hvu) : Prop :=
  mode self ∈ ["train"; "val"; "test"] ∧
  (0 < length (_path_to_videos self))%nat ∧
  length (_labels self) = length (_path_to_videos self) ∧
  length (_spatial_temporal_idx self) = length (_path_to_videos self) ∧
  ∀ z, is_Some (_video_meta self !! z) ↔ 0 ≤ z < __len__ self.

(** A step from [w] to [w'] that leaves everything in place but the state
    of the libraries and the meta data of the object [r]. *)
Definition steady (r : nat) (w w' : World) : Prop :=
  w_cfg w' = w_cfg w ∧ w_files w' = w_files w ∧ w_reads w' = w_reads w ∧
  w_tensors w' = w_tensors w ∧
  length (w_objects w') = length (w_objects w) ∧
  (∀ r', r' ≠ r → w_objects w' !! r' = w_objects w !! r') ∧
  (∀ self, w_objects w !! r = Some self →
     ∃ self', w_objects w' !! r = Some self' ∧ same_dataset self self').

(** The two forms of a returned tuple for the sample [index] with the label
    vector [labels]: one clip, or [NUM_SAMPLE] clips. *)
Definition single_tuple (ret : list pyval) (labels : nat) (index : Z) : Prop :=
  ∃ pathways,
    ret = [PFrames pathways; PTensor labels; PInt index; PEmptyDict].

Definition multi_tuple (ret : list pyval) (labels : nat) (index : Z)
    (num_sample : Z) : Prop :=
  ∃ frame_list,
    length frame_list = Z.to_nat num_sample ∧
    ret = [PList (PFrames <$> frame_list);
           PList (replicate (Z.to_nat num_sample) (PTensor labels));
           PList (replicate (Z.to_nat num_sample) (PInt index));
           PEmptyDict].

Definition returned_tuple (self : Hvu) (cfg : Cfg) (ret : list pyval)
    (index : Z) : Prop :=
  ∃ labels,
    py_index (_labels self) index = Ok labels ∧
    if aug self && (1 <? NUM_SAMPLE (AUG cfg))
    then multi_tuple ret labels index (NUM_SAMPLE (AUG cfg))
    else single_tuple ret labels index.

(** The world after the assignments of lines 42 to 47. *)
Definition init_world (mode : string) (w : World) : World :=
  if bool_decide (mode ∈ ["train"; "val"])
  then with_cfg (set_NUM_SPATIAL_CROPS 1) (with_cfg (set_NUM_ENSEMBLE_VIEWS 1) w)
  else w.

(** The world after a successful construction of [self] from the lines with
    the vectors [ts]. *)
Definition constructed_world (mode : string) (w : World) (ts : list Tensor)
    (self : Hvu) : World :=
  let p := split_file (w_cfg w) mode in
  with_objects (λ l, l ++ [self])
    (with_tensors (λ l, l ++ ts)
       (with_reads (λ l, l ++ [Read p])
          (with_reads (λ l, l ++ [Exists p]) (init_world mode w)))).

(** A computation all of whose steps are steady for the object [r]. *)
Definition Steady {A} (r : nat) (c : M A) : Prop :=
  ∀ w w' res, c w = (w', res) → steady r w w'.

(** What later calls keep of a world: the tensors, and every data set up to
    the contents of its meta data. *)
Definition kept (w w' : World) : Prop :=
  (∀ i t, w_tensors w !! i = Some t → w_tensors w' !! i = Some t) ∧
  (∀ r self, w_objects w !! r = Some self →
     ∃ self', w_objects w' !! r = Some self' ∧ same_dataset self self').

(** Steps of the constructor: they leave the objects and the tensors that
    exist in place. *)
Definition Keeps {A} (c : M A) : Prop :=
  ∀ w w' res, c w = (w', res) → kept w w'.

(** Steps that leave the configuration as it is. *)
Definition SameCfg {A} (c : M A) : Prop :=
  ∀ w w' res, c w = (w', res) → w_cfg w' = w_cfg w.

(** The worlds that calls of [__getitem__] and of [__init__], on any data
    set, lead to. *)
Inductive later : World → World → Prop :=
  | later_now w : later w w
  | later_getitem w w1 r index short_cycle_idx :
      later w w1 → later w (__getitem__ r index short_cycle_idx w1).1
  | later_init w w1 mode num_retries :
      later w w1 → later w (__init__ mode num_retries w1).1.

End inv.
End Inv.

(** ** Further notions and instances

    Joined text, to state how a line of a split file is read, and two more
    small instances. *)

Module Lines.
Import Py.

(** [sep.join(l)] *)
Fixpoint str_join (sep : string) (l : list string) : string :=
  match l with
  | [] => EmptyString
  | s :: rest =>
      match rest with
      | [] => s
      | _ :: _ => s +:+ sep +:+ str_join sep rest
      end
  end.

End Lines.

Module MoreDemo.
Import Py Torch Config Lib Hvu Demo.

(** A world whose test split has the given lines. *)
Definition labelled_world (cfg : Cfg) (lines : list string)
  : @World demo_library :=
  {| w_cfg := cfg; w_files := {[ "/data/test.csv" := lines ]};
     w_reads := []; w_tensors := []; w_objects := [];
     w_ext := ({| unreadable := []; seed := 0 |} : @Ext demo_library) |}.


(** A state dict in which two keys are cut to the same name. *)
Definition clashing_state_dict : @Extract.OrderedDict nat :=
  [ ("visual.visual.w", 1%nat); ("0123456visual.w", 2%nat) ].

End MoreDemo.

(** * Properties of extract.py *)

Module ExtractProofs.
Import Py Extract.

Section proofs.

Context {Tensor : Type}.
Implicit Types (d sd : @OrderedDict Tensor) (k j : string) (v : Tensor).

Lemma od_get_set d k v j :
  od_get j (od_set k v d) = if decide (k = j) then Some v else od_get j d.
Proof.
  induction d as [|[k' v'] d IH]; simpl.
  - destruct (decide (k = j)); reflexivity.
  - destruct (decide (k' = k)) as [->|Hne]; simpl.
    + destruct (decide (k = j)); reflexivity.
    + rewrite IH. destruct (decide (k' = j)) as [->|]; [|reflexivity].
      destruct (decide (k = j)); congruence.
Qed.

Lemma od_keys_set d k v j :
  j ∈ od_keys (od_set k v d) ↔ j = k ∨ j ∈ od_keys d.
Proof.
  unfold od_keys. induction d as [|[k' v'] d IH]; simpl.
  - rewrite list_elem_of_singleton, elem_of_nil. tauto.
  - destruct (decide (k' = k)) as [->|Hne]; simpl;
      rewrite !elem_of_cons; [tauto|]. rewrite IH. tauto.
Qed.

Lemma od_get_keys d j : is_Some (od_get j d) ↔ j ∈ od_keys d.
Proof.
  unfold od_keys. induction d as [|[k' v'] d IH]; simpl.
  - split; [intros [? [=]] | intros ?%elem_of_nil; done].
  - rewrite elem_of_cons. destruct (decide (k' = j)) as [->|Hne].
    + split; eauto.
    + rewrite IH. split; [tauto | intros [->|?]; done].
Qed.

Lemma od_keys_snoc d k v j :
  j ∈ od_keys (d ++ [(k, v)]) ↔ j ∈ od_keys d ∨ j = k.
Proof.
  unfold od_keys. rewrite fmap_app, elem_of_app. simpl.
  by rewrite list_elem_of_singleton.
Qed.

Lemma extract_step_selected d k v :
  extract_step d (k, v) =
  if selected k then od_set (str_from 7 k) v d else d.
Proof.
  unfold extract_step, selected.
  destruct (str_in "visual." k); simpl; [|reflexivity].
  destruct (bool_decide _); reflexivity.
Qed.

Lemma extract_snoc sd k v :
  extract (sd ++ [(k, v)]) = extract_step (extract sd) (k, v).
Proof. unfold extract. by rewrite foldl_app. Qed.

(** The keys that are saved are the renamed selected keys. *)
Lemma extract_keys sd j :
  j ∈ od_keys (extract sd) ↔
  ∃ k, k ∈ od_keys sd ∧ selected k = true ∧ j = str_from 7 k.
Proof.
  induction sd as [|[k v] sd IH] using rev_ind.
  - unfold od_keys; simpl. split; [intros ?%elem_of_nil; done|].
    intros (k & ?%elem_of_nil & _); done.
  - rewrite extract_snoc, extract_step_selected.
    destruct (selected k) eqn:Hk.
    + rewrite od_keys_set, IH. split.
      * intros [->|(k' & Hin & Hs & ->)].
        -- exists k. rewrite od_keys_snoc. auto.
        -- exists k'. rewrite od_keys_snoc. auto.
      * intros (k' & [Hin| ->]%od_keys_snoc & Hs & ->); eauto.
    + rewrite IH. split.
      * intros (k' & Hin & Hs & ->). exists k'. rewrite od_keys_snoc. auto.
      * intros (k' & [Hin| ->]%od_keys_snoc & Hs & ->); [eauto | congruence].
Qed.

(** Every value that is saved is the value of a selected key with that
    new name. *)
Lemma extract_values sd j v :
  od_get j (extract sd) = Some v →
  ∃ k, (k, v) ∈ sd ∧ selected k = true ∧ j = str_from 7 k.
Proof.
  revert v. induction sd as [|[k v'] sd IH] using rev_ind; intros v.
  - discriminate.
  - rewrite extract_snoc, extract_step_selected.
    destruct (selected k) eqn:Hk.
    + rewrite od_get_set. destruct (decide (str_from 7 k = j)) as [<-|Hne].
      * intros [= ->]. exists k. rewrite elem_of_app, list_elem_of_singleton. auto.
      * intros (k' & ? & ? & ->)%IH. exists k'. rewrite elem_of_app. auto.
    + intros (k' & ? & ? & ->)%IH. exists k'. rewrite elem_of_app. auto.
Qed.

(** The value saved under a new name is that of the last selected key with
    that new name. *)
Lemma extract_last sd1 sd2 k v :
  selected k = true →
  (∀ k', k' ∈ od_keys sd2 → selected k' = true → str_from 7 k' ≠ str_from 7 k) →
  od_get (str_from 7 k) (extract (sd1 ++ (k, v) :: sd2)) = Some v.
Proof.
  intros Hk. induction sd2 as [|[k2 v2] sd2 IH] using rev_ind; intros Hlast.
  - rewrite extract_snoc, extract_step_selected, Hk, od_get_set.
    by rewrite decide_True.
  - replace (sd1 ++ (k, v) :: sd2 ++ [(k2, v2)])
      with ((sd1 ++ (k, v) :: sd2) ++ [(k2, v2)])
      by (by rewrite <- app_assoc).
    rewrite extract_snoc, extract_step_selected.
    assert (IH' : od_get (str_from 7 k) (extract (sd1 ++ (k, v) :: sd2)) = Some v).
    { apply IH. intros k' Hin. apply Hlast. rewrite od_keys_snoc. auto. }
    destruct (selected k2) eqn:Hk2; [|done].
    rewrite od_get_set, decide_False; [done|].
    apply Hlast; [|done]. rewrite od_keys_snoc. auto.
Qed.

Lemma extract_value sd k v :
  NoDup (od_keys sd) → rename_injective sd →
  (k, v) ∈ sd → selected k = true →
  od_get (str_from 7 k) (extract sd) = Some v.
Proof.
  intros Hnd Hinj Hin Hk.
  apply list_elem_of_split in Hin as (sd1 & sd2 & ->).
  apply extract_last; [done|].
  intros k' Hin' Hk' Heq.
  unfold od_keys in Hnd. rewrite fmap_app in Hnd. simpl in Hnd.
  apply NoDup_app in Hnd as (_ & _ & Hnd).
  apply NoDup_cons in Hnd as [Hnd _].
  assert (k' = k) as ->; [|done].
  apply Hinj; try done; unfold od_keys in *; rewrite fmap_app, elem_of_app;
    simpl; rewrite elem_of_cons; auto.
Qed.

(** Keys in which "visual." occurs only at the start are renamed
    injectively. *)
Lemma str_from_prefix (p s : string) :
  String.prefix p s = true → s = p +:+ str_from (String.length p) s.
Proof.
  revert s. induction p as [|c p IH]; intros [|c' s]; simpl; try done.
  destruct (Ascii.ascii_dec c c') as [->|]; [|done].
  intros Hp. change (String c' s = String c' (p +:+ str_from (String.length p) s)).
  f_equal. by apply IH.
Qed.

Lemma prefix_rename_injective sd :
  forallb (λ k, implb (selected k) (String.prefix "visual." k)) (od_keys sd) = true →
  rename_injective sd.
Proof.
  intros Hall k1 k2 Hin1 Hin2 Hs1 Hs2 Heq.
  rewrite forallb_forall in Hall.
  pose proof (Hall k1 (proj1 (list_elem_of_In _ _) Hin1)) as H1.
  pose proof (Hall k2 (proj1 (list_elem_of_In _ _) Hin2)) as H2.
  rewrite Hs1 in H1. rewrite Hs2 in H2. simpl in H1, H2.
  apply str_from_prefix in H1, H2.
  change (String.length "visual.") with 7%nat in H1, H2.
  rewrite H1, Heq. symmetry. exact H2.
Qed.

(** C2: for each of the three models, the file that is saved holds the
    filtered and renamed state dict of that model.  Its keys are exactly the
    names [k[7:]] of the keys [k] in which "visual." occurs and for which
    [k[7:]] is none of "proj", "ln_post.weight", "ln_post.bias"; the value
    under [k[7:]] is the value under [k], and every value in it is a value
    of the model's state dict, unchanged.  A state dict has each key once;
    that [k[7:]] tells the selected keys apart holds for the CLIP models,
    where "visual." occurs only at the start of a key. *)
Theorem saved_state_dict_is_filter_rename
    (clip_load : string → @OrderedDict Tensor) (file name : string) :
  (file, name) ∈ model_of →
  NoDup (od_keys (clip_load name)) →
  rename_injective (clip_load name) →
  let state_dict := clip_load name in
  ∃ saved,
    (script clip_load).*1 = model_of.*1 ∧
    (file, saved) ∈ script clip_load ∧
    (∀ j, j ∈ od_keys saved ↔
          (∃ k, k ∈ od_keys state_dict ∧ str_in "visual." k = true ∧
                (str_from 7 k ∉ dropped_keys) ∧ j = str_from 7 k)) ∧
    (∀ k v, (k, v) ∈ state_dict → str_in "visual." k = true →
            str_from 7 k ∉ dropped_keys →
            od_get (str_from 7 k) saved = Some v) ∧
    (∀ j v, od_get j saved = Some v →
            (∃ k, (k, v) ∈ state_dict ∧ str_in "visual." k = true ∧
                  (str_from 7 k ∉ dropped_keys) ∧ j = str_from 7 k)).
Proof.
  intros Hfile Hnd Hinj state_dict.
  assert (Hsel : ∀ k, selected k = true ↔
                      str_in "visual." k = true ∧ str_from 7 k ∉ dropped_keys).
  { intros k. unfold selected.
    rewrite andb_true_iff, bool_decide_eq_true. done. }
  exists (extract state_dict). split; [reflexivity|]. split.
  { unfold model_of, script in *. subst state_dict.
    repeat (apply elem_of_cons in Hfile as [[= -> ->]|Hfile];
            [rewrite !elem_of_cons; auto|]).
    by apply elem_of_nil in Hfile. }
  split; [|split].
  - intros j. rewrite extract_keys. split.
    + intros (k & ? & ?%Hsel & ->). exists k. tauto.
    + intros (k & ? & ? & ? & ->). exists k. rewrite Hsel. tauto.
  - intros k v Hin H1 H2. apply extract_value; try done. by apply Hsel.
  - intros j v (k & ? & ?%Hsel & ->)%extract_values. exists k. tauto.
Qed.

End proofs.
End ExtractProofs.

(** * Properties of hvu.py *)

Module HvuProofs.
Import Py Torch Config Lib Hvu Inv.

Section proofs.

Context `{Library}.

Lemma bind_ok {A B} (c : M A) (k : A → M B) w w' b :
  bind c k w = (w', Ok b) →
  ∃ w1 a, c w = (w1, Ok a) ∧ k a w1 = (w', Ok b).
Proof.
  unfold bind. destruct (c w) as [w1 [a|e]]; [eauto | discriminate].
Qed.

Lemma bind_inv {A B} (c : M A) (k : A → M B) w w' res :
  bind c k w = (w', res) →
  (∃ w1 a, c w = (w1, Ok a) ∧ k a w1 = (w', res)) ∨
  (∃ e, c w = (w', Raise e) ∧ res = Raise e).
Proof.
  unfold bind. destruct (c w) as [w1 [a|e]]; [eauto|].
  intros [= <- <-]. eauto.
Qed.

Lemma with_tensors_app (w : World) ts1 ts2 :
  with_tensors (λ l, l ++ ts2) (with_tensors (λ l, l ++ ts1) w) =
  with_tensors (λ l, l ++ (ts1 ++ ts2)) w.
Proof. unfold with_tensors. simpl. by rewrite app_assoc. Qed.

Lemma with_tensors_nil (w : World) : with_tensors (λ l, l ++ []) w = w.
Proof. destruct w. unfold with_tensors. simpl. by rewrite app_nil_r. Qed.

Lemma set_ones_spec r labels (w : World) t :
  w_tensors w !! r = Some t →
  match set_all t labels with
  | Ok t' => set_ones r labels w = (with_tensors (λ ts, <[r := t']> ts) w, Ok tt)
  | Raise e => (set_ones r labels w).2 = Raise e
  end.
Proof.
  revert w t. induction labels as [|label rest IH]; intros w t Hr; simpl.
  - unfold ret. f_equal. destruct w. unfold with_tensors. simpl in *.
    by rewrite list_insert_id.
  - unfold bind, set_one. rewrite Hr.
    destruct (setitem t label 1) as [t1|e]; simpl; [|done].
    specialize (IH (with_tensors (λ ts, <[r:=t1]> ts) w) t1).
    simpl in IH. rewrite list_lookup_insert_eq in IH by (by eapply lookup_lt_Some).
    specialize (IH eq_refl).
    destruct (set_all t1 rest) as [t'|e]; [|done].
    rewrite IH. f_equal. unfold with_tensors; simpl.
    by rewrite list_insert_insert_eq.
Qed.

Lemma load_line_spec cfg nc acc ci line (w : World) :
  match line_entry cfg line with
  | Ok (path, labels, t) =>
      load_line cfg nc acc ci line w =
        (with_tensors (λ l, l ++ [t]) w,
         Ok (foldl (add_clip (PATH_PREFIX (DATA cfg)) path
                      (length (w_tensors w)) ci nc) acc (range nc)))
  | Raise e => (load_line cfg nc acc ci line w).2 = Raise e
  end.
Proof.
  unfold line_entry, load_line, one_hot, bind, lift, rbind.
  destruct (parse_line _ line) as [[path labels]|e]; simpl; [|done].
  unfold new_zeros.
  destruct (zeros _) as [t0|e]; simpl; [|done].
  pose proof (set_ones_spec (length (w_tensors w)) labels
                (with_tensors (λ ts, ts ++ [t0]) w) t0) as Hs.
  simpl in Hs. rewrite lookup_app_r, Nat.sub_diag in Hs by done.
  specialize (Hs eq_refl).
  destruct (set_all t0 labels) as [t|e].
  - rewrite Hs. unfold ret, with_tensors. simpl. do 2 f_equal.
    rewrite insert_app_r_alt, Nat.sub_diag by done. done.
  - destruct (set_ones _ _ _) as [w1 [[]|e']]; simpl in *; congruence.
Qed.

Lemma add_clips prefix path r ci nc acc n :
  ∀ acc', acc' = foldl (add_clip prefix path r ci nc) acc (Z.of_nat <$> seq 0 n) →
  l_paths acc' = l_paths acc ++ replicate n (os_path_join prefix path) ∧
  l_labels acc' = l_labels acc ++ replicate n r ∧
  l_idx acc' = l_idx acc ++ (Z.of_nat <$> seq 0 n) ∧
  ∀ z, is_Some (l_meta acc' !! z) ↔
       is_Some (l_meta acc !! z) ∨ ci * nc ≤ z < ci * nc + Z.of_nat n.
Proof.
  induction n as [|n IH]; intros acc' ->.
  - simpl. rewrite !app_nil_r. split_and!; try done. intros z. split; [auto|].
    intros [?|?]; [done|lia].
  - rewrite seq_S, fmap_app, foldl_app. simpl.
    destruct (IH _ eq_refl) as (IH1 & IH2 & IH3 & IH4).
    rewrite IH1, IH2, IH3.
    rewrite <- !app_assoc, <- !replicate_cons_app.
    split_and!; try done.
    intros z. destruct (decide (z = ci * nc + Z.of_nat n)) as [->|Hne].
    + rewrite lookup_insert_eq. split; [intros _; right; lia | eauto].
    + rewrite lookup_insert_ne by done. rewrite IH4.
      split; (intros [?|?]; [by left | right; lia]).
Qed.

Lemma clips_cons {A} nc (x : A) xs :
  clips nc (x :: xs) = replicate (Z.to_nat nc) x ++ clips nc xs.
Proof. reflexivity. Qed.

Lemma clips_app {A} nc (xs ys : list A) :
  clips nc (xs ++ ys) = clips nc xs ++ clips nc ys.
Proof. unfold clips. apply bind_app. Qed.

Lemma length_clips {A} nc (xs : list A) :
  length (clips nc xs) = (length xs * Z.to_nat nc)%nat.
Proof.
  induction xs as [|x xs IH]; [done|].
  rewrite clips_cons, length_app, length_replicate, IH. simpl. lia.
Qed.

Lemma clips_lookup {A} nc (xs : list A) v i :
  (i < Z.to_nat nc)%nat →
  clips nc xs !! (v * Z.to_nat nc + i)%nat = xs !! v.
Proof.
  intros Hi. revert v. induction xs as [|x xs IH]; intros v.
  - done.
  - rewrite clips_cons. destruct v as [|v]; simpl.
    + rewrite lookup_app_l by (by rewrite length_replicate).
      by rewrite lookup_replicate_2.
    + rewrite lookup_app_r by (rewrite length_replicate; lia).
      rewrite length_replicate.
      replace (Z.to_nat nc + v * Z.to_nat nc + i - Z.to_nat nc)%nat
        with (v * Z.to_nat nc + i)%nat by lia.
      apply IH.
Qed.

Lemma range_lookup nc i :
  (i < Z.to_nat nc)%nat → range nc !! i = Some (Z.of_nat i).
Proof.
  intros Hi. unfold range. rewrite list_lookup_fmap, lookup_seq_lt by done.
  done.
Qed.

Lemma repeated_range_lookup k nc v i :
  (v < k)%nat → (i < Z.to_nat nc)%nat →
  concat (replicate k (range nc)) !! (v * Z.to_nat nc + i)%nat = Some (Z.of_nat i).
Proof.
  intros Hv Hi. revert v Hv. induction k as [|k IH]; intros v Hv; [lia|].
  simpl. assert (Hlen : length (range nc) = Z.to_nat nc).
  { unfold range. by rewrite length_fmap, length_seq. }
  destruct v as [|v]; simpl.
  - rewrite lookup_app_l by lia. by apply range_lookup.
  - rewrite lookup_app_r by lia. rewrite Hlen.
    replace (Z.to_nat nc + v * Z.to_nat nc + i - Z.to_nat nc)%nat
      with (v * Z.to_nat nc + i)%nat by lia.
    apply IH. lia.
Qed.

Lemma length_repeated_range k nc :
  length (concat (replicate k (range nc))) = (k * Z.to_nat nc)%nat.
Proof.
  induction k as [|k IH]; [done|]. simpl.
  rewrite length_app, IH. unfold range. rewrite length_fmap, length_seq. lia.
Qed.


Lemma rmap_length {A B} (f : A → result B) l l' :
  rmap f l = Ok l' → length l' = length l.
Proof.
  revert l'. induction l as [|a l IH]; intros l'; simpl.
  - by intros [= <-].
  - destruct (f a); simpl; [|done]. destruct (rmap f l); simpl; [|done].
    intros [= <-]. simpl. f_equal. by apply IH.
Qed.

Lemma load_lines_spec cfg nc lines : ∀ acc ci (w : World),
  match rmap (line_entry cfg) lines with
  | Ok entries =>
      ∃ acc',
        load_lines cfg nc acc ci lines w =
          (with_tensors (λ l, l ++ entries.*2) w, Ok acc') ∧
        l_paths acc' =
          l_paths acc ++
          clips nc (os_path_join (PATH_PREFIX (DATA cfg)) <$> entries.*1.*1) ∧
        l_labels acc' =
          l_labels acc ++ clips nc (seq (length (w_tensors w)) (length lines)) ∧
        l_idx acc' = l_idx acc ++ concat (replicate (length lines) (range nc)) ∧
        ∀ z, is_Some (l_meta acc' !! z) ↔
             is_Some (l_meta acc !! z) ∨
             ci * nc ≤ z < ci * nc + Z.of_nat (length lines * Z.to_nat nc)
  | Raise e => (load_lines cfg nc acc ci lines w).2 = Raise e
  end.
Proof.
  induction lines as [|line rest IH]; intros acc ci w.
  - simpl. exists acc. rewrite with_tensors_nil, !app_nil_r.
    split_and!; try done. intros z. split; [auto|]. intros [?|?]; [done|lia].
  - simpl. unfold bind.
    pose proof (load_line_spec cfg nc acc ci line w) as Hline.
    destruct (line_entry cfg line) as [[[path labels] t]|e]; simpl.
    2:{ destruct (load_line _ _ _ _ _ _) as [w1 [a|e']]; simpl in *; congruence. }
    rewrite Hline.
    set (acc1 := foldl _ acc (range nc)).
    specialize (IH acc1 (ci + 1) (with_tensors (λ l, l ++ [t]) w)).
    destruct (rmap (line_entry cfg) rest) as [entries|e]; simpl; [|done].
    destruct IH as (acc' & Hrun & Hp & Hl & Hi & Hm).
    exists acc'. rewrite Hrun, with_tensors_app.
    destruct (add_clips (PATH_PREFIX (DATA cfg)) path (length (w_tensors w))
                ci nc acc (Z.to_nat nc) acc1 eq_refl) as (Cp & Cl & Ci & Cm).
    split_and!; try done.
    + rewrite Hp, Cp, <- app_assoc. done.
    + rewrite Hl, Cl, <- app_assoc. simpl.
      rewrite length_app. simpl. by rewrite Nat.add_1_r.
    + rewrite Hi, Ci, <- app_assoc. done.
    + intros z. rewrite Hm, Cm.
      destruct (Z.le_gt_cases nc 0).
      * replace (Z.to_nat nc) with 0%nat by lia. rewrite !Nat.mul_0_r.
        split; (intros [[?|?]|?]; [by left|lia..]) || (intros [?|?]; [by left; left|lia]).
      * rewrite !Nat2Z.inj_mul, !Z2Nat.id by lia.
        replace (Z.of_nat (S (length rest))) with (Z.of_nat (length rest) + 1) by lia.
        split.
        -- intros [[?|?]|?]; [by left|right; nia..].
        -- intros [?|?]; [by left; left|].
           destruct (decide (z < ci * nc + nc)); [left; right; lia|right; nia].
Qed.

Lemma construct_loader_spec mode nc (w : World) :
  let p := split_file (w_cfg w) mode in
  match w_files w !! p with
  | None =>
      _construct_loader mode nc w =
        (with_reads (λ l, l ++ [Exists p]) w, Raise AssertionError)
  | Some lines =>
      let w1 := with_reads (λ l, l ++ [Read p])
                  (with_reads (λ l, l ++ [Exists p]) w) in
      match rmap (line_entry (w_cfg w)) lines with
      | Raise e => (_construct_loader mode nc w).2 = Raise e
      | Ok entries =>
          if bool_decide (0 < length lines * Z.to_nat nc)%nat then
            ∃ acc,
              _construct_loader mode nc w =
                (with_tensors (λ l, l ++ entries.*2) w1, Ok acc) ∧
              l_paths acc =
                clips nc (os_path_join (PATH_PREFIX (DATA (w_cfg w))) <$>
                          entries.*1.*1) ∧
              l_labels acc =
                clips nc (seq (length (w_tensors w)) (length lines)) ∧
              l_idx acc = concat (replicate (length lines) (range nc)) ∧
              ∀ z, is_Some (l_meta acc !! z) ↔
                   0 ≤ z < Z.of_nat (length lines * Z.to_nat nc)
          else
            _construct_loader mode nc w =
              (with_tensors (λ l, l ++ entries.*2) w1, Raise AssertionError)
      end
  end.
Proof.
  intros p. unfold _construct_loader, bind, get_cfg, pathmgr_exists.
  fold p. destruct (w_files w !! p) as [lines|] eqn:Hp.
  2:{ rewrite bool_decide_eq_false_2 by (intros [? [=]]). reflexivity. }
  rewrite (bool_decide_eq_true_2 (is_Some (Some lines))) by done.
  unfold assert at 1, ret at 1.
  unfold pathmgr_read_lines. simpl. rewrite Hp.
  set (w1 := with_reads _ (with_reads _ w)).
  pose proof (load_lines_spec (w_cfg w) nc lines no_entries 0 w1) as Hl.
  destruct (rmap (line_entry (w_cfg w)) lines) as [entries|e] eqn:Hentries.
  2:{ destruct (load_lines _ _ _ _ _ _) as [w2 [a|e']]; simpl in *; congruence. }
  destruct Hl as (acc & Hrun & Hpa & Hla & Hia & Hma). rewrite Hrun.
  assert (Hlen : length (l_paths acc) = (length lines * Z.to_nat nc)%nat).
  { rewrite Hpa. simpl. rewrite length_clips, !length_fmap.
    by rewrite (rmap_length _ _ _ Hentries). }
  rewrite Hlen. case_bool_decide; unfold assert, ret, raise.
  - exists acc. split_and!; try done. intros z. rewrite Hma.
    unfold no_entries; simpl. rewrite lookup_empty.
    split; [intros [[? [=]]|?]; lia | intros ?; right; lia].
  - done.
Qed.

Lemma init_world_cfg mode (w : World) :
  w_cfg (init_world mode w) = init_cfg mode (w_cfg w).
Proof. unfold init_world, init_cfg. by case_bool_decide. Qed.

Lemma init_cfg_split_file mode mode' cfg :
  split_file (init_cfg mode cfg) mode' = split_file cfg mode'.
Proof. unfold init_cfg. by case_bool_decide. Qed.

Lemma init_cfg_line_entry mode cfg line :
  line_entry (init_cfg mode cfg) line = line_entry cfg line.
Proof. unfold init_cfg. by case_bool_decide. Qed.

Lemma init_invalid mode nr (w : World) :
  mode ∉ ["train"; "val"; "test"] →
  __init__ mode nr w = (w, Raise AssertionError).
Proof.
  intros Hm. unfold __init__, bind.
  by rewrite (bool_decide_eq_false_2 (mode ∈ ["train"; "val"; "test"])).
Qed.

Lemma init_unfold mode nr (w : World) :
  mode ∈ ["train"; "val"; "test"] →
  __init__ mode nr w =
  (acc <- _construct_loader mode (init_num_clips mode (w_cfg w)) ;;
   cfg <- get_cfg ;;
   let aug := bool_decide (mode = "train") && ENABLE (AUG cfg) in
   let rand_erase := aug && PrimFloat.ltb 0 (RE_PROB (AUG cfg)) in
   new_object
     {| mode := mode; _num_retries := nr;
        _num_clips := init_num_clips mode (w_cfg w);
        _path_to_videos := l_paths acc; _labels := l_labels acc;
        _spatial_temporal_idx := l_idx acc; _video_meta := l_meta acc;
        aug := aug; rand_erase := rand_erase |}) (init_world mode w).
Proof.
  intros Hm. unfold __init__, init_world, init_num_clips.
  unfold bind at 1. rewrite (bool_decide_eq_true_2 _ Hm).
  unfold assert, ret at 1. unfold bind at 1.
  case_bool_decide as Htv.
  - reflexivity.
  - rewrite (bool_decide_eq_true_2 (mode ∈ ["test"])); [reflexivity|].
    repeat (apply elem_of_cons in Hm as [->|Hm]);
      [exfalso; apply Htv; rewrite !elem_of_cons; auto..
      |rewrite elem_of_cons; auto
      |by apply elem_of_nil in Hm].
Qed.

Lemma init_spec mode nr (w : World) :
  mode ∈ ["train"; "val"; "test"] →
  let cfg := init_cfg mode (w_cfg w) in
  let nc := init_num_clips mode (w_cfg w) in
  let p := split_file (w_cfg w) mode in
  match w_files w !! p with
  | None =>
      __init__ mode nr w =
        (with_reads (λ l, l ++ [Exists p]) (init_world mode w),
         Raise AssertionError)
  | Some lines =>
      match rmap (line_entry (w_cfg w)) lines with
      | Raise e => (__init__ mode nr w).2 = Raise e
      | Ok entries =>
          if bool_decide (0 < length lines * Z.to_nat nc)%nat then
            ∃ self,
              __init__ mode nr w =
                (constructed_world mode w entries.*2 self,
                 Ok (length (w_objects w))) ∧
              Hvu.mode self = mode ∧ _num_retries self = nr ∧
              _num_clips self = nc ∧
              _path_to_videos self =
                clips nc (os_path_join (PATH_PREFIX (DATA cfg)) <$>
                          entries.*1.*1) ∧
              _labels self =
                clips nc (seq (length (w_tensors w)) (length lines)) ∧
              _spatial_temporal_idx self =
                concat (replicate (length lines) (range nc)) ∧
              (∀ z, is_Some (_video_meta self !! z) ↔
                    0 ≤ z < Z.of_nat (length lines * Z.to_nat nc)) ∧
              aug self = bool_decide (mode = "train") && ENABLE (AUG cfg) ∧
              rand_erase self =
                aug self && PrimFloat.ltb 0 (RE_PROB (AUG cfg))
          else (__init__ mode nr w).2 = Raise AssertionError
      end
  end.
Proof.
  intros Hm cfg nc p. rewrite (init_unfold _ _ _ Hm). fold nc.
  pose proof (construct_loader_spec mode nc (init_world mode w)) as Hc.
  simpl in Hc. rewrite init_world_cfg, init_cfg_split_file in Hc. fold p in Hc.
  assert (Hfiles : w_files (init_world mode w) = w_files w).
  { unfold init_world. by case_bool_decide. }
  assert (Htens : w_tensors (init_world mode w) = w_tensors w).
  { unfold init_world. by case_bool_decide. }
  assert (Hobjs : w_objects (init_world mode w) = w_objects w).
  { unfold init_world. by case_bool_decide. }
  rewrite Hfiles, Htens in Hc.
  destruct (w_files w !! p) as [lines|].
  2:{ unfold bind. by rewrite Hc. }
  assert (Hentries : rmap (line_entry (init_cfg mode (w_cfg w))) lines =
                     rmap (line_entry (w_cfg w)) lines).
  { clear. induction lines as [|l ls IH]; [done|]. simpl.
    by rewrite init_cfg_line_entry, IH. }
  rewrite Hentries in Hc.
  destruct (rmap (line_entry (w_cfg w)) lines) as [entries|e].
  2:{ unfold bind. destruct (_construct_loader _ _ _) as [w1 [a|e']];
        simpl in *; congruence. }
  case_bool_decide.
  - destruct Hc as (acc & Hrun & Hpa & Hla & Hia & Hma).
    eexists. split.
    { unfold bind. rewrite Hrun. unfold get_cfg, new_object. simpl.
      rewrite Hobjs. unfold constructed_world. reflexivity. }
    simpl. rewrite init_world_cfg. fold cfg. split_and!; done.
  - unfold bind. by rewrite Hc.
Qed.


(** *** Steps that keep the data set in place *)

Lemma same_dataset_refl (a : Hvu) : same_dataset a a.
Proof. unfold same_dataset. split_and!; done. Qed.

Lemma same_dataset_trans (a b c : Hvu) :
  same_dataset a b → same_dataset b c → same_dataset a c.
Proof.
  unfold same_dataset. intros (?&?&?&?&?&?&?&?&?) (?&?&?&?&?&?&?&?&?).
  split_and!; congruence.
Qed.

Lemma steady_refl r (w : World) : steady r w w.
Proof.
  unfold steady. split_and!; try done.
  intros self Hs. exists self. split; [done|apply same_dataset_refl].
Qed.

Lemma steady_trans r (w1 w2 w3 : World) :
  steady r w1 w2 → steady r w2 w3 → steady r w1 w3.
Proof.
  intros (A1&A2&A3&A4&A5&A6&A7) (B1&B2&B3&B4&B5&B6&B7).
  unfold steady. split_and!; try congruence.
  - intros r' Hr. rewrite B6, A6; done.
  - intros self Hs. destruct (A7 _ Hs) as (self2 & Hs2 & E2).
    destruct (B7 _ Hs2) as (self3 & Hs3 & E3).
    exists self3. split; [done|]. by eapply same_dataset_trans.
Qed.

Lemma steady_with_ext r e (w : World) : steady r w (with_ext e w).
Proof.
  unfold steady, with_ext; simpl. split_and!; try done.
  intros self Hs. exists self. split; [done|apply same_dataset_refl].
Qed.

Lemma Steady_ret {A} r (a : A) : Steady r (ret a).
Proof. intros w w' res [= <- <-]. apply steady_refl. Qed.

Lemma Steady_raise {A} r e : Steady r (raise (A := A) e).
Proof. intros w w' res [= <- <-]. apply steady_refl. Qed.

Lemma Steady_lift {A} r (x : result A) : Steady r (lift x).
Proof. intros w w' res [= <- <-]. apply steady_refl. Qed.

Lemma Steady_get_self r r' : Steady r (get_self r').
Proof. intros w w' res [= <- <-]. apply steady_refl. Qed.

Lemma Steady_get_cfg r : Steady r get_cfg.
Proof. intros w w' res [= <- <-]. apply steady_refl. Qed.

Lemma Steady_call {A} r (f : Ext → Ext * A) : Steady r (call f).
Proof.
  intros w w' res. unfold call. destruct (f (w_ext w)) as [e a].
  intros [= <- <-]. apply steady_with_ext.
Qed.

Lemma Steady_bind {A B} r (c : M A) (k : A → M B) :
  Steady r c → (∀ a, Steady r (k a)) → Steady r (bind c k).
Proof.
  intros Hc Hk w w' res Hrun. apply bind_inv in Hrun as [(w1&a&H1&H2)|(e&H1&_)].
  - eapply steady_trans; [by eapply Hc | by eapply Hk].
  - by eapply Hc.
Qed.

Lemma Steady_py_randint r a b : Steady r (py_randint a b).
Proof.
  unfold py_randint. destruct (a <=? b); [apply Steady_call|apply Steady_raise].
Qed.

Lemma Steady_times {A} r n (c : M A) : Steady r c → Steady r (times n c).
Proof.
  intros Hc. induction n as [|n IH]; simpl; [apply Steady_ret|].
  apply Steady_bind; [done|]. intros a.
  apply Steady_bind; [done|]. intros l. apply Steady_ret.
Qed.

Ltac steady :=
  repeat first
    [ apply Steady_ret | apply Steady_raise | apply Steady_lift
    | apply Steady_get_self | apply Steady_get_cfg | apply Steady_call | apply Steady_py_randint
    | apply Steady_times
    | apply Steady_bind; [|intros ?]
    | match goal with
      | |- Steady _ (if ?b then _ else _) => destruct b
      | |- Steady _ (match ?x with _ => _ end) => destruct x
      end ].

Lemma Steady_aug_frame r self cfg frames a b c d :
  Steady r (_aug_frame self cfg frames a b c d).
Proof. unfold _aug_frame. steady. Qed.

Lemma Steady_produce r self cfg s frames index :
  Steady r (produce self cfg s frames index).
Proof.
  unfold produce, single. steady; apply Steady_aug_frame.
Qed.

Lemma Steady_load r self cfg index : Steady r (load self cfg index).
Proof. unfold load. steady. Qed.

Lemma Steady_after_failed_load r self i_try index :
  Steady r (after_failed_load self i_try index).
Proof. unfold after_failed_load. steady. Qed.

Lemma Steady_after_failed_decode r self i_try index :
  Steady r (after_failed_decode self i_try index).
Proof. unfold after_failed_decode. steady. Qed.

Lemma Steady_decode_clip r cfg s rate c index :
  Steady r (decode_clip r cfg s rate c index).
Proof.
  intros w w' res. unfold decode_clip, bind, get_self, lift, call, update, ret.
  destruct (w_objects w !! r) as [self|] eqn:Hself.
  2:{ intros [= <- <-]. apply steady_refl. }
  destruct (dict_get (_video_meta self) index) as [meta|e] eqn:Hmeta.
  2:{ intros [= <- <-]. apply steady_refl. }
  simpl. destruct (decode _ _ _ _ _ _ _ _ _ _ _ _) as [e [meta' frames]].
  intros [= <- <-]. unfold steady, with_objects, with_ext; simpl.
  split_and!; try done.
  - by rewrite length_insert.
  - intros r' Hr. by rewrite list_lookup_insert_ne.
  - intros self0. rewrite Hself. intros [= <-].
    eexists. split.
    { apply list_lookup_insert_eq. by eapply lookup_lt_Some. }
    unfold same_dataset, set_video_meta; simpl. split_and!; try done.
    symmetry. apply dom_insert_lookup_L.
    unfold dict_get in Hmeta. destruct (_video_meta self !! index); eauto.
    discriminate.
Qed.

Lemma Steady_retry r cfg s rate trials :
  ∀ i_try index, Steady r (retry r cfg s rate trials i_try index).
Proof.
  induction trials as [|n IH]; intros i_try index; simpl.
  - steady.
  - apply Steady_bind; [apply Steady_get_self|]. intros self.
    apply Steady_bind; [apply Steady_load|]. intros [c|].
    + apply Steady_bind; [apply Steady_decode_clip|]. intros [frames|].
      * apply Steady_produce.
      * apply Steady_bind; [apply Steady_after_failed_decode|]. intros ?. apply IH.
    + apply Steady_bind; [apply Steady_after_failed_load|]. intros ?. apply IH.
Qed.

Lemma Steady_getitem r index sci : Steady r (__getitem__ r index sci).
Proof.
  unfold __getitem__. steady. apply Steady_retry.
Qed.


(** *** What a normal return of [__getitem__] looks like *)

Lemma times_returns {A} (P : A → Prop) n (c : M A) :
  (∀ w w' a, c w = (w', Ok a) → P a) →
  ∀ w w' l, times n c w = (w', Ok l) → length l = n ∧ Forall P l.
Proof.
  intros Hc. induction n as [|n IH]; intros w w' l; simpl.
  - intros [= <- <-]. by split.
  - intros (w1 & a & Ha & Hrest)%bind_ok.
    apply bind_ok in Hrest as (w2 & l' & Hl & [= <- <-]).
    destruct (IH _ _ _ Hl) as [<- Hall]. split; [done|].
    constructor; [by eapply Hc | done].
Qed.

Lemma same_dataset_returned (a b : Hvu) cfg out j :
  same_dataset a b → returned_tuple b cfg out j → returned_tuple a cfg out j.
Proof.
  intros (_&_&_&_&Hl&_&Ha&_&_) (labels & Hi & Hret).
  exists labels. by rewrite Hl, Ha.
Qed.

Lemma same_dataset_meta (a b : Hvu) j :
  same_dataset a b →
  is_Some (_video_meta b !! j) → is_Some (_video_meta a !! j).
Proof.
  intros (_&_&_&_&_&_&_&_&Hd). rewrite <- !elem_of_dom. by rewrite Hd.
Qed.

Lemma single_returns self cfg frames index (w w' : World) out :
  single self cfg frames index w = (w', Ok out) →
  ∃ labels, py_index (_labels self) index = Ok labels ∧
            single_tuple out labels index.
Proof.
  unfold single, bind, lift, ret.
  destruct (py_index (_labels self) index) as [labels|e]; [|done].
  intros [= <- <-]. exists labels. split; [done|]. by eexists.
Qed.

Lemma produce_returns self cfg s frames index (w w' : World) out :
  produce self cfg s frames index w = (w', Ok out) →
  returned_tuple self cfg out index.
Proof.
  unfold produce, returned_tuple.
  destruct (aug self); simpl.
  - destruct (1 <? NUM_SAMPLE (AUG cfg)) eqn:Hn.
    + intros (w1 & samples & Hs & [= <- <-])%bind_ok.
      destruct (py_index (_labels self) index) as [labels|e] eqn:Hl.
      * exists labels. split; [done|].
        apply (times_returns
                 (λ a, ∃ fs, a = (PFrames fs, PTensor labels, PInt index)))
          in Hs as [Hlen Hall].
        2:{ clear -Hl. intros w w' a (w1 & fs & _ & Hrest)%bind_ok.
            unfold bind, lift, ret in Hrest.
            injection Hrest as _ <-. by eexists. }
        unfold multi_tuple. clear -Hlen Hall. rewrite <- Hlen. clear Hlen.
        induction Hall as [|a l (fs & ->) _ (fl & Hfl & [= E1 E2 E3])].
        -- by exists [].
        -- exists (fs :: fl). simpl. split; [by rewrite Hfl|].
           repeat (f_equal; try assumption).
      * apply Z.ltb_lt in Hn.
        destruct (Z.to_nat (NUM_SAMPLE (AUG cfg))) as [|n] eqn:Hk; [lia|].
        simpl in Hs. apply bind_ok in Hs as (w2 & a & Ha & _).
        apply bind_ok in Ha as (w3 & fs & _ & Ha).
        unfold bind, lift in Ha. discriminate.
    + intros (w1 & fs & _ & Hs)%bind_ok. by apply single_returns in Hs.
  - intros (w1 & fs & _ & Hs)%bind_ok. by apply single_returns in Hs.
Qed.

Lemma get_self_eq r (w : World) self :
  w_objects w !! r = Some self → get_self r w = (w, Ok self).
Proof. unfold get_self. by intros ->. Qed.

Lemma decode_clip_ok r cfg s rate c index (w w' : World) frames self :
  w_objects w !! r = Some self →
  decode_clip r cfg s rate c index w = (w', Ok frames) →
  is_Some (_video_meta self !! index).
Proof.
  intros Hself. unfold decode_clip, bind. rewrite (get_self_eq _ _ _ Hself).
  unfold lift, dict_get.
  destruct (_video_meta self !! index); [eauto|discriminate].
Qed.

Lemma retry_returns r cfg s rate trials :
  ∀ i_try index (w w' : World) out self,
    w_objects w !! r = Some self →
    retry r cfg s rate trials i_try index w = (w', Ok out) →
    ∃ j, is_Some (_video_meta self !! j) ∧ returned_tuple self cfg out j.
Proof.
  induction trials as [|n IH]; intros i_try index w w' out self Hself; simpl.
  - intros (w1 & a & _ & Hrun)%bind_ok.
    apply bind_ok in Hrun as (w2 & b & _ & Hrun). discriminate.
  - intros (w0 & self0 & Hget & Hrun)%bind_ok.
    rewrite (get_self_eq _ _ _ Hself) in Hget. injection Hget as <- <-.
    apply bind_ok in Hrun as (w1 & vc & Hload & Hrun).
    pose proof (Steady_load r _ _ _ _ _ _ Hload) as S1.
    assert (Hnext : ∀ w2 i_try' index',
              steady r w w2 →
              retry r cfg s rate n i_try' index' w2 = (w', Ok out) →
              ∃ j, is_Some (_video_meta self !! j) ∧
                   returned_tuple self cfg out j).
    { intros w2 i_try' index' S2 Hrest.
      destruct S2 as (_&_&_&_&_&_&S2). destruct (S2 _ Hself) as (self2 & Hs2 & E2).
      destruct (IH _ _ _ _ _ _ Hs2 Hrest) as (j & Hj & Hout).
      exists j. split; [by eapply same_dataset_meta|by eapply same_dataset_returned]. }
    destruct vc as [c|].
    + apply bind_ok in Hrun as (w2 & fr & Hdec & Hrun).
      pose proof (Steady_decode_clip r _ _ _ _ _ _ _ _ Hdec) as S2.
      destruct fr as [frames|].
      * exists index. split; [|by eapply produce_returns].
        destruct S1 as (_&_&_&_&_&_&S1). destruct (S1 _ Hself) as (self1 & Hs1 & E1).
        eapply same_dataset_meta; [done|]. by eapply decode_clip_ok.
      * apply bind_ok in Hrun as (w3 & index' & Hafter & Hrun).
        pose proof (Steady_after_failed_decode r _ _ _ _ _ _ Hafter) as S3.
        eapply Hnext; [|done].
        eapply steady_trans; [done|]. by eapply steady_trans.
    + apply bind_ok in Hrun as (w2 & index' & Hafter & Hrun).
      pose proof (Steady_after_failed_load r _ _ _ _ _ _ Hafter) as S2.
      eapply Hnext; [|done]. by eapply steady_trans.
Qed.

Lemma getitem_returns r index sci (w w' : World) out self :
  w_objects w !! r = Some self →
  __getitem__ r index sci w = (w', Ok out) →
  ∃ j, is_Some (_video_meta self !! j) ∧ returned_tuple self (w_cfg w) out j.
Proof.
  intros Hself. unfold __getitem__.
  intros (w0 & self0 & Hget & Hrun)%bind_ok.
  rewrite (get_self_eq _ _ _ Hself) in Hget. injection Hget as <- <-.
  apply bind_ok in Hrun as (w1 & cfg & [= <- <-] & Hrun).
  apply bind_ok in Hrun as (w2 & s & [= <- Hs] & Hrun).
  apply bind_ok in Hrun as (w3 & rate & Hrate & Hrun).
  pose proof (Steady_call r _ _ _ _ Hrate) as (_&_&_&_&_&_&S3).
  destruct (S3 _ Hself) as (self3 & Hs3 & E3).
  destruct (retry_returns _ _ _ _ _ _ _ _ _ _ _ Hs3 Hrun) as (j & Hj & Hout).
  exists j. split; [by eapply same_dataset_meta|by eapply same_dataset_returned].
Qed.

(** *** What calls keep *)

Lemma kept_refl (w : World) : kept w w.
Proof.
  split; [done|]. intros r self Hs. exists self.
  split; [done|apply same_dataset_refl].
Qed.

Lemma kept_trans (w1 w2 w3 : World) : kept w1 w2 → kept w2 w3 → kept w1 w3.
Proof.
  intros [T1 O1] [T2 O2]. split; [by auto|].
  intros r self Hs. destruct (O1 _ _ Hs) as (self2 & Hs2 & E2).
  destruct (O2 _ _ Hs2) as (self3 & Hs3 & E3).
  exists self3. split; [done|]. by eapply same_dataset_trans.
Qed.

Lemma steady_kept r (w w' : World) : steady r w w' → kept w w'.
Proof.
  intros (_&_&_&Ht&_&Hne&Hr). split; [by rewrite Ht|].
  intros r' self Hs. destruct (decide (r' = r)) as [->|Hr'].
  - by apply Hr.
  - exists self. rewrite Hne by done. split; [done|apply same_dataset_refl].
Qed.

Lemma Keeps_bind {A B} (c : M A) (k : A → M B) :
  Keeps c → (∀ a, Keeps (k a)) → Keeps (bind c k).
Proof.
  intros Hc Hk w w' res Hrun. apply bind_inv in Hrun as [(w1&a&H1&H2)|(e&H1&_)].
  - eapply kept_trans; [by eapply Hc | by eapply Hk].
  - by eapply Hc.
Qed.

Lemma Keeps_same {A} (c : M A) :
  (∀ w w' res, c w = (w', res) →
     w_tensors w' = w_tensors w ∧ w_objects w' = w_objects w) →
  Keeps c.
Proof.
  intros Hc w w' res Hrun. destruct (Hc _ _ _ Hrun) as [Ht Ho].
  split; [by rewrite Ht|]. intros r self Hs. exists self. rewrite Ho.
  split; [done|apply same_dataset_refl].
Qed.

Lemma Keeps_ret {A} (a : A) : Keeps (ret a).
Proof. apply Keeps_same. by intros w w' res [= <- <-]. Qed.

Lemma Keeps_raise {A} e : Keeps (raise (A := A) e).
Proof. apply Keeps_same. by intros w w' res [= <- <-]. Qed.

Lemma Keeps_lift {A} (x : result A) : Keeps (lift x).
Proof. apply Keeps_same. by intros w w' res [= <- <-]. Qed.

Lemma Keeps_assert b : Keeps (assert b).
Proof. destruct b; [apply Keeps_ret|apply Keeps_raise]. Qed.

Lemma Keeps_get_cfg : Keeps get_cfg.
Proof. apply Keeps_same. by intros w w' res [= <- <-]. Qed.

Lemma Keeps_with_cfg f : Keeps (update (with_cfg f)).
Proof. apply Keeps_same. by intros w w' res [= <- <-]. Qed.

Lemma Keeps_pathmgr_exists p : Keeps (pathmgr_exists p).
Proof. apply Keeps_same. by intros w w' res [= <- <-]. Qed.

Lemma Keeps_pathmgr_read_lines p : Keeps (pathmgr_read_lines p).
Proof. apply Keeps_same. by intros w w' res [= <- <-]. Qed.

Lemma Keeps_new_object self : Keeps (new_object self).
Proof.
  intros w w' res [= <- <-]. split; [done|].
  intros r self' Hs. exists self'. simpl.
  rewrite lookup_app_l by (by eapply lookup_lt_Some).
  split; [done|apply same_dataset_refl].
Qed.

Lemma set_ones_frame r labels (w w' : World) res :
  set_ones r labels w = (w', res) →
  w_objects w' = w_objects w ∧
  ∀ i, i ≠ r → w_tensors w' !! i = w_tensors w !! i.
Proof.
  revert w. induction labels as [|label rest IH]; intros w; simpl.
  - by intros [= <- <-].
  - intros Hrun. apply bind_inv in Hrun as [(w1&[]&H1&H2)|(e&H1&_)].
    + unfold set_one in H1.
      destruct (w_tensors w !! r) as [t|]; [|done].
      destruct (setitem t label 1) as [t'|e]; [|done].
      injection H1 as <-. destruct (IH _ H2) as [Ho Ht].
      split; [done|]. intros i Hi. rewrite Ht by done. simpl.
      by rewrite list_lookup_insert_ne.
    + unfold set_one in H1.
      destruct (w_tensors w !! r) as [t|]; [|by injection H1 as <-].
      destruct (setitem t label 1) as [t'|e']; [done|by injection H1 as <-].
Qed.

Lemma Keeps_load_line cfg nc acc ci line :
  Keeps (load_line cfg nc acc ci line).
Proof.
  intros w w' res. unfold load_line.
  intros Hrun. apply bind_inv in Hrun as [(w1&[path labels]&[= <- _]&H2)|(e&[= <-]&_)];
    [|apply kept_refl].
  apply bind_inv in H2 as [(w2&r&H1&H2)|(e&H1&_)].
  2:{ unfold new_zeros in H1. destruct (zeros _); [done|].
      injection H1 as <-. apply kept_refl. }
  unfold new_zeros in H1. destruct (zeros _) as [t0|]; [|done].
  injection H1 as <- <-.
  apply bind_inv in H2 as [(w3&[]&H1&[= <- _])|(e&H1&_)];
    apply set_ones_frame in H1 as [Ho Ht]; simpl in *.
  all: split; [|intros r self Hs; exists self; rewrite Ho;
                 split; [done|apply same_dataset_refl]].
  all: intros i t Hi; rewrite Ht by (apply lookup_lt_Some in Hi; lia).
  all: by rewrite lookup_app_l by (by eapply lookup_lt_Some).
Qed.

Lemma Keeps_load_lines cfg nc lines :
  ∀ acc ci, Keeps (load_lines cfg nc acc ci lines).
Proof.
  induction lines as [|line rest IH]; intros acc ci; simpl.
  - apply Keeps_ret.
  - apply Keeps_bind; [apply Keeps_load_line|]. intros acc'. apply IH.
Qed.

Ltac keeps :=
  repeat first
    [ apply Keeps_ret | apply Keeps_raise | apply Keeps_lift
    | apply Keeps_assert | apply Keeps_get_cfg | apply Keeps_with_cfg
    | apply Keeps_pathmgr_exists | apply Keeps_pathmgr_read_lines
    | apply Keeps_new_object | apply Keeps_load_lines
    | apply Keeps_bind; [|intros ?]
    | match goal with
      | |- Keeps (if ?b then _ else _) => destruct b
      end ].

Lemma Keeps_init mode nr : Keeps (__init__ mode nr).
Proof. unfold __init__, _construct_loader. keeps. Qed.

Lemma later_kept (w w' : World) : later w w' → kept w w'.
Proof.
  induction 1 as [w|w w1 r index sci _ IH|w w1 mode nr _ IH].
  - apply kept_refl.
  - eapply kept_trans; [done|].
    destruct (__getitem__ r index sci w1) as [w2 res] eqn:Hrun.
    eapply steady_kept. by eapply Steady_getitem.
  - eapply kept_trans; [done|].
    destruct (__init__ mode nr w1) as [w2 res] eqn:Hrun.
    by eapply Keeps_init.
Qed.


(** *** The outcome of a construction *)

Lemma rmap_lookup {A B} (f : A → result B) l l' v a :
  rmap f l = Ok l' → l !! v = Some a →
  ∃ b, f a = Ok b ∧ l' !! v = Some b.
Proof.
  revert l' v. induction l as [|x l IH]; intros l' v; simpl; [done|].
  destruct (f x) as [b|] eqn:Hx; simpl; [|done].
  destruct (rmap f l) as [bs|]; simpl; [|done].
  intros [= <-]. destruct v as [|v]; simpl.
  - intros [= <-]. eauto.
  - intros Hv. by apply IH.
Qed.

Lemma init_ok mode nr (w w' : World) r :
  __init__ mode nr w = (w', Ok r) →
  let cfg := init_cfg mode (w_cfg w) in
  let nc := init_num_clips mode (w_cfg w) in
  mode ∈ ["train"; "val"; "test"] ∧
  ∃ lines entries self,
    w_files w !! split_file (w_cfg w) mode = Some lines ∧
    rmap (line_entry (w_cfg w)) lines = Ok entries ∧
    (0 < length lines)%nat ∧ 0 < nc ∧
    w' = constructed_world mode w entries.*2 self ∧
    r = length (w_objects w) ∧
    Hvu.mode self = mode ∧ _num_retries self = nr ∧ _num_clips self = nc ∧
    _path_to_videos self =
      clips nc (os_path_join (PATH_PREFIX (DATA cfg)) <$> entries.*1.*1) ∧
    _labels self = clips nc (seq (length (w_tensors w)) (length lines)) ∧
    _spatial_temporal_idx self = concat (replicate (length lines) (range nc)) ∧
    (∀ z, is_Some (_video_meta self !! z) ↔
          0 ≤ z < Z.of_nat (length lines) * nc) ∧
    aug self = bool_decide (mode = "train") && ENABLE (AUG cfg) ∧
    rand_erase self = aug self && PrimFloat.ltb 0 (RE_PROB (AUG cfg)).
Proof.
  intros Hrun cfg nc.
  destruct (decide (mode ∈ ["train"; "val"; "test"])) as [Hm|Hm].
  2:{ rewrite init_invalid in Hrun by done. discriminate. }
  split; [done|].
  pose proof (init_spec mode nr w Hm) as Hspec. simpl in Hspec.
  fold cfg nc in Hspec.
  destruct (w_files w !! split_file (w_cfg w) mode) as [lines|].
  2:{ rewrite Hspec in Hrun. discriminate. }
  destruct (rmap (line_entry (w_cfg w)) lines) as [entries|e] eqn:Hentries.
  2:{ rewrite Hrun in Hspec. discriminate. }
  case_bool_decide as Hpos.
  2:{ rewrite Hrun in Hspec. discriminate. }
  destruct Hspec as (self & Hrun' & E1 & E2 & E3 & E4 & E5 & E6 & E7 & E8 & E9).
  rewrite Hrun in Hrun'. injection Hrun' as -> ->.
  assert (0 < length lines)%nat by lia. assert (0 < nc) by lia.
  exists lines, entries, self. split_and!; try done.
  intros z. rewrite E7. rewrite Nat2Z.inj_mul, Z2Nat.id by lia. done.
Qed.

Lemma constructed_world_cfg mode (w : World) ts self :
  w_cfg (constructed_world mode w ts self) = init_cfg mode (w_cfg w).
Proof. unfold constructed_world. simpl. apply init_world_cfg. Qed.

Lemma constructed_world_tensors mode (w : World) ts self :
  w_tensors (constructed_world mode w ts self) = w_tensors w ++ ts.
Proof.
  unfold constructed_world, init_world. simpl. by case_bool_decide.
Qed.

Lemma constructed_world_object mode (w : World) ts self :
  w_objects (constructed_world mode w ts self) !! length (w_objects w) =
  Some self.
Proof.
  unfold constructed_world, init_world. simpl.
  case_bool_decide; simpl; by rewrite lookup_app_r, Nat.sub_diag.
Qed.

(** *** Indexing *)

Lemma py_index_nat {A} (l : list A) (i : nat) x :
  l !! i = Some x → py_index l (Z.of_nat i) = Ok x.
Proof.
  intros Hi. unfold py_index, norm_index.
  rewrite (proj2 (Z.ltb_ge _ _)) by lia.
  rewrite (proj2 (Z.leb_le _ _)) by lia.
  by rewrite Nat2Z.id, Hi.
Qed.

Lemma py_index_ok {A} (l : list A) (i : Z) :
  0 ≤ i < Z.of_nat (length l) → ∃ x, py_index l i = Ok x ∧ l !! Z.to_nat i = Some x.
Proof.
  intros Hi.
  destruct (lookup_lt_is_Some_2 l (Z.to_nat i)) as [x Hx]; [lia|].
  exists x. split; [|done]. rewrite <- (Z2Nat.id i) by lia. by apply py_index_nat.
Qed.

Lemma py_index_negative {A} (l : list A) (i : Z) :
  - Z.of_nat (length l) ≤ i < 0 →
  ∃ x, py_index l i = Ok x ∧ l !! Z.to_nat (Z.of_nat (length l) + i) = Some x.
Proof.
  intros Hi.
  destruct (lookup_lt_is_Some_2 l (Z.to_nat (Z.of_nat (length l) + i))) as [x Hx];
    [lia|].
  exists x. split; [|done]. unfold py_index, norm_index.
  rewrite (proj2 (Z.ltb_lt _ _)) by lia.
  rewrite (proj2 (Z.leb_le _ _)) by lia.
  by rewrite Z.add_comm, Hx.
Qed.

(** *** The label vector of a line *)

Lemma setitem_ok (t : Tensor) (l : Z) v :
  0 ≤ l < Z.of_nat (length (t_data t)) →
  setitem t l v =
  Ok {| t_dtype := t_dtype t; t_data := <[Z.to_nat l := v]> (t_data t) |}.
Proof.
  intros Hl. unfold setitem, norm_index.
  rewrite (proj2 (Z.ltb_ge _ _)) by lia.
  rewrite (proj2 (Z.leb_le _ _)) by lia.
  by rewrite (proj2 (Z.ltb_lt _ _)) by lia.
Qed.

Lemma set_all_ok labels : ∀ t : Tensor,
  Forall (λ l, 0 ≤ l < Z.of_nat (length (t_data t))) labels →
  ∃ t', set_all t labels = Ok t' ∧ t_dtype t' = t_dtype t ∧
        length (t_data t') = length (t_data t) ∧
        ∀ p, 0 ≤ p < Z.of_nat (length (t_data t)) →
             t_data t' !! Z.to_nat p =
             if bool_decide (p ∈ labels) then Some 1%float
             else t_data t !! Z.to_nat p.
Proof.
  induction labels as [|l labels IH]; intros t Hall; simpl.
  - exists t. split_and!; done.
  - apply Forall_cons in Hall as [Hl Hall].
    rewrite setitem_ok by done. simpl.
    set (t1 := {| t_dtype := t_dtype t; t_data := _ |}).
    destruct (IH t1) as (t' & Hset & Hd & Hlen & Hdata).
    { simpl. by rewrite length_insert. }
    simpl in *. rewrite length_insert in Hlen, Hdata.
    exists t'. split_and!; try done.
    intros p Hp. rewrite Hdata by done.
    destruct (decide (p = l)) as [->|Hne].
    + rewrite (bool_decide_eq_true_2 (l ∈ l :: labels))
        by (rewrite elem_of_cons; auto).
      case_bool_decide; [done|].
      apply list_lookup_insert_eq. lia.
    + rewrite list_lookup_insert_ne by lia.
      rewrite (bool_decide_ext (p ∈ l :: labels) (p ∈ labels)); [done|].
      rewrite elem_of_cons. split; [by intros [?|?] | by right].
Qed.

Lemma one_hot_spec n labels :
  Forall (λ l, 0 ≤ l < n) labels → 0 ≤ n →
  ∃ t, one_hot n labels = Ok t ∧ t_dtype t = float32 ∧
       Z.of_nat (length (t_data t)) = n ∧
       ∀ p, 0 ≤ p < n →
            t_data t !! Z.to_nat p =
            Some (if bool_decide (p ∈ labels) then 1%float else 0%float).
Proof.
  intros Hall Hn. unfold one_hot, zeros.
  rewrite (proj2 (Z.ltb_ge _ _)) by lia. simpl.
  set (t0 := {| t_dtype := float32; t_data := _ |}).
  destruct (set_all_ok labels t0) as (t & Hset & Hd & Hlen & Hdata).
  { simpl. rewrite length_replicate, Z2Nat.id by lia. done. }
  simpl in *. rewrite length_replicate in Hlen, Hdata.
  exists t. split_and!; try done; [lia|].
  intros p Hp. rewrite Hdata by lia.
  case_bool_decide; [done|]. apply lookup_replicate_2. lia.
Qed.


(** *** Positions in the lists of clips *)

Lemma block_index nc k i :
  0 < nc → 0 ≤ i < Z.of_nat k * nc →
  Z.to_nat i = (Z.to_nat (i / nc) * Z.to_nat nc + Z.to_nat (i mod nc))%nat ∧
  (Z.to_nat (i / nc) < k)%nat ∧ (Z.to_nat (i mod nc) < Z.to_nat nc)%nat.
Proof.
  intros Hnc Hi.
  pose proof (Z.div_mod i nc ltac:(lia)) as Hdm.
  pose proof (Z.mod_pos_bound i nc Hnc) as Hmod.
  assert (0 ≤ i / nc) by (apply Z.div_pos; lia).
  assert (i / nc < Z.of_nat k) by (apply Z.div_lt_upper_bound; nia).
  split_and!; [|lia|lia].
  apply Nat2Z.inj. rewrite Nat2Z.inj_add, Nat2Z.inj_mul, !Z2Nat.id by lia. lia.
Qed.

Lemma block_position nc (v : nat) idx :
  0 ≤ idx < nc →
  Z.to_nat (Z.of_nat v * nc + idx) = (v * Z.to_nat nc + Z.to_nat idx)%nat.
Proof.
  intros Hidx. apply Nat2Z.inj.
  rewrite Nat2Z.inj_add, Nat2Z.inj_mul, !Z2Nat.id by nia. lia.
Qed.

(** *** The effects of a construction on the configuration *)

Lemma SameCfg_bind {A B} (c : M A) (k : A → M B) :
  SameCfg c → (∀ a, SameCfg (k a)) → SameCfg (bind c k).
Proof.
  intros Hc Hk w w' res Hrun. apply bind_inv in Hrun as [(w1&a&H1&H2)|(e&H1&_)].
  - rewrite (Hk _ _ _ _ H2). by eapply Hc.
  - by eapply Hc.
Qed.

Lemma SameCfg_ret {A} (a : A) : SameCfg (ret a).
Proof. by intros w w' res [= <- <-]. Qed.

Lemma SameCfg_raise {A} e : SameCfg (raise (A := A) e).
Proof. by intros w w' res [= <- <-]. Qed.

Lemma SameCfg_lift {A} (x : result A) : SameCfg (lift x).
Proof. by intros w w' res [= <- <-]. Qed.

Lemma SameCfg_assert b : SameCfg (assert b).
Proof. destruct b; [apply SameCfg_ret|apply SameCfg_raise]. Qed.

Lemma SameCfg_get_cfg : SameCfg get_cfg.
Proof. by intros w w' res [= <- <-]. Qed.

Lemma SameCfg_pathmgr_exists p : SameCfg (pathmgr_exists p).
Proof. by intros w w' res [= <- <-]. Qed.

Lemma SameCfg_pathmgr_read_lines p : SameCfg (pathmgr_read_lines p).
Proof. by intros w w' res [= <- <-]. Qed.

Lemma SameCfg_new_object self : SameCfg (new_object self).
Proof. by intros w w' res [= <- <-]. Qed.

Lemma SameCfg_new_zeros n : SameCfg (new_zeros n).
Proof.
  intros w w' res. unfold new_zeros. destruct (zeros n); by intros [= <- <-].
Qed.

Lemma SameCfg_set_one r label : SameCfg (set_one r label).
Proof.
  intros w w' res. unfold set_one.
  destruct (w_tensors w !! r) as [t|]; [|by intros [= <- <-]].
  destruct (setitem t label 1); by intros [= <- <-].
Qed.

Lemma SameCfg_set_ones r labels : SameCfg (set_ones r labels).
Proof.
  induction labels as [|label rest IH]; simpl; [apply SameCfg_ret|].
  apply SameCfg_bind; [apply SameCfg_set_one|done].
Qed.

Lemma SameCfg_load_lines cfg nc lines :
  ∀ acc ci, SameCfg (load_lines cfg nc acc ci lines).
Proof.
  induction lines as [|line rest IH]; intros acc ci; simpl.
  - apply SameCfg_ret.
  - apply SameCfg_bind; [|by intros ?]. unfold load_line.
    apply SameCfg_bind; [apply SameCfg_lift|]. intros [path labels].
    apply SameCfg_bind; [apply SameCfg_new_zeros|]. intros r.
    apply SameCfg_bind; [apply SameCfg_set_ones|]. intros _. apply SameCfg_ret.
Qed.

Lemma SameCfg_construct_loader mode nc : SameCfg (_construct_loader mode nc).
Proof.
  unfold _construct_loader.
  repeat first
    [ apply SameCfg_ret | apply SameCfg_assert | apply SameCfg_get_cfg
    | apply SameCfg_pathmgr_exists | apply SameCfg_pathmgr_read_lines
    | apply SameCfg_load_lines | apply SameCfg_bind; [|intros ?] ].
Qed.

Lemma init_cfg_after mode nr (w : World) :
  w_cfg (__init__ mode nr w).1 =
  if bool_decide (mode ∈ ["train"; "val"; "test"])
  then init_cfg mode (w_cfg w) else w_cfg w.
Proof.
  case_bool_decide as Hm.
  - rewrite (init_unfold _ _ _ Hm).
    match goal with
    | |- w_cfg (?c ?w0).1 = _ =>
        destruct (c w0) as [w' res] eqn:Hrun;
        assert (Hsame : SameCfg c)
    end.
    { apply SameCfg_bind; [apply SameCfg_construct_loader|]. intros acc.
      apply SameCfg_bind; [apply SameCfg_get_cfg|]. intros cfg.
      apply SameCfg_new_object. }
    simpl. rewrite (Hsame _ _ _ Hrun). apply init_world_cfg.
  - by rewrite init_invalid.
Qed.

(** C8: constructing the data set in train or val mode overwrites
    [cfg.TEST.NUM_ENSEMBLE_VIEWS] and [cfg.TEST.NUM_SPATIAL_CROPS] of the
    caller's configuration with 1, whether or not the construction then
    succeeds; in test mode, as for a mode that is refused, both keep their
    values; and no other field changes in any mode. *)
Theorem init_overwrites_test_views mode num_retries (w : World) :
  let cfg := w_cfg w in
  let cfg' := w_cfg (__init__ mode num_retries w).1 in
  (mode ∈ ["train"; "val"] →
     NUM_ENSEMBLE_VIEWS (TEST cfg') = 1 ∧ NUM_SPATIAL_CROPS (TEST cfg') = 1) ∧
  (mode ∉ ["train"; "val"] → cfg' = cfg) ∧
  DATA cfg' = DATA cfg ∧ MODEL cfg' = MODEL cfg ∧ AUG cfg' = AUG cfg ∧
  MULTIGRID cfg' = MULTIGRID cfg ∧ DATA_LOADER cfg' = DATA_LOADER cfg.
Proof.
  intros cfg cfg'. unfold cfg'. rewrite init_cfg_after. unfold init_cfg.
  case_bool_decide as Hm; [|split_and!; try done].
  2:{ intros Htv. exfalso. apply Hm.
      rewrite !elem_of_cons in Htv. rewrite !elem_of_cons. tauto. }
  case_bool_decide as Htv; split_and!; done.
Qed.


Lemma init_well_formed mode nr (w w' : World) r :
  __init__ mode nr w = (w', Ok r) →
  ∃ self lines,
    w_objects w' !! r = Some self ∧
    w_files w !! split_file (w_cfg w) mode = Some lines ∧
    well_formed self ∧ Hvu.mode self = mode ∧ _num_retries self = nr ∧
    0 < _num_clips self ∧
    _num_clips self = init_num_clips mode (w_cfg w) ∧
    __len__ self = Z.of_nat (length lines) * _num_clips self.
Proof.
  intros (Hm & lines & entries & self & Hf & He & Hl & Hnc & -> & -> &
          E1 & E2 & E3 & E4 & E5 & E6 & E7 & _)%init_ok.
  exists self, lines. rewrite constructed_world_object.
  assert (Hlen : length (_path_to_videos self) =
                 (length lines * Z.to_nat (_num_clips self))%nat).
  { rewrite E4, E3, length_clips, !length_fmap. by rewrite (rmap_length _ _ _ He). }
  assert (Hlen' : __len__ self = Z.of_nat (length lines) * _num_clips self).
  { unfold __len__. rewrite Hlen, Nat2Z.inj_mul, Z2Nat.id by lia. done. }
  split_and!; try done; try lia.
  unfold well_formed. rewrite E1, Hlen. split_and!; try done.
  - nia.
  - by rewrite E5, E3, length_clips, length_seq.
  - by rewrite E6, E3, length_repeated_range.
  - intros z. rewrite E7, Hlen', E3. done.
Qed.

(** C9: after a successful construction the three lists have one length,
    the number of lines of the split file times [_num_clips]; [__len__] and
    [num_videos] return it; it is positive; the sampling index stored at
    [i] is [i mod _num_clips]; and no later call of [__getitem__] or of
    [__init__], on this or another data set, changes the three lists. *)
Theorem lists_have_one_length mode num_retries (w w' : World) r :
  __init__ mode num_retries w = (w', Ok r) →
  ∃ self lines,
    w_objects w' !! r = Some self ∧
    w_files w !! split_file (w_cfg w) mode = Some lines ∧
    length (_labels self) = length (_path_to_videos self) ∧
    length (_spatial_temporal_idx self) = length (_path_to_videos self) ∧
    Z.of_nat (length (_path_to_videos self)) =
      Z.of_nat (length lines) * _num_clips self ∧
    __len__ self = Z.of_nat (length (_path_to_videos self)) ∧
    num_videos self = Z.of_nat (length (_path_to_videos self)) ∧
    0 < __len__ self ∧
    (∀ i, 0 ≤ i < __len__ self →
          py_index (_spatial_temporal_idx self) i = Ok (i mod _num_clips self)) ∧
    (∀ w1, later w' w1 →
           ∃ self1,
             w_objects w1 !! r = Some self1 ∧
             _path_to_videos self1 = _path_to_videos self ∧
             _labels self1 = _labels self ∧
             _spatial_temporal_idx self1 = _spatial_temporal_idx self ∧
             __len__ self1 = __len__ self ∧ num_videos self1 = __len__ self).
Proof.
  intros Hrun.
  destruct (init_well_formed _ _ _ _ _ Hrun)
    as (self & lines & Hself & Hf & (_ & Hpos & Hl & Hi & _) & _ & _ & Hnc & _ & Hlen).
  apply init_ok in Hrun as (_ & lines' & entries & self' & Hf' & He & _ & _ & -> & -> &
          _ & _ & E3 & _ & _ & E6 & _).
  rewrite constructed_world_object in Hself. injection Hself as ->.
  rewrite Hf in Hf'. injection Hf' as <-.
  exists self, lines. rewrite constructed_world_object.
  split_and!; try done.
  - unfold __len__. lia.
  - intros i Hi'. rewrite Hlen in Hi'.
    destruct (block_index _ _ _ Hnc Hi') as (Hpos' & Hv & Hj).
    rewrite <- (Z2Nat.id i) at 1 by lia. apply py_index_nat.
    rewrite Hpos', E6. rewrite <- E3.
    rewrite repeated_range_lookup by done.
    rewrite Z2Nat.id; [done|]. apply Z.mod_pos_bound. lia.
  - intros w1 [_ Hobj]%later_kept.
    destruct (Hobj _ _ (constructed_world_object _ _ _ _))
      as (self1 & Hs1 & (_&_&_&Hp&Hla&Hs&_)).
    exists self1. unfold __len__, num_videos. rewrite Hp. split_and!; done.
Qed.



(** What a construction stores for the video of line [v]. *)
Lemma init_video mode nr (w w' : World) r self lines (v : nat) line path labels :
  __init__ mode nr w = (w', Ok r) →
  w_objects w' !! r = Some self →
  w_files w !! split_file (w_cfg w) mode = Some lines →
  lines !! v = Some line →
  parse_line (PATH_LABEL_SEPARATOR (DATA (w_cfg w))) line = Ok (path, labels) →
  ∃ t,
    one_hot (NUM_CLASSES (MODEL (w_cfg w))) labels = Ok t ∧
    w_tensors w' !! (length (w_tensors w) + v)%nat = Some t ∧
    ∀ idx, 0 ≤ idx < _num_clips self →
      py_index (_path_to_videos self) (Z.of_nat v * _num_clips self + idx) =
        Ok (os_path_join (PATH_PREFIX (DATA (w_cfg w))) path) ∧
      py_index (_labels self) (Z.of_nat v * _num_clips self + idx) =
        Ok (length (w_tensors w) + v)%nat ∧
      py_index (_spatial_temporal_idx self) (Z.of_nat v * _num_clips self + idx) =
        Ok idx.
Proof.
  intros (Hm & lines' & entries & self' & Hf' & He & _ & Hnc & -> & -> &
          _ & _ & E3 & E4 & E5 & E6 & _)%init_ok Hself Hf Hv Hparse.
  rewrite constructed_world_object in Hself. injection Hself as ->.
  rewrite Hf in Hf'. injection Hf' as <-.
  destruct (rmap_lookup _ _ _ _ _ He Hv) as (entry & Hentry & Hev).
  unfold line_entry in Hentry. rewrite Hparse in Hentry. simpl in Hentry.
  destruct (one_hot _ labels) as [t|] eqn:Hone; [|done].
  simpl in Hentry. injection Hentry as <-.
  exists t. split; [done|]. split.
  { rewrite constructed_world_tensors, lookup_app_r by lia.
    replace (length (w_tensors w) + v - length (w_tensors w))%nat with v by lia.
    by rewrite list_lookup_fmap, Hev. }
  intros idx Hidx. rewrite <- E3 in *.
  assert (Hprefix : PATH_PREFIX (DATA (init_cfg mode (w_cfg w))) =
                    PATH_PREFIX (DATA (w_cfg w))).
  { unfold init_cfg. by case_bool_decide. }
  assert (Hpos : Z.of_nat v * _num_clips self + idx =
                 Z.of_nat (v * Z.to_nat (_num_clips self) + Z.to_nat idx)).
  { rewrite Nat2Z.inj_add, Nat2Z.inj_mul, !Z2Nat.id by lia. done. }
  rewrite Hpos. split_and!; apply py_index_nat.
  - rewrite E4, clips_lookup by lia. rewrite !list_lookup_fmap, Hev. simpl.
    by rewrite Hprefix.
  - rewrite E5, clips_lookup by lia. apply lookup_seq_lt.
    by eapply lookup_lt_Some.
  - rewrite E6, repeated_range_lookup; [by rewrite Z2Nat.id by lia| |lia].
    by eapply lookup_lt_Some.
Qed.

Lemma one_hot_nonneg n labels t : one_hot n labels = Ok t → 0 ≤ n.
Proof.
  unfold one_hot, zeros. destruct (n <? 0) eqn:Hn; [done|].
  intros _. by apply Z.ltb_ge.
Qed.

(** C1: for a line of the split file with the labels [labels], all of them
    in [0, NUM_CLASSES), the construction stores one float32 vector of
    length [NUM_CLASSES], 1 at the positions in [labels] and 0 elsewhere, as
    the label vector of each of the clips of that video; the vector stays as
    it is, and a call of [__getitem__] that returns the clip [j] of that
    video returns this vector as its labels. *)
Theorem label_vector_is_multi_hot mode num_retries (w w' : World) r :
  __init__ mode num_retries w = (w', Ok r) →
  let num_classes := NUM_CLASSES (MODEL (w_cfg w)) in
  ∃ self lines,
    w_objects w' !! r = Some self ∧
    w_files w !! split_file (w_cfg w) mode = Some lines ∧
    ∀ (v : nat) line path labels,
      lines !! v = Some line →
      parse_line (PATH_LABEL_SEPARATOR (DATA (w_cfg w))) line = Ok (path, labels) →
      Forall (λ label, 0 ≤ label < num_classes) labels →
      ∃ vec t,
        w_tensors w' !! vec = Some t ∧
        t_dtype t = float32 ∧
        Z.of_nat (length (t_data t)) = num_classes ∧
        (∀ p, 0 ≤ p < num_classes →
              t_data t !! Z.to_nat p =
              Some (if bool_decide (p ∈ labels) then 1%float else 0%float)) ∧
        (∀ idx, 0 ≤ idx < _num_clips self →
              py_index (_labels self) (Z.of_nat v * _num_clips self + idx) =
              Ok vec) ∧
        (∀ w1 w2 index short_cycle_idx out,
           later w' w1 →
           __getitem__ r index short_cycle_idx w1 = (w2, Ok out) →
           w_tensors w2 !! vec = Some t ∧
           ∃ j returned,
             0 ≤ j < __len__ self ∧
             (if aug self && (1 <? NUM_SAMPLE (AUG (w_cfg w1)))
              then multi_tuple out returned j (NUM_SAMPLE (AUG (w_cfg w1)))
              else single_tuple out returned j) ∧
             (Z.of_nat v * _num_clips self ≤ j <
                (Z.of_nat v + 1) * _num_clips self →
              returned = vec)).
Proof.
  intros Hrun num_classes.
  destruct (init_well_formed _ _ _ _ _ Hrun)
    as (self & lines & Hself & Hf & Hwf & _ & _ & Hnc & _ & Hlen).
  exists self, lines. split_and!; try done.
  intros v line path labels Hv Hparse Hall.
  destruct (init_video _ _ _ _ _ _ _ _ _ _ _ Hrun Hself Hf Hv Hparse)
    as (t & Hone & Ht & Hclips).
  destruct (one_hot_spec num_classes labels Hall (one_hot_nonneg _ _ _ Hone))
    as (t' & Hone' & Hd & Hlength & Hdata).
  unfold num_classes in *. rewrite Hone in Hone'. injection Hone' as <-.
  exists (length (w_tensors w) + v)%nat, t. split_and!; try done.
  { intros idx Hidx. by apply Hclips. }
  intros w1 w2 index sci out Hlater Hget.
  pose proof (later_getitem _ _ r index sci Hlater) as Hlater2.
  rewrite Hget in Hlater2. simpl in Hlater2.
  split. { apply later_kept in Hlater2 as [Hts _]. by apply Hts. }
  apply later_kept in Hlater as [_ Hobj].
  destruct (Hobj _ _ Hself) as (self1 & Hs1 & Hsame).
  destruct (getitem_returns _ _ _ _ _ _ _ Hs1 Hget) as (j & Hj & Hout).
  eapply same_dataset_meta in Hj; [|done].
  eapply same_dataset_returned in Hout; [|done].
  destruct Hwf as (_ & _ & _ & _ & Hdom). apply Hdom in Hj.
  destruct Hout as (returned & Hret & Hout).
  exists j, returned. split_and!; try done; try lia.
  intros Hblock.
  destruct (Hclips (j - Z.of_nat v * _num_clips self) ltac:(nia)) as (_ & Hlab & _).
  replace (Z.of_nat v * _num_clips self + (j - Z.of_nat v * _num_clips self))
    with j in Hlab by lia.
  congruence.
Qed.

Lemma init_sampling_index mode nr (w w' : World) r self i :
  __init__ mode nr w = (w', Ok r) →
  w_objects w' !! r = Some self →
  0 ≤ i < __len__ self →
  py_index (_spatial_temporal_idx self) i = Ok (i mod _num_clips self).
Proof.
  intros Hrun Hself Hi.
  destruct (init_well_formed _ _ _ _ _ Hrun)
    as (self' & lines & Hself' & Hf & _ & _ & _ & Hnc & _ & Hlen).
  rewrite Hself in Hself'. injection Hself' as <-.
  apply init_ok in Hrun as (_ & lines' & entries & self' & Hf' & He & _ & _ & -> & -> &
          _ & _ & E3 & _ & _ & E6 & _).
  rewrite constructed_world_object in Hself. injection Hself as ->.
  rewrite Hf in Hf'. injection Hf' as <-.
  rewrite Hlen in Hi.
  destruct (block_index _ _ _ Hnc Hi) as (Hpos' & Hv & Hj).
  rewrite <- (Z2Nat.id i) at 1 by lia. apply py_index_nat.
  rewrite Hpos', E6. rewrite <- E3.
  rewrite repeated_range_lookup by done.
  rewrite Z2Nat.id; [done|]. apply Z.mod_pos_bound. lia.
Qed.

Lemma init_test_cfg cfg :
  init_cfg "test" cfg = cfg ∧
  init_num_clips "test" cfg =
  NUM_ENSEMBLE_VIEWS (TEST cfg) * NUM_SPATIAL_CROPS (TEST cfg).
Proof.
  unfold init_cfg, init_num_clips.
  rewrite bool_decide_eq_false_2; [done|].
  rewrite !elem_of_cons, elem_of_nil. intros [[=]|[[=]|[]]].
Qed.

Lemma sampling_eval self cfg i sci k :
  mode self = "test" ∨ mode self = "val" →
  py_index (_spatial_temporal_idx self) i = Ok k →
  NUM_SPATIAL_CROPS (TEST cfg) ≠ 0 →
  sampling self cfg i sci =
  Ok {| temporal_sample_index := k / NUM_SPATIAL_CROPS (TEST cfg);
        spatial_sample_index :=
          if 1 <? NUM_SPATIAL_CROPS (TEST cfg)
          then k mod NUM_SPATIAL_CROPS (TEST cfg) else 1;
        min_scale := TEST_CROP_SIZE (DATA cfg);
        max_scale := TEST_CROP_SIZE (DATA cfg);
        crop_size := TEST_CROP_SIZE (DATA cfg) |}.
Proof.
  intros Hmode Hk Hcrops. unfold sampling.
  rewrite bool_decide_eq_false_2.
  2:{ intros Hin%list_elem_of_singleton. destruct Hmode; congruence. }
  rewrite bool_decide_eq_true_2.
  2:{ rewrite !elem_of_cons. destruct Hmode; auto. }
  rewrite Hk. simpl. by rewrite (proj2 (Z.eqb_neq _ _)).
Qed.

Lemma grid_position views crops k :
  0 < crops → 0 ≤ k < views * crops → 0 ≤ k / crops < views.
Proof.
  intros Hc Hk. split; [apply Z.div_pos; lia|].
  apply Z.div_lt_upper_bound; nia.
Qed.

Lemma block_mod nc (v : nat) i :
  0 < nc → Z.of_nat v * nc ≤ i < (Z.of_nat v + 1) * nc →
  i mod nc = i - Z.of_nat v * nc.
Proof.
  intros Hnc Hi. symmetry. apply (Z.mod_unique_pos _ _ (Z.of_nat v)); nia.
Qed.

(** C3, amended: in test mode the data set holds [NUM_ENSEMBLE_VIEWS *
    NUM_SPATIAL_CROPS] entries for each video of the split file, all with
    the path of that video.  For a positive [NUM_SPATIAL_CROPS], and in
    every later state in which [cfg.TEST] holds the values it had at the
    construction (calls of [__getitem__] keep them, the construction of a
    train or val data set on the same configuration does not): for a valid
    index [i], with [k] the sampling index stored at [i], the temporal
    index is [k // NUM_SPATIAL_CROPS] and lies in [0, NUM_ENSEMBLE_VIEWS),
    and the spatial index is [k % NUM_SPATIAL_CROPS] when there are several
    crops; and among the clips of one video each pair of a view and a crop
    occurs exactly once. *)
Theorem test_clips_cover_grid num_retries (w w' : World) r :
  __init__ "test" num_retries w = (w', Ok r) →
  0 < NUM_SPATIAL_CROPS (TEST (w_cfg w)) →
  let views := NUM_ENSEMBLE_VIEWS (TEST (w_cfg w)) in
  let crops := NUM_SPATIAL_CROPS (TEST (w_cfg w)) in
  ∃ self lines,
    w_objects w' !! r = Some self ∧
    w_files w !! split_file (w_cfg w) "test" = Some lines ∧
    w_cfg w' = w_cfg w ∧
    _num_clips self = views * crops ∧
    __len__ self = Z.of_nat (length lines) * (views * crops) ∧
    (∀ (v : nat) line path labels idx,
       lines !! v = Some line →
       parse_line (PATH_LABEL_SEPARATOR (DATA (w_cfg w))) line = Ok (path, labels) →
       0 ≤ idx < views * crops →
       py_index (_path_to_videos self) (Z.of_nat v * (views * crops) + idx) =
       Ok (os_path_join (PATH_PREFIX (DATA (w_cfg w))) path)) ∧
    ∀ w1,
      later w' w1 → TEST (w_cfg w1) = TEST (w_cfg w) →
      ∃ self1,
        w_objects w1 !! r = Some self1 ∧
        __len__ self1 = __len__ self ∧
        (∀ i short_cycle_idx,
           0 ≤ i < __len__ self1 →
           ∃ k s,
             py_index (_spatial_temporal_idx self1) i = Ok k ∧
             k = i mod (views * crops) ∧
             sampling self1 (w_cfg w1) i short_cycle_idx = Ok s ∧
             temporal_sample_index s = k / crops ∧
             0 ≤ temporal_sample_index s < views ∧
             (1 < crops → spatial_sample_index s = k mod crops)) ∧
        (∀ (v : nat) view crop short_cycle_idx,
           (v < length lines)%nat → 0 ≤ view < views → 0 ≤ crop < crops →
           ∃ i,
             Z.of_nat v * (views * crops) ≤ i < (Z.of_nat v + 1) * (views * crops) ∧
             (∃ s, sampling self1 (w_cfg w1) i short_cycle_idx = Ok s ∧
                   temporal_sample_index s = view ∧
                   (1 < crops → spatial_sample_index s = crop)) ∧
             (∀ i' s',
                Z.of_nat v * (views * crops) ≤ i' < (Z.of_nat v + 1) * (views * crops) →
                sampling self1 (w_cfg w1) i' short_cycle_idx = Ok s' →
                temporal_sample_index s' = view →
                (1 < crops → spatial_sample_index s' = crop) →
                i' = i)).
Proof.
  intros Hrun Hcrops views crops.
  destruct (init_well_formed _ _ _ _ _ Hrun)
    as (self & lines & Hself & Hf & Hwf & Hmode & _ & Hnc & Hclips & Hlen).
  assert (Hcfg : w_cfg w' = w_cfg w).
  { pose proof (init_cfg_after "test" num_retries w) as Hc.
    rewrite Hrun in Hc. cbn [fst] in Hc. rewrite Hc.
    rewrite bool_decide_eq_true_2 by (rewrite !elem_of_cons; auto).
    apply init_test_cfg. }
  assert (Hnum : _num_clips self = views * crops).
  { rewrite Hclips. apply init_test_cfg. }
  rewrite Hnum in *.
  exists self, lines. split_and!; try done.
  { intros v line path labels idx Hv Hparse Hidx.
    destruct (init_video _ _ _ _ _ _ _ _ _ _ _ Hrun Hself Hf Hv Hparse)
      as (t & _ & _ & Hvideo).
    rewrite Hnum in Hvideo. by apply Hvideo. }
  intros w1 Hlater Htest.
  destruct (later_kept _ _ Hlater) as [_ Hobj].
  destruct (Hobj _ _ Hself) as (self1 & Hself1 & Hsame).
  pose proof Hsame as (Hmode1 & _ & _ & Hpaths1 & _ & Hidx1 & _).
  assert (Hlen1 : __len__ self1 = __len__ self)
    by (unfold __len__; by rewrite Hpaths1).
  assert (Hstored : ∀ i, 0 ≤ i < __len__ self →
            py_index (_spatial_temporal_idx self1) i = Ok (i mod (views * crops))).
  { intros i Hi. rewrite <- Hidx1.
    rewrite (init_sampling_index _ _ _ _ _ _ _ Hrun Hself Hi). by rewrite Hnum. }
  assert (Hsampling : ∀ i sci, 0 ≤ i < __len__ self →
            sampling self1 (w_cfg w1) i sci =
            Ok {| temporal_sample_index := i mod (views * crops) / crops;
                  spatial_sample_index :=
                    if 1 <? crops then i mod (views * crops) mod crops else 1;
                  min_scale := TEST_CROP_SIZE (DATA (w_cfg w1));
                  max_scale := TEST_CROP_SIZE (DATA (w_cfg w1));
                  crop_size := TEST_CROP_SIZE (DATA (w_cfg w1)) |}).
  { intros i sci Hi.
    rewrite (sampling_eval self1 (w_cfg w1) i sci (i mod (views * crops))).
    - by rewrite Htest.
    - left. congruence.
    - by apply Hstored.
    - rewrite Htest. unfold crops in *. lia. }
  exists self1. rewrite Hlen1. split_and!; try done.
  - intros i sci Hi.
    pose proof (Z.mod_pos_bound i (views * crops) Hnc) as Hk.
    eexists _, _. split_and!.
    + by apply Hstored.
    + done.
    + by apply Hsampling.
    + done.
    + simpl. apply Z.div_pos; lia.
    + simpl. apply Z.div_lt_upper_bound; nia.
    + intros Hc. simpl. by rewrite (proj2 (Z.ltb_lt _ _)).
  - intros v view crop sci Hv Hview Hcrop.
    set (i := Z.of_nat v * (views * crops) + (view * crops + crop)).
    assert (Hblock : Z.of_nat v * (views * crops) ≤ i <
                     (Z.of_nat v + 1) * (views * crops)) by (unfold i; nia).
    assert (Hi : 0 ≤ i < __len__ self) by (rewrite Hlen; nia).
    assert (Hmod : i mod (views * crops) = view * crops + crop).
    { rewrite (block_mod _ v) by done. unfold i. lia. }
    exists i. split_and!; try lia.
    + eexists. split; [by apply Hsampling|]. simpl. rewrite Hmod. split.
      * rewrite Z.div_add_l by lia. rewrite Z.div_small by lia. lia.
      * intros Hc. rewrite (proj2 (Z.ltb_lt _ _)) by done.
        rewrite Z.add_comm, Z.mod_add by lia. apply Z.mod_small. lia.
    + intros i' s' Hblock' Hs' Ht Hsp.
      assert (Hi' : 0 ≤ i' < __len__ self) by (rewrite Hlen; nia).
      rewrite Hsampling in Hs' by done. injection Hs' as <-. simpl in *.
      rewrite (block_mod _ v) in Ht, Hsp by done.
      set (k' := i' - Z.of_nat v * (views * crops)) in *.
      assert (0 ≤ k' < views * crops) by (unfold k'; nia).
      pose proof (Z.div_mod k' crops ltac:(lia)) as Hdm.
      pose proof (Z.mod_pos_bound k' crops ltac:(lia)) as Hmb.
      assert (k' mod crops = crop) as Hkc.
      { destruct (decide (1 < crops)) as [Hc|Hc].
        - specialize (Hsp Hc). by rewrite (proj2 (Z.ltb_lt _ _)) in Hsp.
        - lia. }
      unfold i. rewrite Ht, Hkc in Hdm. unfold k' in Hdm. lia.
Qed.



(** *** Computations that return *)

Lemma times_total {A} n (c : M A) :
  (∀ w, ∃ w' a, c w = (w', Ok a)) →
  ∀ w, ∃ w' l, times n c w = (w', Ok l).
Proof.
  intros Hc. induction n as [|n IH]; intros w; simpl.
  - by eexists _, _.
  - unfold bind. destruct (Hc w) as (w1 & a & ->).
    destruct (IH w1) as (w2 & l & ->). by eexists _, _.
Qed.

Lemma aug_frame_total self cfg frames a b c d (w : World) :
  ∃ w' f, _aug_frame self cfg frames a b c d w = (w', Ok f).
Proof.
  unfold _aug_frame, bind, call.
  destruct (random_augment _ _ _ _ _) as [e1 imgs]. simpl.
  destruct (spatial_sampling _ _ _ _ _ _ _ _ _ _ _) as [e2 f2]. simpl.
  destruct (rand_erase self).
  - simpl. destruct (random_erasing _ _ _ _ _ _ _) as [e3 f3]. by eexists _, _.
  - by eexists _, _.
Qed.

Lemma produce_total self cfg s frames index labels (w : World) :
  py_index (_labels self) index = Ok labels →
  ∃ w' out, produce self cfg s frames index w = (w', Ok out).
Proof.
  intros Hl. unfold produce, single.
  destruct (aug self); [destruct (1 <? NUM_SAMPLE (AUG cfg))|].
  - unfold bind at 1.
    match goal with
    | |- context [times ?n ?c w] =>
        destruct (times_total n c) with (w := w) as (w1 & l & ->)
    end; [|by eexists _, _].
    intros w0. unfold bind.
    destruct (aug_frame_total self cfg frames (spatial_sample_index s)
                (min_scale s) (max_scale s) (crop_size s) w0) as (w1 & f & ->).
    unfold lift. rewrite Hl. by eexists _, _.
  - unfold bind.
    destruct (aug_frame_total self cfg frames (spatial_sample_index s)
                (min_scale s) (max_scale s) (crop_size s) w) as (w1 & f & ->).
    unfold lift. rewrite Hl. by eexists _, _.
  - unfold bind, call.
    destruct (spatial_sampling _ _ _ _ _ _ _ _ _ _ _) as [e f].
    unfold lift. rewrite Hl. by eexists _, _.
Qed.

Lemma tuple_has_four_components out labels index n :
  single_tuple out labels index ∨ multi_tuple out labels index n →
  length out = 4%nat ∧ last out = Some PEmptyDict.
Proof. intros [(? & ->)|(? & _ & ->)]; done. Qed.

(** C5, as amended: a call of [__getitem__] that returns has sampled a valid
    index [j] and returns four components: the frames, the label vector
    stored for [j], [j] itself and an empty dict; with augmentation and
    [AUG.NUM_SAMPLE > 1] the first three are lists of [NUM_SAMPLE] such
    components.  A trial in which the video is loaded and decoded returns,
    and what it returns is made from the decoded frames and the index of
    that trial. *)
Theorem getitem_returns_four_components r (self : Hvu) (w : World) :
  w_objects w !! r = Some self →
  well_formed self →
  (∀ index short_cycle_idx w' out,
     __getitem__ r index short_cycle_idx w = (w', Ok out) →
     ∃ j labels,
       0 ≤ j < __len__ self ∧
       py_index (_labels self) j = Ok labels ∧
       length out = 4%nat ∧ last out = Some PEmptyDict ∧
       if aug self && (1 <? NUM_SAMPLE (AUG (w_cfg w)))
       then multi_tuple out labels j (NUM_SAMPLE (AUG (w_cfg w)))
       else single_tuple out labels j) ∧
  (∀ cfg s sampling_rate trials i_try index c frames w1 w2,
     load self cfg index w = (w1, Ok (Some c)) →
     decode_clip r cfg s sampling_rate c index w1 = (w2, Ok (Some frames)) →
     retry r cfg s sampling_rate (S trials) i_try index w =
       produce self cfg s frames index w2 ∧
     ∃ w3 out,
       produce self cfg s frames index w2 = (w3, Ok out) ∧
       0 ≤ index < __len__ self ∧
       returned_tuple self cfg out index).
Proof.
  intros Hself Hwf. pose proof Hwf as (_ & _ & Hlabels & _ & Hdom). split.
  - intros index sci w' out Hget.
    destruct (getitem_returns _ _ _ _ _ _ _ Hself Hget)
      as (j & Hj%Hdom & labels & Hl & Hout).
    exists j, labels. split_and!; try done; try lia.
    + eapply (tuple_has_four_components _ labels j).
      destruct (_ && _); [by right|by left].
    + eapply (tuple_has_four_components _ labels j).
      destruct (_ && _); [by right|by left].
  - intros cfg s rate trials i_try index c frames w1 w2 Hload Hdec.
    split.
    { simpl. unfold bind at 1. rewrite (get_self_eq _ _ _ Hself).
      unfold bind at 1. rewrite Hload. unfold bind at 1. by rewrite Hdec. }
    pose proof (Steady_load r _ _ _ _ _ _ Hload) as (_&_&_&_&_&_&S1).
    destruct (S1 _ Hself) as (self1 & Hs1 & Hsame).
    pose proof (decode_clip_ok _ _ _ _ _ _ _ _ _ _ Hs1 Hdec) as Hindex.
    eapply same_dataset_meta in Hindex; [|done].
    apply Hdom in Hindex.
    destruct (py_index_ok (_labels self) index) as (labels & Hl & _).
    { rewrite Hlabels. unfold __len__ in Hindex. lia. }
    destruct (produce_total self cfg s frames index labels w2 Hl)
      as (w3 & out & Hout).
    exists w3, out. split_and!; try done; try lia.
    by eapply produce_returns.
Qed.


(** *** The outcomes of [__getitem__] outside test mode *)

Lemma same_dataset_well_formed (a b : Hvu) :
  same_dataset a b → well_formed a → well_formed b.
Proof.
  intros (Hm&_&_&Hp&Hl&Hs&_&_&Hd) (W1&W2&W3&W4&W5).
  unfold well_formed, __len__ in *. rewrite <- Hm, <- Hp, <- Hl, <- Hs.
  split_and!; try done.
  intros z. rewrite <- W5, <- !elem_of_dom. by rewrite Hd.
Qed.

Lemma load_returns (self : Hvu) cfg index (w : World) :
  0 ≤ index < __len__ self →
  ∃ w1 vc, load self cfg index w = (w1, Ok vc).
Proof.
  intros Hi. unfold load.
  destruct (py_index_ok (_path_to_videos self) index Hi) as (path & Hp & _).
  rewrite Hp. unfold bind, call.
  destruct (get_video_container _ _ _ _) as [e [vc|err]]; simpl.
  - by eexists _, _.
  - unfold lift. by eexists _, _.
Qed.

Lemma next_index_valid (self : Hvu) i_try index (w w1 : World) res :
  mode self ∉ ["test"] →
  0 ≤ index < __len__ self →
  after_failed_load self i_try index w = (w1, res) ∨
  after_failed_decode self i_try index w = (w1, res) →
  ∃ index', res = Ok index' ∧ 0 ≤ index' < __len__ self.
Proof.
  intros Hmode Hi.
  destruct (py_index_ok (_path_to_videos self) index Hi) as (path & Hp & _).
  unfold after_failed_load, after_failed_decode, bind, lift. rewrite Hp.
  rewrite (bool_decide_eq_false_2 _ Hmode). simpl.
  assert (Hrand : ∀ w1 res,
            py_randint 0 (Z.of_nat (length (_path_to_videos self)) - 1) w = (w1, res) →
            ∃ index', res = Ok index' ∧ 0 ≤ index' < __len__ self).
  { clear w1 res. intros w1 res. unfold py_randint, call.
    unfold __len__ in Hi. rewrite (proj2 (Z.leb_le _ _)) by lia.
    pose proof (randint_range 0 (Z.of_nat (length (_path_to_videos self)) - 1)
                  (w_ext w) ltac:(lia)) as Hr.
    destruct (randint _ _ _) as [e z]. simpl in Hr.
    intros [= <- <-]. exists z. unfold __len__. split; [done|lia]. }
  destruct (_num_retries self / 2 <? i_try).
  - intros [?|?]; by eapply Hrand.
  - intros [[= <- <-]|[= <- <-]]; by exists index.
Qed.

Lemma decode_clip_returns r cfg s rate c index (w : World) self :
  w_objects w !! r = Some self →
  is_Some (_video_meta self !! index) →
  ∃ w1 frames, decode_clip r cfg s rate c index w = (w1, Ok frames).
Proof.
  intros Hself [meta Hmeta]. unfold decode_clip, bind.
  rewrite (get_self_eq _ _ _ Hself). unfold lift, dict_get. rewrite Hmeta.
  unfold call. destruct (decode _ _ _ _ _ _ _ _ _ _ _ _) as [e [meta' frames]].
  simpl. by eexists _, _.
Qed.

Lemma retry_outcome r cfg s rate trials :
  ∀ i_try index (w w' : World) res self,
    w_objects w !! r = Some self →
    well_formed self →
    mode self ∉ ["test"] →
    0 ≤ index < __len__ self →
    retry r cfg s rate trials i_try index w = (w', res) →
    res = Raise RuntimeError ∨ ∃ out, res = Ok out.
Proof.
  induction trials as [|n IH];
    intros i_try index w w' res self Hself Hwf Hmode Hi; simpl.
  - unfold bind. rewrite (get_self_eq _ _ _ Hself). unfold lift.
    destruct (py_index_ok (_path_to_videos self) index Hi) as (path & -> & _).
    intros [= <- <-]. by left.
  - unfold bind at 1. rewrite (get_self_eq _ _ _ Hself).
    destruct (load_returns self cfg index w Hi) as (w1 & vc & Hload).
    unfold bind at 1. rewrite Hload.
    pose proof (Steady_load r _ _ _ _ _ _ Hload) as S1.
    assert (Hnext : ∀ w2 w3 res2 i_try',
              steady r w w2 →
              after_failed_load self i_try index w2 = (w3, res2) ∨
              after_failed_decode self i_try index w2 = (w3, res2) →
              (match res2 with
               | Ok index' => retry r cfg s rate n i_try' index' w3
               | Raise e => (w3, Raise e)
               end) = (w', res) →
              res = Raise RuntimeError ∨ ∃ out, res = Ok out).
    { intros w2 w3 res2 i_try' S2 Hafter Hrest.
      assert (steady r w2 w3) as S3.
      { destruct Hafter as [Ha|Ha];
          [by eapply Steady_after_failed_load
          |by eapply Steady_after_failed_decode]. }
      destruct (next_index_valid _ _ _ _ _ _ Hmode Hi Hafter)
        as (index' & -> & Hi').
      pose proof (steady_trans _ _ _ _ S2 S3) as (_&_&_&_&_&_&S).
      destruct (S _ Hself) as (self3 & Hs3 & E3).
      pose proof E3 as (Hm3&_&_&Hp3&_).
      eapply (IH _ _ _ _ _ self3); try done.
      - by eapply same_dataset_well_formed.
      - by rewrite <- Hm3.
      - unfold __len__ in *. by rewrite <- Hp3. }
    destruct vc as [c|].
    + destruct S1 as (A1&A2&A3&A4&A5&A6&A7).
      destruct (A7 _ Hself) as (self1 & Hs1 & E1).
      assert (Hmeta : is_Some (_video_meta self1 !! index)).
      { pose proof (same_dataset_well_formed _ _ E1 Hwf) as (_&_&_&_&Hdom).
        apply Hdom. pose proof E1 as (_&_&_&Hp1&_).
        unfold __len__ in *. by rewrite <- Hp1. }
      destruct (decode_clip_returns r cfg s rate c index w1 self1 Hs1 Hmeta)
        as (w2 & frames & Hdec).
      unfold bind at 1. rewrite Hdec.
      pose proof (Steady_decode_clip r _ _ _ _ _ _ _ _ Hdec) as S2.
      destruct frames as [frames|].
      * destruct Hwf as (_ & _ & Hlabels & _).
        destruct (py_index_ok (_labels self) index) as (labels & Hl & _).
        { rewrite Hlabels. unfold __len__ in Hi. lia. }
        destruct (produce_total self cfg s frames index labels w2 Hl)
          as (w3 & out & ->).
        intros [= <- <-]. right. by eexists.
      * unfold bind.
        destruct (after_failed_decode self i_try index w2) as [w3 res2] eqn:Ha.
        intros Hrest. eapply (Hnext w2 w3 res2 (i_try + 1)); [|by right|done].
        eapply steady_trans; [|done]. unfold steady. split_and!; done.
    + unfold bind.
      destruct (after_failed_load self i_try index w1) as [w3 res2] eqn:Ha.
      intros Hrest. eapply (Hnext w1 w3 res2 (i_try + 1)); [done|by left|done].
Qed.

(** Outside test mode, a call on a valid index for which the sampling
    parameters are defined either returns or raises [RuntimeError]. *)
Lemma getitem_outcome r (self : Hvu) index sci (w w' : World) res s :
  w_objects w !! r = Some self →
  well_formed self →
  mode self ∉ ["test"] →
  0 ≤ index < __len__ self →
  sampling self (w_cfg w) index sci = Ok s →
  __getitem__ r index sci w = (w', res) →
  res = Raise RuntimeError ∨ ∃ out, res = Ok out.
Proof.
  intros Hself Hwf Hmode Hi Hs. unfold __getitem__.
  unfold bind at 1. rewrite (get_self_eq _ _ _ Hself).
  unfold bind at 1, get_cfg. unfold bind at 1, lift. rewrite Hs.
  unfold bind at 1.
  destruct (call _ w) as [w1 [rate|e]] eqn:Hcall.
  2:{ unfold call in Hcall. destruct (get_random_sampling_rate _ _ _). done. }
  pose proof (Steady_call r _ _ _ _ Hcall) as (_&_&_&_&_&_&S).
  destruct (S _ Hself) as (self1 & Hs1 & E1).
  pose proof E1 as (Hm1&Hr1&_&Hp1&_).
  intros Hrun. eapply (retry_outcome _ _ _ _ _ _ _ _ _ _ self1); try done.
  - by eapply same_dataset_well_formed.
  - by rewrite <- Hm1.
  - unfold __len__ in *. by rewrite <- Hp1.
Qed.

End proofs.
End HvuProofs.

(** * Runs of the definitions on the small instance *)

Module Examples.
Import Py Torch Config Lib Hvu Inv Demo.

(** Witness of C2 on a state dict laid out as those of CLIP. *)
Lemma saved_state_dict_witness :
  ∃ saved,
    ("vit_b16.pth", saved) ∈ Extract.script demo_clip_load ∧
    Extract.od_get "conv1.weight" saved = Some 6%nat ∧
    ¬ "proj" ∈ Extract.od_keys saved.
Proof.
  destruct (ExtractProofs.saved_state_dict_is_filter_rename
              demo_clip_load "vit_b16.pth" "ViT-B/16")
    as (saved & _ & Hin & Hkeys & Hvalue & _).
  - vm_compute. left.
  - apply (bool_decide_unpack _). vm_compute. exact I.
  - apply ExtractProofs.prefix_rename_injective. vm_compute. reflexivity.
  - exists saved. split; [exact Hin|]. split.
    + apply (Hvalue "visual.conv1.weight" 6%nat).
      * apply (bool_decide_unpack _). vm_compute. exact I.
      * vm_compute. reflexivity.
      * apply (bool_decide_unpack _). vm_compute. exact I.
    + intros (k & _ & _ & Hnot & Heq)%Hkeys. apply Hnot. rewrite <- Heq.
      apply (bool_decide_unpack _). vm_compute. exact I.
Defined.

(** Witness of C8: a construction in train mode. *)
Lemma init_overwrites_witness :
  let w' := demo_dataset (demo_cfg 2 3 false 1) [] "train" 10 in
  NUM_ENSEMBLE_VIEWS (TEST (w_cfg w')) = 1 ∧
  NUM_SPATIAL_CROPS (TEST (w_cfg w')) = 1.
Proof.
  apply (HvuProofs.init_overwrites_test_views (H := demo_library) "train" 10
           (demo_world (demo_cfg 2 3 false 1) [])).
  apply (bool_decide_unpack _). vm_compute. exact I.
Defined.



(** A run is known by its second component. *)
Lemma run_eq {A B} (run : A * B) (b : B) : run.2 = b → run = (run.1, b).
Proof. destruct run. simpl. by intros ->. Qed.

Lemma object_eq (w : @World demo_library) (r : nat) :
  (r < length (w_objects w))%nat → w_objects w !! r = Some (demo_object w r).
Proof.
  intros [self Hself]%lookup_lt_is_Some_2. unfold demo_object.
  by rewrite Hself.
Qed.

(** The construction in test mode with two views and three crops. *)
Lemma demo_test_run :
  __init__ (H := demo_library) "test" 10 (demo_world (demo_cfg 2 3 false 1) []) =
  (demo_dataset (demo_cfg 2 3 false 1) [] "test" 10, Ok 0%nat).
Proof.
  unfold demo_dataset.
  apply (run_eq (__init__ (H := demo_library) "test" 10
                   (demo_world (demo_cfg 2 3 false 1) [])) (Ok 0%nat)).
  vm_compute. reflexivity.
Qed.

Lemma demo_test_object :
  let w' := demo_dataset (demo_cfg 2 3 false 1) [] "test" 10 in
  w_objects w' !! 0%nat = Some (demo_object w' 0).
Proof. apply object_eq. vm_compute. lia. Qed.

Lemma demo_test_lines :
  let w := demo_world (demo_cfg 2 3 false 1) [] in
  w_files w !! split_file (w_cfg w) "test" = Some demo_lines.
Proof. vm_compute. reflexivity. Qed.

(** Witness of C9. *)
Lemma lists_have_one_length_witness :
  let w' := demo_dataset (demo_cfg 2 3 false 1) [] "test" 10 in
  let self := demo_object w' 0 in
  w_objects w' !! 0%nat = Some self ∧ __len__ self = 12 ∧
  py_index (_spatial_temporal_idx self) 7 = Ok 1 ∧
  ∃ self1,
    w_objects (__getitem__ (H := demo_library) 0 7 None w').1 !! 0%nat =
      Some self1 ∧
    __len__ self1 = __len__ self.
Proof.
  intros w' self.
  destruct (HvuProofs.lists_have_one_length (H := demo_library) _ _ _ _ _
              demo_test_run)
    as (self' & lines & Hself & Hf & _ & _ & Hlen & Hlen' & _ & _ & Hidx & Hlater).
  rewrite demo_test_object in Hself. injection Hself as <-.
  fold w' self in Hidx, Hlater |- *.
  assert (Hnum : _num_clips self = 6) by (vm_compute; reflexivity).
  assert (Hlen12 : __len__ self = 12) by (vm_compute; reflexivity).
  split; [exact demo_test_object|]. split; [exact Hlen12|]. split.
  - rewrite Hidx.
    + rewrite Hnum. reflexivity.
    + rewrite Hlen12. lia.
  - destruct (Hlater (__getitem__ (H := demo_library) 0 7 None w').1)
      as (self1 & Hs1 & _ & _ & _ & Hl1 & _).
    { apply later_getitem, later_now. }
    exists self1. split; [exact Hs1|exact Hl1].
Defined.


(** Witness of C1: the first line of the split file has the labels 0 and
    2. *)
Lemma label_vector_witness :
  let w' := demo_dataset (demo_cfg 2 3 false 1) [] "test" 10 in
  let self := demo_object w' 0 in
  ∃ vec t,
    w_tensors w' !! vec = Some t ∧
    t_data t !! 0%nat = Some 1%float ∧ t_data t !! 1%nat = Some 0%float ∧
    t_data t !! 2%nat = Some 1%float ∧ t_data t !! 3%nat = Some 0%float ∧
    py_index (_labels self) 4 = Ok vec ∧
    ∃ pathways,
      returned (__getitem__ (H := demo_library) 0 4 None w') =
      [PFrames pathways; PTensor vec; PInt 4; PEmptyDict].
Proof.
  intros w' self.
  destruct (HvuProofs.label_vector_is_multi_hot (H := demo_library) _ _ _ _ _
              demo_test_run)
    as (self' & lines & Hself & Hf & Hvideo).
  rewrite demo_test_object in Hself. injection Hself as <-.
  rewrite demo_test_lines in Hf. injection Hf as <-.
  fold w' self in Hvideo.
  assert (Hnum : _num_clips self = 6) by (vm_compute; reflexivity).
  destruct (Hvideo 0%nat "a.mp4 0|2" "a.mp4" [0; 2])
    as (vec & t & Ht & _ & _ & Hdata & Hclips & Hget).
  - reflexivity.
  - vm_compute. reflexivity.
  - repeat constructor; vm_compute; discriminate.
  - assert (Hentry : ∀ p, 0 ≤ p < 4 →
              t_data t !! Z.to_nat p =
              Some (if bool_decide (p ∈ [0; 2]) then 1%float else 0%float))
      by exact Hdata.
    assert (Hvec : py_index (_labels self) 4 = Ok vec).
    { apply (Hclips 4). rewrite Hnum. lia. }
    assert (vec = 0%nat) as ->.
    { assert (Hzero : py_index (_labels self) 4 = Ok 0%nat)
        by (vm_compute; reflexivity).
      rewrite Hzero in Hvec. by injection Hvec. }
    exists 0%nat, t. split; [exact Ht|].
    split; [apply (Hentry 0); lia|]. split; [apply (Hentry 1); lia|].
    split; [apply (Hentry 2); lia|]. split; [apply (Hentry 3); lia|].
    split; [exact Hvec|].
    destruct (Hget w' (__getitem__ (H := demo_library) 0 4 None w').1 4 None
                (returned (__getitem__ (H := demo_library) 0 4 None w')))
      as (_ & j & label & Hj & Hout & Hlabel).
    + apply later_now.
    + apply run_eq. reflexivity.
    + eexists. reflexivity.
Defined.

(** Witness of C3: two views and three crops; after a call of
    [__getitem__] the clip 10 is the clip 4 of the second video, view 1 and
    crop 1, as before. *)
Lemma test_clips_witness :
  let w' := demo_dataset (demo_cfg 2 3 false 1) [] "test" 10 in
  let self := demo_object w' 0 in
  let w1 := (__getitem__ (H := demo_library) 0 7 None w').1 in
  _num_clips self = 6 ∧ __len__ self = 12 ∧
  py_index (_path_to_videos self) 10 = Ok "/videos/b.mp4" ∧
  ∃ s, sampling (demo_object w1 0) (w_cfg w1) 10 None = Ok s ∧
       temporal_sample_index s = 1 ∧ spatial_sample_index s = 1.
Proof.
  intros w' self w1.
  destruct (HvuProofs.test_clips_cover_grid (H := demo_library) _ _ _ _
              demo_test_run)
    as (self' & lines & Hself & Hf & _ & Hnum & Hlen & Hpaths & Hlater).
  { vm_compute. reflexivity. }
  rewrite demo_test_object in Hself. injection Hself as <-.
  rewrite demo_test_lines in Hf. injection Hf as <-.
  fold w' self in Hnum, Hlen, Hpaths, Hlater.
  split; [exact Hnum|]. split; [exact Hlen|]. split.
  - apply (Hpaths 1%nat "b.mp4 1" "b.mp4" [1] 4).
    + reflexivity.
    + vm_compute. reflexivity.
    + vm_compute. split; [discriminate|reflexivity].
  - destruct (Hlater w1) as (self1 & Hself1 & Hlen1 & Hsampling & _).
    { apply later_getitem, later_now. }
    { reflexivity. }
    assert (Hobj : w_objects w1 !! 0%nat = Some (demo_object w1 0)).
    { apply object_eq. vm_compute. lia. }
    rewrite Hobj in Hself1. injection Hself1 as <-.
    destruct (Hsampling 10 None) as (k & s & _ & -> & Hs & Ht & _ & Hc).
    { rewrite Hlen1, Hlen. vm_compute. split; [discriminate|reflexivity]. }
    exists s. split; [exact Hs|]. split; [rewrite Ht; reflexivity|].
    rewrite Hc; [reflexivity|]. vm_compute. reflexivity.
Defined.

(** Counterexample to C3 as stated: the configuration is shared, and a val
    data set constructed on it after the test data set of two views and
    three crops sets [cfg.TEST.NUM_SPATIAL_CROPS] to 1.  The sample 10 of
    the test data set is valid as before and holds the sampling index 4;
    [__getitem__] now derives the temporal index 4 // 1 = 4 for it, outside
    [0, NUM_ENSEMBLE_VIEWS) both for the two views of the construction and
    for the one view the configuration now holds, and passes it to the
    decoder. *)
Lemma later_val_set_breaks_the_grid :
  let w := demo_world (demo_cfg 2 3 false 1) [] in
  let w1 := demo_dataset (demo_cfg 2 3 false 1) [] "test" 10 in
  let w2 := (__init__ (H := demo_library) "val" 10 w1).1 in
  let self := demo_object w2 0 in
  __init__ (H := demo_library) "test" 10 w = (w1, Ok 0%nat) ∧
  (__init__ (H := demo_library) "val" 10 w1).2 = Ok 1%nat ∧
  mode self = "test" ∧ __len__ self = 12 ∧ _num_clips self = 6 ∧
  NUM_ENSEMBLE_VIEWS (TEST (w_cfg w)) = 2 ∧
  NUM_ENSEMBLE_VIEWS (TEST (w_cfg w2)) = 1 ∧
  NUM_SPATIAL_CROPS (TEST (w_cfg w2)) = 1 ∧
  py_index (_spatial_temporal_idx self) 10 = Ok 4 ∧
  (∃ s, sampling self (w_cfg w2) 10 None = Ok s ∧
        temporal_sample_index s = 4 ∧
        ¬ (0 ≤ temporal_sample_index s < 2) ∧
        ¬ (0 ≤ temporal_sample_index s < NUM_ENSEMBLE_VIEWS (TEST (w_cfg w2)))) ∧
  (__getitem__ (H := demo_library) 0 10 None w2).2 =
    Ok [PFrames [[8; 4; 1; 1; 224] : @Frames demo_library]; PTensor 1%nat;
        PInt 10; PEmptyDict].
Proof.
  intros w w1 w2 self. split; [exact demo_test_run|].
  split_and!; try reflexivity.
  eexists. split; [reflexivity|]. split; [reflexivity|].
  split; vm_compute; intros [_ Hlt]; discriminate Hlt.
Qed.

(** Witness of C5: the first clip of the second video is read at the first
    trial. *)
Lemma getitem_returns_witness :
  let w' := demo_dataset (demo_cfg 2 3 false 1) [] "test" 10 in
  let out := returned (__getitem__ (H := demo_library) 0 6 None w') in
  length out = 4%nat ∧ last out = Some PEmptyDict ∧
  ∃ j labels, 0 ≤ j < __len__ (demo_object w' 0) ∧ single_tuple out labels j.
Proof.
  intros w' out.
  destruct (HvuProofs.init_well_formed (H := demo_library) _ _ _ _ _
              demo_test_run)
    as (self & lines & Hself & _ & Hwf & _ & _ & _ & _ & _).
  destruct (HvuProofs.getitem_returns_four_components (H := demo_library)
              0%nat self w' Hself Hwf) as [Hreturns _].
  destruct (Hreturns 6 None (__getitem__ (H := demo_library) 0 6 None w').1 out)
    as (j & labels & Hj & _ & Hlen & Hlast & Hout).
  { apply run_eq. reflexivity. }
  rewrite demo_test_object in Hself. injection Hself as <-.
  split; [exact Hlen|]. split; [exact Hlast|].
  exists j, labels. split; [exact Hj|]. exact Hout.
Defined.

(** Counterexample to C5 as stated: a call that loads and decodes its video
    at the first trial returns four components, the last one an empty dict,
    and not the three that the claim lists. *)
Lemma getitem_returns_a_fourth_component :
  let w' := demo_dataset (demo_cfg 2 3 false 1) [] "test" 10 in
  ∃ out,
    (__getitem__ (H := demo_library) 0 6 None w').2 = Ok out ∧
    out !! 3%nat = Some PEmptyDict ∧
    ¬ ∃ frames labels index, out = [frames; labels; index].
Proof.
  intros w'.
  exists (returned (__getitem__ (H := demo_library) 0 6 None w')).
  split; [reflexivity|]. split; [reflexivity|].
  intros (frames & labels & index & Heq).
  apply (f_equal length) in Heq. revert Heq. vm_compute. discriminate.
Qed.


(** C4 at its failing input: a test split of two videos, the first one
    unreadable.  The last sample loads and decodes when it is asked for;
    asked for the first sample, [__getitem__] falls back to the index -1
    after seven failed trials, loads the last video, and raises [KeyError],
    which is neither the [RuntimeError] of the claim nor a normal return. *)
Theorem fallback_index_raises_key_error :
  let w := demo_dataset (demo_cfg 1 1 false 1) ["/videos/a.mp4"] "test" 10 in
  let self := demo_object w 0 in
  __len__ self = 2 ∧ _num_retries self = 10 ∧
  (__getitem__ (H := demo_library) 0 1 None w).2 =
    Ok [PFrames [[8; 0; 1; 1; 224] : @Frames demo_library]; PTensor 1%nat;
        PInt 1; PEmptyDict] ∧
  (__getitem__ (H := demo_library) 0 0 None w).2 = Raise KeyError.
Proof. intros w self. split_and!; reflexivity. Qed.

(** C10 at its failing input: a test split of two videos with two views
    and three crops each, the first video unreadable.  The index -1 is
    inside the range of the list of paths and selects the last sample, but
    it is no key of the meta data, and the call raises [KeyError]. *)
Theorem negative_index_is_no_meta_key :
  let w := demo_dataset (demo_cfg 2 3 false 1) ["/videos/a.mp4"] "test" 10 in
  let self := demo_object w 0 in
  __len__ self = 12 ∧
  py_index (_path_to_videos self) (0 - 1) = Ok "/videos/b.mp4" ∧
  py_index (_path_to_videos self) 11 = Ok "/videos/b.mp4" ∧
  is_Some (_video_meta self !! 11) ∧
  dict_get (_video_meta self) (0 - 1) = Raise KeyError ∧
  (__getitem__ (H := demo_library) 0 0 None w).2 = Raise KeyError.
Proof.
  intros w self. split_and!; try reflexivity. eexists. reflexivity.
Qed.

End Examples.

(** * Further properties of extract.py *)

Module ExtractMore.
Import Py Extract ExtractProofs.

Section more.

Context {Tensor : Type}.
Implicit Types (d sd : list (string * Tensor)) (k j : string) (v : Tensor).

Lemma od_set_fresh d j v : j ∉ od_keys d → od_set j v d = d ++ [(j, v)].
Proof.
  unfold od_keys. induction d as [|[k' v'] d IH]; simpl; [done|].
  rewrite not_elem_of_cons. intros [Hne Hnot].
  rewrite decide_False by done. by rewrite IH.
Qed.

Lemma od_set_keys_nodup d j v : NoDup (od_keys d) → NoDup (od_keys (od_set j v d)).
Proof.
  unfold od_keys. induction d as [|[k' v'] d IH]; simpl.
  - intros _. apply NoDup_singleton.
  - rewrite NoDup_cons. intros [Hnot Hnd].
    destruct (decide (k' = j)) as [->|Hne]; simpl.
    + by apply NoDup_cons.
    + apply NoDup_cons. split; [|by apply IH].
      intros Hin. apply (od_keys_set d j v k') in Hin as [->|Hin]; done.
Qed.

Lemma extract_nodup sd : NoDup (od_keys (extract sd)).
Proof.
  induction sd as [|[k v] sd IH] using rev_ind.
  - apply NoDup_nil_2.
  - rewrite extract_snoc, extract_step_selected.
    destruct (selected k); [by apply od_set_keys_nodup|done].
Qed.

(** X1. Whatever the state dict, the saved dict has each name once, none of the
    names "proj", "ln_post.weight" and "ln_post.bias", and only names cut
    from a key in which "visual." occurs. *)
Theorem dropped_names_are_never_saved sd j :
  NoDup (od_keys (extract sd)) ∧
  (j ∈ od_keys (extract sd) →
   (j ∉ dropped_keys) ∧
   ∃ k, k ∈ od_keys sd ∧ str_in "visual." k = true ∧ j = str_from 7 k).
Proof.
  split; [apply extract_nodup|].
  intros (k & Hk & Hsel & ->)%extract_keys.
  unfold selected in Hsel. apply andb_true_iff in Hsel as [Hvis Hnot].
  apply bool_decide_eq_true in Hnot. split; [done|]. by exists k.
Qed.

(** X2. When the keys are told apart by their new names, the saved dict lists
    the selected entries in the order of the state dict, each under its new
    name. *)
Theorem saved_entries_keep_their_order sd :
  NoDup (od_keys sd) → rename_injective sd →
  extract sd =
  (λ kv, (str_from 7 kv.1, kv.2)) <$> filter (λ kv, selected kv.1 = true) sd.
Proof.
  induction sd as [|[k v] sd IH] using rev_ind; intros Hnd Hinj; [done|].
  assert (Hnd' : NoDup (od_keys sd) ∧ k ∉ od_keys sd).
  { unfold od_keys in *. rewrite fmap_app in Hnd.
    apply NoDup_app in Hnd as (Hnd & Hdisj & _). split; [done|].
    intros Hin. apply (Hdisj _ Hin). simpl. apply list_elem_of_singleton. done. }
  destruct Hnd' as [Hnd' Hk].
  assert (Hinj' : rename_injective sd).
  { intros k1 k2 H1 H2. apply Hinj; rewrite od_keys_snoc; auto. }
  rewrite extract_snoc, extract_step_selected. rewrite filter_app, fmap_app.
  destruct (selected k) eqn:Hsel.
  - rewrite filter_cons_True by done. rewrite filter_nil. simpl.
    rewrite od_set_fresh; [by rewrite (IH Hnd' Hinj')|].
    intros (k' & Hk' & Hsel' & Heq)%extract_keys.
    assert (k = k') as <-; [|done].
    apply Hinj; try done; rewrite od_keys_snoc; auto.
  - rewrite filter_cons_False by (simpl; congruence).
    rewrite filter_nil. simpl. by rewrite app_nil_r, (IH Hnd' Hinj').
Qed.

(** X3. When two selected keys are cut to the same name, the later one wins:
    the value saved under the name is that of the last such key. *)
Theorem later_key_overwrites sd1 sd2 sd3 k1 v1 k2 v2 :
  selected k1 = true → selected k2 = true →
  str_from 7 k1 = str_from 7 k2 →
  (∀ k, k ∈ od_keys sd3 → selected k = true → str_from 7 k ≠ str_from 7 k2) →
  od_get (str_from 7 k1) (extract (sd1 ++ (k1, v1) :: sd2 ++ (k2, v2) :: sd3)) =
  Some v2.
Proof.
  intros _ Hsel Heq Hlast. rewrite Heq.
  replace (sd1 ++ (k1, v1) :: sd2 ++ (k2, v2) :: sd3)
    with ((sd1 ++ (k1, v1) :: sd2) ++ (k2, v2) :: sd3)
    by (by rewrite <- app_assoc).
  by apply extract_last.
Qed.

End more.
End ExtractMore.

(** * How a line of a split file is read *)

Module ParseProofs.
Import Py Torch Config Lib Hvu Inv Lines.

Lemma append_cons x (a b : string) : String x a +:+ b = String x (a +:+ b).
Proof. reflexivity. Qed.

Lemma append_empty_l (b : string) : EmptyString +:+ b = b.
Proof. reflexivity. Qed.

Lemma append_empty_r (s : string) : s +:+ EmptyString = s.
Proof.
  induction s as [|c s IH]; [done|]. by rewrite append_cons, IH.
Qed.

Lemma append_assoc (a b c : string) : (a +:+ b) +:+ c = a +:+ (b +:+ c).
Proof.
  induction a as [|x a IH]; [done|]. by rewrite !append_cons, IH.
Qed.

Lemma prefix_char c x s :
  String.prefix (String c EmptyString) (String x s) = bool_decide (c = x).
Proof.
  simpl. destruct (ascii_dec c x) as [->|Hne].
  - rewrite bool_decide_eq_true_2 by done. by destruct s.
  - by rewrite bool_decide_eq_false_2.
Qed.

Lemma str_in_char_cons c x s :
  str_in (String c EmptyString) (String x s) =
  bool_decide (c = x) || str_in (String c EmptyString) s.
Proof. cbn [str_in]. by rewrite prefix_char. Qed.

Lemma str_in_char_app c a b :
  str_in (String c EmptyString) (a +:+ b) =
  str_in (String c EmptyString) a || str_in (String c EmptyString) b.
Proof.
  induction a as [|x a IH].
  - done.
  - rewrite append_cons, !str_in_char_cons, IH. by rewrite orb_assoc.
Qed.

Lemma split_go_cons c cur x s :
  split_go (String c EmptyString) 0 cur (String x s) =
  if bool_decide (c = x)
  then cur :: split_go (String c EmptyString) 0 EmptyString s
  else split_go (String c EmptyString) 0 (cur +:+ String x EmptyString) s.
Proof. cbn [split_go]. by rewrite prefix_char. Qed.

Lemma split_go_none c a : ∀ cur,
  str_in (String c EmptyString) a = false →
  split_go (String c EmptyString) 0 cur a = [cur +:+ a].
Proof.
  induction a as [|x a IH]; intros cur Hin.
  - simpl. by rewrite append_empty_r.
  - rewrite str_in_char_cons in Hin. apply orb_false_iff in Hin as [Hx Ha].
    rewrite split_go_cons, Hx, IH by done. by rewrite append_assoc.
Qed.

Lemma split_go_cut c a b : ∀ cur,
  str_in (String c EmptyString) a = false →
  split_go (String c EmptyString) 0 cur (a +:+ String c b) =
  (cur +:+ a) :: split_go (String c EmptyString) 0 EmptyString b.
Proof.
  induction a as [|x a IH]; intros cur Hin.
  - rewrite append_empty_l, split_go_cons, bool_decide_eq_true_2 by done.
    by rewrite append_empty_r.
  - rewrite str_in_char_cons in Hin. apply orb_false_iff in Hin as [Hx Ha].
    rewrite append_cons, split_go_cons, Hx, IH by done. by rewrite append_assoc.
Qed.

Lemma split_go_length_cur c s : ∀ cur cur',
  length (split_go (String c EmptyString) 0 cur s) =
  length (split_go (String c EmptyString) 0 cur' s).
Proof.
  induction s as [|x s IH]; intros cur cur'; [done|].
  rewrite !split_go_cons. case_bool_decide; simpl; [done|apply IH].
Qed.

Lemma split_go_length_pos c s cur :
  (0 < length (split_go (String c EmptyString) 0 cur s))%nat.
Proof.
  revert cur. induction s as [|x s IH]; intros cur; [simpl; lia|].
  rewrite split_go_cons. case_bool_decide; simpl; [lia|apply IH].
Qed.

Lemma split_go_length_app c a s : ∀ cur,
  (length (split_go (String c EmptyString) 0 EmptyString s) ≤
   length (split_go (String c EmptyString) 0 cur (a +:+ s)))%nat.
Proof.
  induction a as [|x a IH]; intros cur.
  - rewrite append_empty_l.
    by rewrite (split_go_length_cur c s cur EmptyString).
  - rewrite append_cons, split_go_cons. case_bool_decide; simpl.
    + specialize (IH EmptyString). lia.
    + apply IH.
Qed.

Lemma split_join c strs :
  strs ≠ [] →
  Forall (λ s, str_in (String c EmptyString) s = false) strs →
  split_go (String c EmptyString) 0 EmptyString
    (str_join (String c EmptyString) strs) = strs.
Proof.
  induction strs as [|s rest IH]; intros Hne Hall; [done|].
  apply Forall_cons in Hall as [Hs Hrest].
  destruct rest as [|s' rest].
  - cbn [str_join]. by rewrite split_go_none.
  - change (str_join (String c EmptyString) (s :: s' :: rest))
      with (s +:+ String c (str_join (String c EmptyString) (s' :: rest))).
    rewrite split_go_cut, append_empty_l by done. f_equal. by apply IH.
Qed.

Lemma str_in_join c d strs :
  c ≠ d →
  Forall (λ s, str_in (String c EmptyString) s = false) strs →
  str_in (String c EmptyString) (str_join (String d EmptyString) strs) = false.
Proof.
  intros Hcd. induction strs as [|s rest IH]; intros Hall; [done|].
  apply Forall_cons in Hall as [Hs Hrest].
  destruct rest as [|s' rest]; [done|].
  change (str_join (String d EmptyString) (s :: s' :: rest))
    with (s +:+ String d (str_join (String d EmptyString) (s' :: rest))).
  rewrite str_in_char_app, Hs, str_in_char_cons, IH by done.
  by rewrite bool_decide_eq_false_2.
Qed.

(** X4. A line made of a path, the separator and labels joined by [|] is read
    as that path and those labels, when the separator is one character
    that occurs neither in the path nor in a label, and no label holds a
    [|]. *)
Theorem line_is_read_as_its_fields c path strs :
  let sep := String c EmptyString in
  c ≠ "|"%char → strs ≠ [] →
  str_in sep path = false →
  Forall (λ s, str_in sep s = false) strs →
  Forall (λ s, str_in "|" s = false) strs →
  parse_line sep (path +:+ sep +:+ str_join "|" strs) =
  (labels <-? rmap py_int strs ;; Ok (path, labels)).
Proof.
  intros sep Hc Hne Hpath Hsep Hbar. unfold parse_line, str_split, sep.
  rewrite append_cons, append_empty_l, split_go_cut by done.
  rewrite split_go_none by (by apply str_in_join).
  rewrite !append_empty_l. cbn [rbind]. by rewrite split_join.
Qed.

(** X5. A line without the separator, a line with two separators or more, and
    a line whose label field is empty raise [ValueError]. *)
Theorem malformed_line_is_a_value_error c (line a b d : string) :
  let sep := String c EmptyString in
  (str_in sep line = false → parse_line sep line = Raise ValueError) ∧
  parse_line sep (a +:+ sep +:+ b +:+ sep +:+ d) = Raise ValueError ∧
  (str_in sep a = false → parse_line sep (a +:+ sep) = Raise ValueError).
Proof.
  intros sep. unfold parse_line, str_split, sep. split_and!.
  - intros Hline. by rewrite split_go_none.
  - rewrite !append_cons, !append_empty_l. cbn [rbind].
    pose proof (split_go_length_app c a (String c (b +:+ String c d)) EmptyString) as H1.
    rewrite split_go_cons, bool_decide_eq_true_2 in H1 by done.
    pose proof (split_go_length_app c b (String c d) EmptyString) as H2.
    rewrite split_go_cons, bool_decide_eq_true_2 in H2 by done.
    pose proof (split_go_length_pos c d EmptyString) as H3.
    cbn [length] in H1, H2.
    destruct (split_go _ _ _ (a +:+ _)) as [|p1 [|p2 [|p3 l]]]; simpl in *;
      try done; lia.
  - intros Ha. by rewrite split_go_cut.
Qed.

End ParseProofs.

(** * Further properties of [__getitem__] and of the construction *)

Module HvuMore.
Import Py Torch Config Lib Hvu Inv HvuProofs.

Section more.

Context `{Library}.

(** X6. A call of [__getitem__], whatever its outcome, leaves the configuration,
    the files, the label tensors and every other data set as they are; of
    its own data set it changes at most the contents of the meta data, not
    the keys. *)
Theorem getitem_changes_meta_only r index short_cycle_idx (w : World) :
  let w' := (__getitem__ r index short_cycle_idx w).1 in
  w_cfg w' = w_cfg w ∧ w_files w' = w_files w ∧ w_reads w' = w_reads w ∧
  w_tensors w' = w_tensors w ∧
  length (w_objects w') = length (w_objects w) ∧
  (∀ r', r' ≠ r → w_objects w' !! r' = w_objects w !! r') ∧
  (∀ self, w_objects w !! r = Some self →
     ∃ self', w_objects w' !! r = Some self' ∧ same_dataset self self').
Proof.
  intros w'. subst w'.
  destruct (__getitem__ r index short_cycle_idx w) as [w' res] eqn:Hrun.
  exact (Steady_getitem r index short_cycle_idx w w' res Hrun).
Qed.

(** X7. Outside test mode a call on a valid index, with sampling parameters
    that are defined, ends in one of two ways: it returns, or it raises
    [RuntimeError]; the indices it falls back to are valid, so no look-up
    fails. *)
Theorem train_and_val_raise_runtime_error_only r (self : Hvu) index
    short_cycle_idx (w : World) s :
  w_objects w !! r = Some self →
  well_formed self →
  mode self ≠ "test" →
  0 ≤ index < __len__ self →
  sampling self (w_cfg w) index short_cycle_idx = Ok s →
  let res := (__getitem__ r index short_cycle_idx w).2 in
  res = Raise RuntimeError ∨ ∃ out, res = Ok out.
Proof.
  intros Hself Hwf Hmode Hi Hs res. subst res.
  destruct (__getitem__ r index short_cycle_idx w) as [w' res] eqn:Hrun.
  eapply (getitem_outcome r self index short_cycle_idx w w' res s); try done.
  by intros ?%list_elem_of_singleton.
Qed.

(** *** The index that a call in test mode returns *)

Lemma after_failed_load_test (self : Hvu) i_try index (w w1 : World) index' :
  mode self = "test" →
  after_failed_load self i_try index w = (w1, Ok index') →
  index - 1 ≤ index' ≤ index.
Proof.
  intros Hmode. unfold after_failed_load, bind, lift.
  destruct (py_index _ index) as [path|e]; [|done].
  rewrite (bool_decide_eq_true_2 (mode self ∈ ["test"]))
    by (rewrite Hmode; by apply list_elem_of_singleton).
  simpl. destruct (_ <? i_try); intros [= <- <-]; lia.
Qed.

Lemma after_failed_decode_test (self : Hvu) i_try index (w w1 : World) index' :
  mode self = "test" →
  after_failed_decode self i_try index w = (w1, Ok index') →
  index' = index.
Proof.
  intros Hmode. unfold after_failed_decode, bind, lift.
  destruct (py_index _ index) as [path|e]; [|done].
  rewrite (bool_decide_eq_true_2 (mode self ∈ ["test"]))
    by (rewrite Hmode; by apply list_elem_of_singleton).
  simpl. by intros [= <- <-].
Qed.

Lemma retry_test_index r cfg s rate trials :
  ∀ i_try index (w w' : World) out self,
    w_objects w !! r = Some self →
    mode self = "test" →
    retry r cfg s rate trials i_try index w = (w', Ok out) →
    ∃ j, j ≤ index ∧ is_Some (_video_meta self !! j) ∧
         returned_tuple self cfg out j.
Proof.
  induction trials as [|n IH];
    intros i_try index w w' out self Hself Hmode; simpl.
  - intros (w1 & a & _ & Hrun)%bind_ok.
    apply bind_ok in Hrun as (w2 & b & _ & Hrun). discriminate.
  - intros (w0 & self0 & Hget & Hrun)%bind_ok.
    rewrite (get_self_eq _ _ _ Hself) in Hget. injection Hget as <- <-.
    apply bind_ok in Hrun as (w1 & vc & Hload & Hrun).
    pose proof (Steady_load r _ _ _ _ _ _ Hload) as S1.
    assert (Hnext : ∀ w2 i_try' index',
              steady r w w2 → index' ≤ index →
              retry r cfg s rate n i_try' index' w2 = (w', Ok out) →
              ∃ j, j ≤ index ∧ is_Some (_video_meta self !! j) ∧
                   returned_tuple self cfg out j).
    { intros w2 i_try' index' S2 Hle Hrest.
      destruct S2 as (_&_&_&_&_&_&S2). destruct (S2 _ Hself) as (self2 & Hs2 & E2).
      pose proof E2 as (Hm2 & _).
      destruct (IH _ _ _ _ _ _ Hs2 ltac:(congruence) Hrest) as (j & Hj & Hmeta & Hout).
      exists j. split; [lia|].
      split; [by eapply same_dataset_meta|by eapply same_dataset_returned]. }
    destruct vc as [c|].
    + apply bind_ok in Hrun as (w2 & fr & Hdec & Hrun).
      pose proof (Steady_decode_clip r _ _ _ _ _ _ _ _ Hdec) as S2.
      destruct fr as [frames|].
      * exists index. split; [lia|]. split; [|by eapply produce_returns].
        destruct S1 as (_&_&_&_&_&_&S1). destruct (S1 _ Hself) as (self1 & Hs1 & E1).
        eapply same_dataset_meta; [done|]. by eapply decode_clip_ok.
      * apply bind_ok in Hrun as (w3 & index' & Hafter & Hrun).
        pose proof (Steady_after_failed_decode r _ _ _ _ _ _ Hafter) as S3.
        apply (after_failed_decode_test _ _ _ _ _ _ Hmode) in Hafter as ->.
        eapply Hnext; [|reflexivity|done].
        eapply steady_trans; [done|]. by eapply steady_trans.
    + apply bind_ok in Hrun as (w2 & index' & Hafter & Hrun).
      pose proof (Steady_after_failed_load r _ _ _ _ _ _ Hafter) as S2.
      apply (after_failed_load_test _ _ _ _ _ _ Hmode) in Hafter.
      eapply Hnext; [|apply Hafter|done]. by eapply steady_trans.
Qed.

(** X8. In test mode the sample that is returned is the one asked for or an
    earlier one, never a later or a random one; and a call with a negative
    index never returns, since the meta data have no negative key. *)
Theorem test_mode_returns_no_later_sample r (self : Hvu) index
    short_cycle_idx (w w' : World) out :
  w_objects w !! r = Some self →
  well_formed self →
  mode self = "test" →
  __getitem__ r index short_cycle_idx w = (w', Ok out) →
  0 ≤ index ∧
  ∃ j, 0 ≤ j ≤ index ∧ j < __len__ self ∧
       returned_tuple self (w_cfg w) out j.
Proof.
  intros Hself Hwf Hmode. unfold __getitem__.
  intros (w0 & self0 & Hget & Hrun)%bind_ok.
  rewrite (get_self_eq _ _ _ Hself) in Hget. injection Hget as <- <-.
  apply bind_ok in Hrun as (w1 & cfg & [= <- <-] & Hrun).
  apply bind_ok in Hrun as (w2 & s & [= <- Hs] & Hrun).
  apply bind_ok in Hrun as (w3 & rate & Hrate & Hrun).
  pose proof (Steady_call r _ _ _ _ Hrate) as (_&_&_&_&_&_&S3).
  destruct (S3 _ Hself) as (self3 & Hs3 & E3).
  pose proof E3 as (Hm3 & _).
  destruct (retry_test_index _ _ _ _ _ _ _ _ _ _ _ Hs3 ltac:(congruence) Hrun)
    as (j & Hj & Hmeta & Hout).
  eapply same_dataset_meta in Hmeta; [|done].
  eapply same_dataset_returned in Hout; [|done].
  destruct Hwf as (_ & _ & _ & _ & Hdom). apply Hdom in Hmeta.
  split; [lia|]. exists j. split_and!; try done; lia.
Qed.

(** *** Indices outside the data set *)

Lemma py_index_out {A} (l : list A) (i : Z) :
  ¬ (- Z.of_nat (length l) ≤ i < Z.of_nat (length l)) →
  py_index l i = Raise IndexError.
Proof.
  intros Hi. unfold py_index, norm_index.
  destruct (i <? 0) eqn:Hneg.
  - apply Z.ltb_lt in Hneg. rewrite (proj2 (Z.leb_gt _ _)) by lia. done.
  - apply Z.ltb_ge in Hneg. rewrite (proj2 (Z.leb_le _ _)) by lia.
    rewrite lookup_ge_None_2 by lia. done.
Qed.

(** X9. An index outside [-len, len) raises [IndexError], in every mode and
    whatever the number of retries. *)
Theorem index_out_of_range_is_an_index_error r (self : Hvu) index
    short_cycle_idx (w : World) :
  w_objects w !! r = Some self →
  well_formed self →
  ¬ (- __len__ self ≤ index < __len__ self) →
  (mode self = "train" →
   ∃ s, sampling self (w_cfg w) index short_cycle_idx = Ok s) →
  (__getitem__ r index short_cycle_idx w).2 = Raise IndexError.
Proof.
  intros Hself (Hmodes & _ & _ & Hsti & _) Hout Htrain.
  unfold __getitem__, bind at 1. rewrite (get_self_eq _ _ _ Hself).
  unfold bind at 1, get_cfg. unfold bind at 1, lift.
  destruct (decide (mode self = "train")) as [Hm|Hm].
  - destruct (Htrain Hm) as (s & ->).
    unfold bind at 1, call.
    destruct (get_random_sampling_rate _ _ _) as [e rate].
    assert (Hself' : w_objects (with_ext e w) !! r = Some self) by done.
    assert (Hpath : py_index (_path_to_videos self) index = Raise IndexError)
      by (by apply py_index_out).
    destruct (Z.to_nat (_num_retries self)) as [|n]; simpl.
    + unfold bind. rewrite (get_self_eq _ _ _ Hself').
      unfold lift. by rewrite Hpath.
    + unfold bind at 1. rewrite (get_self_eq _ _ _ Hself').
      unfold bind at 1, load. rewrite Hpath. reflexivity.
  - assert (Hs : sampling self (w_cfg w) index short_cycle_idx = Raise IndexError).
    { unfold sampling.
      rewrite bool_decide_eq_false_2 by (by intros ?%list_elem_of_singleton).
      rewrite bool_decide_eq_true_2.
      2:{ rewrite !elem_of_cons in Hmodes. rewrite !elem_of_cons. tauto. }
      rewrite py_index_out; [done|]. rewrite Hsti. done. }
    by rewrite Hs.
Qed.

(** X10. With a number of retries that is not positive nothing is loaded: a call
    on an index of the list of paths raises [RuntimeError] at once. *)
Theorem no_retries_is_a_runtime_error r (self : Hvu) index short_cycle_idx
    (w : World) s :
  w_objects w !! r = Some self →
  _num_retries self ≤ 0 →
  - __len__ self ≤ index < __len__ self →
  sampling self (w_cfg w) index short_cycle_idx = Ok s →
  (__getitem__ r index short_cycle_idx w).2 = Raise RuntimeError.
Proof.
  intros Hself Hnr Hi Hs.
  unfold __getitem__, bind at 1. rewrite (get_self_eq _ _ _ Hself).
  unfold bind at 1, get_cfg. unfold bind at 1, lift. rewrite Hs.
  unfold bind at 1, call.
  destruct (get_random_sampling_rate _ _ _) as [e rate].
  assert (Hself' : w_objects (with_ext e w) !! r = Some self) by done.
  replace (Z.to_nat (_num_retries self)) with 0%nat by lia. simpl.
  unfold bind. rewrite (get_self_eq _ _ _ Hself'). unfold lift.
  destruct (decide (0 ≤ index)).
  - destruct (py_index_ok (_path_to_videos self) index) as (p & -> & _); [|done].
    unfold __len__ in Hi. lia.
  - destruct (py_index_negative (_path_to_videos self) index) as (p & -> & _); [|done].
    unfold __len__ in Hi. lia.
Qed.


(** *** Data sets that share a configuration *)

(** X11. The configuration is shared, so constructing a train or val data set
    after a test data set changes how the test data set samples: the number
    of spatial crops it divides by is then 1, the temporal index of the
    sample [i] is the whole [i mod _num_clips], and the spatial index is
    1. *)
Theorem later_train_set_changes_test_sampling num_retries (w w1 : World) r
    mode' num_retries' :
  __init__ "test" num_retries w = (w1, Ok r) →
  mode' ∈ ["train"; "val"] →
  let w2 := (__init__ mode' num_retries' w1).1 in
  let clips :=
    NUM_ENSEMBLE_VIEWS (TEST (w_cfg w)) * NUM_SPATIAL_CROPS (TEST (w_cfg w)) in
  ∃ self,
    w_objects w2 !! r = Some self ∧
    _num_clips self = clips ∧
    NUM_ENSEMBLE_VIEWS (TEST (w_cfg w2)) = 1 ∧
    NUM_SPATIAL_CROPS (TEST (w_cfg w2)) = 1 ∧
    ∀ i short_cycle_idx,
      0 ≤ i < __len__ self →
      sampling self (w_cfg w2) i short_cycle_idx =
      Ok {| temporal_sample_index := i mod clips;
            spatial_sample_index := 1;
            min_scale := TEST_CROP_SIZE (DATA (w_cfg w));
            max_scale := TEST_CROP_SIZE (DATA (w_cfg w));
            crop_size := TEST_CROP_SIZE (DATA (w_cfg w)) |}.
Proof.
  intros Hrun Hmode' w2 clips.
  destruct (init_well_formed _ _ _ _ _ Hrun)
    as (self0 & lines & Hself0 & _ & _ & Hmode & _ & _ & Hclips & _).
  destruct (init_test_cfg (w_cfg w)) as [Hcfg1 Hnum]. rewrite Hnum in Hclips.
  assert (Hw1 : w_cfg w1 = w_cfg w).
  { pose proof (init_cfg_after "test" num_retries w) as Hc.
    rewrite Hrun in Hc. cbn [fst] in Hc. rewrite Hc.
    rewrite bool_decide_eq_true_2 by (rewrite !elem_of_cons; auto). done. }
  assert (Hw2 : w_cfg w2 =
                set_NUM_SPATIAL_CROPS 1 (set_NUM_ENSEMBLE_VIEWS 1 (w_cfg w))).
  { unfold w2. rewrite init_cfg_after, Hw1.
    rewrite bool_decide_eq_true_2.
    2:{ rewrite !elem_of_cons in Hmode'. rewrite !elem_of_cons. tauto. }
    unfold init_cfg. by rewrite bool_decide_eq_true_2. }
  destruct (__init__ mode' num_retries' w1) as [w2' res] eqn:Hrun2.
  pose proof (Keeps_init mode' num_retries' w1 w2' res Hrun2) as [_ Hobj].
  destruct (Hobj _ _ Hself0) as (self & Hself & Hsame).
  pose proof Hsame as (Hm & _ & Hn & Hp & _ & Hs & _).
  exists self. subst w2 clips. cbn [fst] in *. rewrite Hw2.
  split_and!; try done; [congruence|].
  intros i sci Hi.
  assert (Hi0 : 0 ≤ i < __len__ self0) by (unfold __len__ in *; by rewrite Hp).
  pose proof (init_sampling_index _ _ _ _ _ _ _ Hrun Hself0 Hi0) as Hk.
  rewrite Hs, Hclips in Hk.
  rewrite (sampling_eval self _ i sci _ ltac:(left; congruence) Hk); [|done].
  simpl. by rewrite Z.div_1_r.
Qed.

(** *** The label vectors of the clips *)

Lemma init_label_ref mode nr (w w' : World) r self i :
  __init__ mode nr w = (w', Ok r) →
  w_objects w' !! r = Some self →
  0 ≤ i < __len__ self →
  py_index (_labels self) i =
  Ok (length (w_tensors w) + Z.to_nat (i / _num_clips self))%nat ∧
  is_Some (w_tensors w' !! (length (w_tensors w) + Z.to_nat (i / _num_clips self))%nat).
Proof.
  intros Hrun Hself Hi.
  destruct (init_well_formed _ _ _ _ _ Hrun)
    as (self' & lines & Hself' & Hf & _ & _ & _ & Hnc & _ & Hlen).
  rewrite Hself in Hself'. injection Hself' as <-.
  apply init_ok in Hrun as (_ & lines' & entries & self' & Hf' & He & _ & _ & -> & -> &
          _ & _ & E3 & _ & E5 & _).
  rewrite constructed_world_object in Hself. injection Hself as ->.
  rewrite Hf in Hf'. injection Hf' as <-.
  rewrite Hlen in Hi.
  destruct (block_index _ _ _ Hnc Hi) as (Hpos & Hv & Hj). split.
  - rewrite <- (Z2Nat.id i) at 1 by lia. apply py_index_nat.
    rewrite Hpos, E5. rewrite <- E3. rewrite clips_lookup by done.
    by apply lookup_seq_lt.
  - rewrite constructed_world_tensors. apply lookup_lt_is_Some_2.
    rewrite length_app, !length_fmap, (rmap_length _ _ _ He). lia.
Qed.

(** X12. Two samples hold the same label vector exactly when they are clips of
    the same video; the vector is one tensor, shared by reference, so the
    videos never share one even when their labels agree. *)
Theorem clips_share_labels_within_a_video mode num_retries (w w' : World) r :
  __init__ mode num_retries w = (w', Ok r) →
  ∃ self,
    w_objects w' !! r = Some self ∧
    ∀ i j, 0 ≤ i < __len__ self → 0 ≤ j < __len__ self →
      ∃ vi vj,
        py_index (_labels self) i = Ok vi ∧
        py_index (_labels self) j = Ok vj ∧
        is_Some (w_tensors w' !! vi) ∧ is_Some (w_tensors w' !! vj) ∧
        (vi = vj ↔ i / _num_clips self = j / _num_clips self).
Proof.
  intros Hrun.
  destruct (init_well_formed _ _ _ _ _ Hrun)
    as (self & lines & Hself & _ & _ & _ & _ & Hnc & _ & _).
  exists self. split; [done|]. intros i j Hi Hj.
  destruct (init_label_ref _ _ _ _ _ _ _ Hrun Hself Hi) as [Hli Hti].
  destruct (init_label_ref _ _ _ _ _ _ _ Hrun Hself Hj) as [Hlj Htj].
  eexists _, _. split_and!; try done.
  pose proof (Z.div_pos i (_num_clips self) ltac:(lia) Hnc).
  pose proof (Z.div_pos j (_num_clips self) ltac:(lia) Hnc).
  split; intros Heq; lia.
Qed.

(** X13. In train and val mode there is one sample for each line of the split
    file, in the order of the file, with the sampling index 0; in val mode
    each sample is then decoded with the temporal index 0 and the spatial
    index 1, at the test crop size. *)
Theorem train_and_val_have_one_sample_per_line mode num_retries
    (w w' : World) r :
  __init__ mode num_retries w = (w', Ok r) →
  mode ∈ ["train"; "val"] →
  ∃ self lines,
    w_objects w' !! r = Some self ∧
    w_files w !! split_file (w_cfg w) mode = Some lines ∧
    _num_clips self = 1 ∧
    __len__ self = Z.of_nat (length lines) ∧
    (∀ (v : nat) line path labels,
       lines !! v = Some line →
       parse_line (PATH_LABEL_SEPARATOR (DATA (w_cfg w))) line = Ok (path, labels) →
       py_index (_path_to_videos self) (Z.of_nat v) =
         Ok (os_path_join (PATH_PREFIX (DATA (w_cfg w))) path) ∧
       py_index (_spatial_temporal_idx self) (Z.of_nat v) = Ok 0) ∧
    (mode = "val" →
     ∀ i short_cycle_idx,
       0 ≤ i < __len__ self →
       sampling self (w_cfg w') i short_cycle_idx =
       Ok {| temporal_sample_index := 0;
             spatial_sample_index := 1;
             min_scale := TEST_CROP_SIZE (DATA (w_cfg w));
             max_scale := TEST_CROP_SIZE (DATA (w_cfg w));
             crop_size := TEST_CROP_SIZE (DATA (w_cfg w)) |}).
Proof.
  intros Hrun Hmode.
  destruct (init_well_formed _ _ _ _ _ Hrun)
    as (self & lines & Hself & Hf & _ & Hm & _ & _ & Hclips & Hlen).
  assert (Hone : _num_clips self = 1).
  { rewrite Hclips. unfold init_num_clips. by rewrite bool_decide_eq_true_2. }
  rewrite Hone in Hlen.
  exists self, lines. split_and!; try done; [lia| |].
  - intros v line path labels Hv Hparse.
    destruct (init_video _ _ _ _ _ _ _ _ _ _ _ Hrun Hself Hf Hv Hparse)
      as (t & _ & _ & Hvideo).
    destruct (Hvideo 0 ltac:(lia)) as (Hp & _ & Hs).
    rewrite Hone in Hp, Hs.
    replace (Z.of_nat v * 1 + 0) with (Z.of_nat v) in Hp, Hs by lia. done.
  - intros -> i sci Hi.
    pose proof (init_sampling_index _ _ _ _ _ _ _ Hrun Hself Hi) as Hk.
    rewrite Hone, Z.mod_1_r in Hk.
    pose proof (init_cfg_after "val" num_retries w) as Hc.
    rewrite Hrun in Hc. cbn [fst] in Hc.
    rewrite bool_decide_eq_true_2 in Hc by (rewrite !elem_of_cons; auto).
    unfold init_cfg in Hc. rewrite bool_decide_eq_true_2 in Hc by done.
    rewrite (sampling_eval self _ i sci _ ltac:(right; done) Hk);
      rewrite Hc; done.
Qed.

(** *** The meta data after a construction *)

Lemma add_clips_meta_values prefix path r ci nc l : ∀ acc : Loaded,
  map_Forall (λ _ m, m = empty_meta) (l_meta acc) →
  map_Forall (λ _ m, m = empty_meta)
    (l_meta (foldl (add_clip prefix path r ci nc) acc l)).
Proof.
  induction l as [|idx l IH]; intros acc Hacc; simpl; [done|].
  apply IH. simpl. by apply map_Forall_insert_2.
Qed.

Lemma load_lines_meta_values cfg nc lines : ∀ acc ci (w w' : World) acc',
  load_lines cfg nc acc ci lines w = (w', Ok acc') →
  map_Forall (λ _ m, m = empty_meta) (l_meta acc) →
  map_Forall (λ _ m, m = empty_meta) (l_meta acc').
Proof.
  induction lines as [|line rest IH]; intros acc ci w w' acc'; simpl.
  - by intros [= <- <-].
  - intros (w1 & acc1 & Hline & Hrest)%bind_ok Hacc.
    eapply IH; [done|].
    unfold load_line in Hline.
    apply bind_ok in Hline as (w2 & [path labels] & _ & Hline).
    apply bind_ok in Hline as (w3 & ref & _ & Hline).
    apply bind_ok in Hline as (w4 & [] & _ & [= <- <-]).
    by apply add_clips_meta_values.
Qed.

(** X14. After a construction the meta data have exactly the keys 0 to
    [len - 1], each with an empty entry; a negative number is no key. *)
Theorem meta_data_start_empty mode num_retries (w w' : World) r :
  __init__ mode num_retries w = (w', Ok r) →
  ∃ self,
    w_objects w' !! r = Some self ∧
    ∀ z, _video_meta self !! z =
         if bool_decide (0 ≤ z < __len__ self) then Some empty_meta else None.
Proof.
  intros Hrun.
  destruct (init_well_formed _ _ _ _ _ Hrun)
    as (self & lines & Hself & _ & (_ & _ & _ & _ & Hdom) & _).
  exists self. split; [done|].
  assert (Hvalues : map_Forall (λ _ m, m = empty_meta) (_video_meta self)).
  { pose proof Hrun as (Hm & _)%init_ok.
    rewrite (init_unfold _ _ _ Hm) in Hrun.
    apply bind_ok in Hrun as (w1 & acc & Hload & Hrun).
    apply bind_ok in Hrun as (w2 & cfg & _ & Hnew).
    unfold new_object in Hnew. injection Hnew as <- <-.
    simpl in Hself. rewrite lookup_app_r, Nat.sub_diag in Hself by done.
    injection Hself as <-. simpl.
    unfold _construct_loader in Hload.
    apply bind_ok in Hload as (w3 & cfg' & _ & Hload).
    apply bind_ok in Hload as (w4 & found & _ & Hload).
    apply bind_ok in Hload as (w5 & [] & _ & Hload).
    apply bind_ok in Hload as (w6 & lines' & _ & Hload).
    apply bind_ok in Hload as (w7 & acc' & Hlines & Hload).
    apply bind_ok in Hload as (w8 & [] & _ & [= <- <-]).
    eapply load_lines_meta_values; [done|]. apply map_Forall_empty. }
  intros z. case_bool_decide as Hz.
  - apply Hdom in Hz as [m Hm]. rewrite Hm. f_equal. by eapply Hvalues.
  - destruct (_video_meta self !! z) as [m|] eqn:Hm; [|done].
    exfalso. apply Hz, Hdom. eauto.
Qed.

(** X15. Only a train data set with [AUG.ENABLE] returns lists: for any other
    data set a call that returns gives one clip, one label vector and one
    index, whatever [AUG.NUM_SAMPLE] is. *)
Theorem only_augmented_training_returns_lists mode num_retries
    (w w' : World) r :
  __init__ mode num_retries w = (w', Ok r) →
  mode ≠ "train" ∨ ENABLE (AUG (w_cfg w)) = false →
  ∀ w1 index short_cycle_idx w2 out,
    later w' w1 →
    __getitem__ r index short_cycle_idx w1 = (w2, Ok out) →
    ∃ labels j, single_tuple out labels j.
Proof.
  intros Hrun Hplain w1 index sci w2 out Hlater Hget.
  pose proof Hrun as (_ & lines & entries & self & _ & _ & _ & _ & -> & -> &
          _ & _ & _ & _ & _ & _ & _ & Haug & _)%init_ok.
  assert (Hoff : aug self = false).
  { rewrite Haug. destruct Hplain as [Hm|He].
    - by rewrite bool_decide_eq_false_2.
    - assert (Hsame : AUG (init_cfg mode (w_cfg w)) = AUG (w_cfg w))
        by (unfold init_cfg; destruct (bool_decide (mode ∈ ["train"; "val"]));
            reflexivity).
      rewrite Hsame, He. apply andb_false_r. }
  apply later_kept in Hlater as [_ Hobj].
  destruct (Hobj _ _ (constructed_world_object _ _ _ _)) as (self1 & Hs1 & Hsame).
  destruct (getitem_returns _ _ _ _ _ _ _ Hs1 Hget) as (j & _ & labels & _ & Hout).
  pose proof Hsame as (_&_&_&_&_&_&Ha&_). rewrite <- Ha, Hoff in Hout.
  by exists labels, j.
Qed.

End more.
End HvuMore.

(** * The construction as a whole, and the first trial *)

Module HvuEdge.
Import Py Torch Config Lib Hvu Inv HvuProofs.

Section more.

Context `{Library}.

(** *** What a construction reads and allocates *)

Lemma set_ones_quiet r labels : ∀ (w w' : World) res,
  set_ones r labels w = (w', res) →
  w_reads w' = w_reads w ∧ w_files w' = w_files w.
Proof.
  induction labels as [|label rest IH]; intros w w' res; simpl.
  - by intros [= <- <-].
  - intros Hrun. apply bind_inv in Hrun as [(w1&[]&H1&H2)|(e&H1&_)].
    + unfold set_one in H1.
      destruct (w_tensors w !! r) as [t|]; [|done].
      destruct (setitem t label 1) as [t'|e]; [|done].
      injection H1 as <-. by destruct (IH _ _ _ H2).
    + unfold set_one in H1.
      destruct (w_tensors w !! r) as [t|]; [|by injection H1 as <-].
      destruct (setitem t label 1) as [t'|e']; [done|by injection H1 as <-].
Qed.

Lemma load_line_quiet cfg nc acc ci line (w w' : World) res :
  load_line cfg nc acc ci line w = (w', res) →
  w_reads w' = w_reads w ∧ w_files w' = w_files w ∧
  w_objects w' = w_objects w.
Proof.
  unfold load_line. intros Hrun.
  apply bind_inv in Hrun as [(w1&[path labels]&[= <- _]&Hrun)|(e&[= <- _]&_)];
    [|done].
  assert (Hzeros : ∀ w1 res1,
            new_zeros (NUM_CLASSES (MODEL cfg)) w = (w1, res1) →
            w_reads w1 = w_reads w ∧ w_files w1 = w_files w ∧
            w_objects w1 = w_objects w).
  { intros w1 res1. unfold new_zeros. destruct (zeros _); by intros [= <- <-]. }
  apply bind_inv in Hrun as [(w1&ref&Hz&Hrun)|(e&Hz&_)];
    [|by eapply Hzeros].
  destruct (Hzeros _ _ Hz) as (R1 & F1 & O1).
  assert (Hset : ∀ w2 res2,
            set_ones ref labels w1 = (w2, res2) →
            w_reads w2 = w_reads w ∧ w_files w2 = w_files w ∧
            w_objects w2 = w_objects w).
  { intros w2 res2 Hs. destruct (set_ones_quiet _ _ _ _ _ Hs) as [R2 F2].
    destruct (set_ones_frame _ _ _ _ _ Hs) as [O2 _].
    split_and!; congruence. }
  apply bind_inv in Hrun as [(w2&[]&Hs&[= <- _])|(e&Hs&_)]; by eapply Hset.
Qed.

Lemma load_lines_quiet cfg nc lines : ∀ acc ci (w w' : World) res,
  load_lines cfg nc acc ci lines w = (w', res) →
  w_reads w' = w_reads w ∧ w_files w' = w_files w ∧
  w_objects w' = w_objects w.
Proof.
  induction lines as [|line rest IH]; intros acc ci w w' res; simpl.
  - by intros [= <- <-].
  - intros Hrun. apply bind_inv in Hrun as [(w1&acc1&H1&H2)|(e&H1&_)].
    + destruct (load_line_quiet _ _ _ _ _ _ _ _ H1) as (R1 & F1 & O1).
      destruct (IH _ _ _ _ _ H2) as (R2 & F2 & O2).
      split_and!; congruence.
    + by eapply load_line_quiet.
Qed.

Lemma construct_loader_quiet mode nc (w w' : World) res :
  _construct_loader mode nc w = (w', res) →
  let p := split_file (w_cfg w) mode in
  w_files w' = w_files w ∧ w_objects w' = w_objects w ∧
  w_reads w' =
    w_reads w ++ match w_files w !! p with
                 | Some _ => [Exists p; Read p]
                 | None => [Exists p]
                 end.
Proof.
  intros Hrun p. unfold _construct_loader in Hrun.
  apply bind_inv in Hrun as [(w1&cfg&[= <- <-]&Hrun)|(e&[=]&_)].
  fold p in Hrun.
  apply bind_inv in Hrun as [(w1&found&[= <- <-]&Hrun)|(e&[=]&_)].
  destruct (w_files w !! p) as [lines|] eqn:Hp.
  - rewrite bool_decide_eq_true_2 in Hrun by done.
    apply bind_inv in Hrun as [(w1&[]&[= <-]&Hrun)|(e&[=]&_)].
    apply bind_inv in Hrun as [(w1&lines'&[= <- _]&Hrun)|(e&Hread&_)].
    2:{ unfold pathmgr_read_lines in Hread. simpl in Hread.
        rewrite Hp in Hread. done. }
    assert (Hloaded : ∀ w2 res2,
              load_lines (w_cfg w) nc no_entries 0 lines'
                (with_reads (λ l, l ++ [Read p])
                   (with_reads (λ l, l ++ [Exists p]) w)) = (w2, res2) →
              w_files w2 = w_files w ∧ w_objects w2 = w_objects w ∧
              w_reads w2 = w_reads w ++ [Exists p; Read p]).
    { intros w2 res2 Hl.
      destruct (load_lines_quiet _ _ _ _ _ _ _ _ Hl) as (R & F & O).
      simpl in R. rewrite <- app_assoc in R. done. }
    apply bind_inv in Hrun as [(w2&acc&Hl&Hrun)|(e&Hl&_)]; [|by eapply Hloaded].
    destruct (Hloaded _ _ Hl) as (F & O & R).
    apply bind_inv in Hrun as [(w3&[]&Ha&[= <- _])|(e&Ha&_)];
      unfold assert in Ha; destruct (bool_decide _); by injection Ha as <-.
  - rewrite bool_decide_eq_false_2 in Hrun by (by intros [? ?]).
    apply bind_inv in Hrun as [(w1&[]&[=]&_)|(e&[= <- _]&_)]. done.
Qed.

(** X16. Whatever its outcome, a construction leaves the files as they are and
    consults the path manager for its own split file only: not at all for
    a mode that is refused, once for a file that is missing, and twice, to
    find it and to read it, for a file that exists. *)
Theorem construction_reads_only_its_split_file mode num_retries (w : World) :
  let p := split_file (w_cfg w) mode in
  let w' := (__init__ mode num_retries w).1 in
  w_files w' = w_files w ∧
  w_reads w' =
    w_reads w ++
    (if bool_decide (mode ∈ ["train"; "val"; "test"]) then
       match w_files w !! p with
       | Some _ => [Exists p; Read p]
       | None => [Exists p]
       end
     else []).
Proof.
  intros p w'. subst w'. case_bool_decide as Hm.
  2:{ rewrite init_invalid by done. simpl. by rewrite app_nil_r. }
  rewrite (init_unfold _ _ _ Hm).
  set (w0 := init_world mode w).
  assert (Hw0 : w_files w0 = w_files w ∧ w_reads w0 = w_reads w ∧
                split_file (w_cfg w0) mode = p).
  { unfold w0, init_world. case_bool_decide; simpl; split_and!; done. }
  destruct Hw0 as (F0 & R0 & P0).
  match goal with
  | |- context [bind ?c ?k w0] =>
      destruct (bind c k w0) as [w' res] eqn:Hrun
  end.
  apply bind_inv in Hrun as [(w1&acc&Hload&Hrun)|(e&Hload&_)];
    apply construct_loader_quiet in Hload as (F1 & _ & R1);
    rewrite P0, F0, R0 in R1; rewrite F0 in F1.
  - apply bind_inv in Hrun as [(w2&cfg&[= <- <-]&[= <- _])|(e&[=]&_)]. done.
  - done.
Qed.

(** X17. A construction that succeeds adds one data set, after those that
    exist, and returns its place; one that fails adds none.  The data sets
    that exist stay where they are. *)
Theorem construction_adds_one_data_set mode num_retries (w : World) :
  let w' := (__init__ mode num_retries w).1 in
  match (__init__ mode num_retries w).2 with
  | Ok r => r = length (w_objects w) ∧
            ∃ self, w_objects w' = w_objects w ++ [self]
  | Raise _ => w_objects w' = w_objects w
  end.
Proof.
  intros w'. subst w'.
  destruct (decide (mode ∈ ["train"; "val"; "test"])) as [Hm|Hm].
  2:{ by rewrite init_invalid. }
  rewrite (init_unfold _ _ _ Hm).
  set (w0 := init_world mode w).
  assert (O0 : w_objects w0 = w_objects w).
  { unfold w0, init_world. by case_bool_decide. }
  match goal with
  | |- context [bind ?c ?k w0] =>
      destruct (bind c k w0) as [w' res] eqn:Hrun
  end.
  apply bind_inv in Hrun as [(w1&acc&Hload&Hrun)|(e&Hload&->)];
    apply construct_loader_quiet in Hload as (_ & O1 & _); rewrite O0 in O1.
  - apply bind_inv in Hrun as [(w2&cfg&[= <- <-]&[= <- <-])|(e&[=]&_)].
    simpl. rewrite O1. eauto.
  - done.
Qed.

(** *** Labels that count from the end *)

Lemma setitem_inv (t t' : Tensor) i v :
  setitem t i v = Ok t' →
  let n := Z.of_nat (length (t_data t)) in
  - n ≤ i < n ∧
  t' = {| t_dtype := t_dtype t;
          t_data := <[Z.to_nat (i mod n) := v]> (t_data t) |}.
Proof.
  intros Hset n. unfold setitem, norm_index in Hset. cbv zeta in Hset.
  fold n in Hset.
  destruct (i <? 0) eqn:Hneg.
  - apply Z.ltb_lt in Hneg.
    destruct (0 <=? i + n) eqn:H0; [|done]. apply Z.leb_le in H0.
    destruct (i + n <? n) eqn:H1; [|done]. simpl in Hset.
    injection Hset as <-. split; [lia|].
    replace (i mod n) with (i + n); [done|].
    apply Z.mod_unique with (-1); lia.
  - apply Z.ltb_ge in Hneg.
    rewrite (proj2 (Z.leb_le _ _)) in Hset by done.
    destruct (i <? n) eqn:H1; [|done]. apply Z.ltb_lt in H1. simpl in Hset.
    injection Hset as <-. split; [lia|].
    by rewrite Z.mod_small by lia.
Qed.

Lemma set_all_inv labels : ∀ (t t' : Tensor),
  set_all t labels = Ok t' →
  let n := Z.of_nat (length (t_data t)) in
  Forall (λ l, - n ≤ l < n) labels ∧
  t_dtype t' = t_dtype t ∧
  length (t_data t') = length (t_data t) ∧
  ∀ p, 0 ≤ p < n →
       t_data t' !! Z.to_nat p =
       if bool_decide (p ∈ labels ∨ p - n ∈ labels) then Some 1%float
       else t_data t !! Z.to_nat p.
Proof.
  induction labels as [|l labels IH]; intros t t' Hrun n; simpl in Hrun.
  - injection Hrun as <-. split_and!; try done.
  - destruct (setitem t l 1) as [t1|e] eqn:Hset; simpl in Hrun; [|done].
    pose proof (setitem_inv _ _ _ _ Hset) as Hinv. cbv zeta in Hinv.
    destruct Hinv as [Hl ->]. fold n in Hl.
    pose proof (IH _ _ Hrun) as Hrest. cbv zeta in Hrest.
    destruct Hrest as (Hall & Hd & Hlen & Hdata). simpl in *.
    rewrite length_insert in Hall, Hlen, Hdata. fold n in Hall, Hdata.
    split_and!; try done; [by constructor|].
    intros p Hp. rewrite Hdata by done.
    assert (Hmod : l mod n = p ↔ p = l ∨ p - n = l).
    { split.
      - intros <-. destruct (decide (l < 0)).
        + right. rewrite <- (Z.mod_unique l n (-1) (l + n)); lia.
        + left. rewrite Z.mod_small; lia.
      - intros [->| <-]; [by rewrite Z.mod_small by lia|].
        symmetry. apply Z.mod_unique with (-1); lia. }
    destruct (decide (l mod n = p)) as [Heq|Hne].
    + rewrite (bool_decide_eq_true_2 (_ ∈ l :: _ ∨ _)).
      2:{ rewrite !elem_of_cons. apply Hmod in Heq. tauto. }
      case_bool_decide; [done|].
      rewrite <- Heq. apply list_lookup_insert_eq.
      pose proof (Z.mod_pos_bound l n ltac:(lia)). lia.
    + rewrite list_lookup_insert_ne.
      2:{ pose proof (Z.mod_pos_bound l n ltac:(lia)). lia. }
      apply (f_equal (λ b : bool, if b then Some 1%float else t_data t !! Z.to_nat p)).
      apply bool_decide_ext. rewrite !elem_of_cons.
      split; [tauto|]. intros [[?|?]|[?|?]]; try tauto; exfalso; apply Hne, Hmod; auto.
Qed.

(** X18. A label may be negative: as an index of the vector it counts from the
    end.  After a construction every label of every line lies in
    [-NUM_CLASSES, NUM_CLASSES), and the vector of a line is 1 at the
    positions [label] for the labels from 0 and [NUM_CLASSES + label] for
    the negative ones, and 0 elsewhere. *)
Theorem negative_labels_count_from_the_end mode num_retries (w w' : World) r :
  __init__ mode num_retries w = (w', Ok r) →
  let n := NUM_CLASSES (MODEL (w_cfg w)) in
  0 ≤ n ∧
  ∃ self lines,
    w_objects w' !! r = Some self ∧
    w_files w !! split_file (w_cfg w) mode = Some lines ∧
    ∀ (v : nat) line,
      lines !! v = Some line →
      ∃ path labels vec t,
        parse_line (PATH_LABEL_SEPARATOR (DATA (w_cfg w))) line =
          Ok (path, labels) ∧
        Forall (λ label, - n ≤ label < n) labels ∧
        py_index (_labels self) (Z.of_nat v * _num_clips self) = Ok vec ∧
        w_tensors w' !! vec = Some t ∧
        Z.of_nat (length (t_data t)) = n ∧
        ∀ p, 0 ≤ p < n →
             t_data t !! Z.to_nat p =
             Some (if bool_decide (p ∈ labels ∨ p - n ∈ labels)
                   then 1%float else 0%float).
Proof.
  intros Hrun n.
  destruct (init_well_formed _ _ _ _ _ Hrun)
    as (self & lines & Hself & Hf & _ & _ & _ & Hnc & _ & _).
  pose proof Hrun as (_ & lines' & entries & self' & Hf' & He & Hl & _)%init_ok.
  rewrite Hf in Hf'. injection Hf' as <-.
  assert (Hline : ∀ (v : nat) line,
            lines !! v = Some line →
            ∃ path labels t,
              parse_line (PATH_LABEL_SEPARATOR (DATA (w_cfg w))) line =
                Ok (path, labels) ∧
              one_hot n labels = Ok t).
  { intros v line Hv.
    destruct (rmap_lookup _ _ _ _ _ He Hv) as (entry & Hentry & _).
    unfold line_entry in Hentry.
    destruct (parse_line _ line) as [[path labels]|e]; [|done].
    simpl in Hentry. fold n in Hentry.
    destruct (one_hot n labels) as [t|e] eqn:Hone; [|done]. eauto. }
  assert (Hone : ∀ labels t,
            one_hot n labels = Ok t →
            0 ≤ n ∧ Forall (λ label, - n ≤ label < n) labels ∧
            Z.of_nat (length (t_data t)) = n ∧
            ∀ p, 0 ≤ p < n →
                 t_data t !! Z.to_nat p =
                 Some (if bool_decide (p ∈ labels ∨ p - n ∈ labels)
                       then 1%float else 0%float)).
  { intros labels t. unfold one_hot, zeros.
    destruct (n <? 0) eqn:Hn; [done|]. apply Z.ltb_ge in Hn. simpl.
    intros Hset. pose proof (set_all_inv _ _ _ Hset) as Hinv.
    cbv zeta in Hinv. destruct Hinv as (Hall & _ & Hlen & Hdata). simpl in *.
    rewrite length_replicate, Z2Nat.id in Hall, Hdata by done.
    rewrite length_replicate in Hlen.
    split_and!; try done; [lia|].
    intros p Hp. rewrite Hdata by done.
    case_bool_decide; [done|]. apply lookup_replicate_2. lia. }
  split.
  { destruct (lookup_lt_is_Some_2 lines 0 Hl) as [line Hv].
    destruct (Hline _ _ Hv) as (path & labels & t & _ & Ht).
    by destruct (Hone _ _ Ht). }
  exists self, lines. split_and!; try done.
  intros v line Hv.
  destruct (Hline _ _ Hv) as (path & labels & t & Hparse & Ht).
  destruct (init_video _ _ _ _ _ _ _ _ _ _ _ Hrun Hself Hf Hv Hparse)
    as (t' & Ht' & Hstored & Hvideo).
  fold n in Ht'. rewrite Ht in Ht'. injection Ht' as <-.
  destruct (Hvideo 0 ltac:(lia)) as (_ & Hvec & _).
  rewrite Z.add_0_r in Hvec.
  destruct (Hone _ _ Ht) as (_ & Hall & Hlen & Hdata).
  exists path, labels, (length (w_tensors w) + v)%nat, t. split_and!; done.
Qed.

(** *** The first trial *)

(** X19. When the video of the sample opens and decodes at the first trial, the
    call returns that sample: the index it returns is the one that was
    asked for. *)
Theorem first_trial_returns_the_requested_sample r (self : Hvu) index
    short_cycle_idx (w : World) s path meta labels c frames :
  w_objects w !! r = Some self →
  0 < _num_retries self →
  sampling self (w_cfg w) index short_cycle_idx = Ok s →
  py_index (_path_to_videos self) index = Ok path →
  _video_meta self !! index = Some meta →
  py_index (_labels self) index = Ok labels →
  let cfg := w_cfg w in
  let rate := get_random_sampling_rate (LONG_CYCLE_SAMPLING_RATE (MULTIGRID cfg))
                (SAMPLING_RATE (DATA cfg)) (w_ext w) in
  let opened := get_video_container path
                  (ENABLE_MULTI_THREAD_DECODE (DATA_LOADER cfg))
                  (DECODING_BACKEND (DATA cfg)) rate.1 in
  opened.2 = Ok (Some c) →
  (decode c rate.2 (NUM_FRAMES (DATA cfg)) (temporal_sample_index s)
     (NUM_ENSEMBLE_VIEWS (TEST cfg)) meta (TARGET_FPS (DATA cfg))
     (DECODING_BACKEND (DATA cfg)) (min_scale s)
     (USE_OFFSET_SAMPLING (DATA cfg)) true opened.1).2.2 = Some frames →
  ∃ w' out,
    __getitem__ r index short_cycle_idx w = (w', Ok out) ∧
    returned_tuple self (w_cfg w) out index.
Proof.
  intros Hself Hretries Hs Hpath Hmeta Hlabels cfg rate opened Hopen Hdecode.
  unfold __getitem__.
  unfold bind at 1. rewrite (get_self_eq _ _ _ Hself).
  unfold bind at 1, get_cfg. unfold bind at 1, lift. rewrite Hs.
  unfold bind at 1, call at 1. fold cfg rate.
  destruct rate as [e1 sr] eqn:Hrate. cbn [fst snd] in *.
  destruct (Z.to_nat (_num_retries self)) as [|n] eqn:Hn; [lia|].
  cbn [retry]. unfold bind at 1.
  rewrite (get_self_eq r (with_ext e1 w) self Hself).
  unfold bind at 1, load. rewrite Hpath.
  unfold bind at 1, call at 1. cbn [w_ext with_ext].
  fold opened. destruct opened as [e2 vc] eqn:Hopened. cbn [fst snd] in *.
  subst vc. unfold ret at 1.
  unfold bind at 1, decode_clip.
  unfold bind at 1.
  rewrite (get_self_eq r (with_ext e2 (with_ext e1 w)) self Hself).
  unfold bind at 1, lift, dict_get. rewrite Hmeta.
  unfold bind at 1, call at 1. cbn [w_ext with_ext].
  destruct (decode _ _ _ _ _ _ _ _ _ _ _ _) as [e3 [meta' fr]].
  cbn [fst snd] in Hdecode. subst fr.
  unfold bind at 1, update. unfold ret at 1. cbn [fst snd].
  match goal with
  | |- ∃ w' out, produce self cfg s frames index ?w3 = _ ∧ _ =>
      destruct (produce_total self cfg s frames index labels w3 Hlabels)
        as (w' & out & Hout)
  end.
  exists w', out. split; [done|]. by eapply produce_returns.
Qed.

(** X20. A negative index counts from the end in the lists of the data set but
    is no key of its meta data: for an index in [-len, 0) whose video
    opens at the first trial the call raises [KeyError]. *)
Theorem negative_index_of_a_readable_video_is_a_key_error r (self : Hvu)
    index short_cycle_idx (w : World) s path c :
  w_objects w !! r = Some self →
  well_formed self →
  0 < _num_retries self →
  - __len__ self ≤ index < 0 →
  sampling self (w_cfg w) index short_cycle_idx = Ok s →
  py_index (_path_to_videos self) index = Ok path →
  let cfg := w_cfg w in
  let rate := get_random_sampling_rate (LONG_CYCLE_SAMPLING_RATE (MULTIGRID cfg))
                (SAMPLING_RATE (DATA cfg)) (w_ext w) in
  (get_video_container path (ENABLE_MULTI_THREAD_DECODE (DATA_LOADER cfg))
     (DECODING_BACKEND (DATA cfg)) rate.1).2 = Ok (Some c) →
  (__getitem__ r index short_cycle_idx w).2 = Raise KeyError.
Proof.
  intros Hself Hwf Hretries Hi Hs Hpath cfg rate Hopen.
  unfold __getitem__.
  unfold bind at 1. rewrite (get_self_eq _ _ _ Hself).
  unfold bind at 1, get_cfg. unfold bind at 1, lift. rewrite Hs.
  unfold bind at 1, call at 1. fold cfg rate.
  destruct rate as [e1 sr] eqn:Hrate. cbn [fst snd] in *.
  destruct (Z.to_nat (_num_retries self)) as [|n] eqn:Hn; [lia|].
  cbn [retry]. unfold bind at 1.
  rewrite (get_self_eq r (with_ext e1 w) self Hself).
  unfold bind at 1, load. rewrite Hpath.
  unfold bind at 1, call at 1. cbn [w_ext with_ext].
  destruct (get_video_container _ _ _ e1) as [e2 vc]. cbn [fst snd] in *.
  subst vc. unfold ret at 1.
  unfold bind at 1, decode_clip.
  unfold bind at 1.
  rewrite (get_self_eq r (with_ext e2 (with_ext e1 w)) self Hself).
  unfold bind at 1, lift, dict_get.
  destruct (_video_meta self !! index) as [meta|] eqn:Hmeta; [|done].
  destruct Hwf as (_ & _ & _ & _ & Hdom).
  assert (0 ≤ index) by (apply Hdom; eauto). lia.
Qed.

(** X21. The short cycle index counts in train mode only, and there only when
    it is 0 or 1: otherwise the call is the call with the plain index. *)
Theorem short_cycle_index_counts_in_training_only r (self : Hvu) index i
    (w : World) :
  w_objects w !! r = Some self →
  mode self ≠ "train" ∨ (i ≠ 0 ∧ i ≠ 1) →
  __getitem__ r index (Some i) w = __getitem__ r index None w.
Proof.
  intros Hself Hplain.
  assert (Hs : sampling self (w_cfg w) index (Some i) =
               sampling self (w_cfg w) index None).
  { unfold sampling. case_bool_decide as Hm; [|done].
    apply list_elem_of_singleton in Hm.
    destruct Hplain as [?|[? ?]]; [done|].
    rewrite (bool_decide_eq_false_2 (i ∈ [0; 1])); [done|].
    rewrite !elem_of_cons, elem_of_nil. lia. }
  unfold __getitem__, bind. rewrite (get_self_eq _ _ _ Hself).
  unfold get_cfg, lift. by rewrite Hs.
Qed.

End more.
End HvuEdge.

(** * Further runs on the small instances *)

Module MoreExamples.
Import Py Torch Config Lib Hvu Inv Demo Lines MoreDemo Examples.

Lemma demo_run cfg bad mode nr (r : nat) :
  (__init__ (H := demo_library) mode nr (demo_world cfg bad)).2 = Ok r →
  __init__ (H := demo_library) mode nr (demo_world cfg bad) =
  (demo_dataset cfg bad mode nr, Ok r).
Proof. intros Hr. unfold demo_dataset. by apply run_eq. Qed.

Lemma demo_val_run :
  __init__ (H := demo_library) "val" 10
    (demo_world (demo_cfg 2 3 false 1) ["/videos/a.mp4"]) =
  (demo_dataset (demo_cfg 2 3 false 1) ["/videos/a.mp4"] "val" 10, Ok 0%nat).
Proof. apply demo_run. vm_compute. reflexivity. Qed.

Lemma demo_val_object :
  let w' := demo_dataset (demo_cfg 2 3 false 1) ["/videos/a.mp4"] "val" 10 in
  w_objects w' !! 0%nat = Some (demo_object w' 0).
Proof. apply object_eq. vm_compute. lia. Qed.

Lemma demo_train_run :
  __init__ (H := demo_library) "train" 10 (demo_world (demo_cfg 2 3 false 1) []) =
  (demo_dataset (demo_cfg 2 3 false 1) [] "train" 10, Ok 0%nat).
Proof. apply demo_run. vm_compute. reflexivity. Qed.

Lemma demo_train_object :
  let w' := demo_dataset (demo_cfg 2 3 false 1) [] "train" 10 in
  w_objects w' !! 0%nat = Some (demo_object w' 0).
Proof. apply object_eq. vm_compute. lia. Qed.

Lemma demo_idle_run :
  __init__ (H := demo_library) "test" 0 (demo_world (demo_cfg 2 3 false 1) []) =
  (demo_dataset (demo_cfg 2 3 false 1) [] "test" 0, Ok 0%nat).
Proof. apply demo_run. vm_compute. reflexivity. Qed.

Lemma demo_idle_object :
  let w' := demo_dataset (demo_cfg 2 3 false 1) [] "test" 0 in
  w_objects w' !! 0%nat = Some (demo_object w' 0).
Proof. apply object_eq. vm_compute. lia. Qed.

(** The selected entries of the CLIP-like state dict, in their order. *)
Lemma saved_entries_order_witness :
  Extract.extract demo_state_dict =
  (λ kv, (str_from 7 kv.1, kv.2)) <$>
    filter (λ kv, Extract.selected kv.1 = true) demo_state_dict.
Proof.
  apply (ExtractMore.saved_entries_keep_their_order demo_state_dict).
  - apply (bool_decide_unpack _). vm_compute. exact I.
  - apply ExtractProofs.prefix_rename_injective. vm_compute. reflexivity.
Defined.

(** Two keys cut to the name [visual.w]: the second one is saved. *)
Lemma later_key_witness :
  Extract.od_get (str_from 7 "visual.visual.w")
    (Extract.extract ([] ++ ("visual.visual.w", 1%nat) :: [] ++
                      ("0123456visual.w", 2%nat) :: [])) = Some 2%nat.
Proof.
  apply (ExtractMore.later_key_overwrites [] [] []
           "visual.visual.w" 1%nat "0123456visual.w" 2%nat).
  - vm_compute. reflexivity.
  - vm_compute. reflexivity.
  - vm_compute. reflexivity.
  - intros k Hk. by apply elem_of_nil in Hk.
Defined.

(** A val data set whose first video is unreadable. *)
Lemma val_outcome_witness :
  let w' := demo_dataset (demo_cfg 2 3 false 1) ["/videos/a.mp4"] "val" 10 in
  let res := (__getitem__ (H := demo_library) 0 0 None w').2 in
  res = Raise RuntimeError ∨ ∃ out, res = Ok out.
Proof.
  intros w'.
  destruct (HvuProofs.init_well_formed (H := demo_library) _ _ _ _ _
              demo_val_run)
    as (self & lines & Hself & _ & Hwf & Hmode & _ & _ & _ & _).
  pose proof Hself as Hobj.
  rewrite demo_val_object in Hobj. injection Hobj as Hobj.
  apply (HvuMore.train_and_val_raise_runtime_error_only (H := demo_library)
           0%nat self 0 None w'
           {| temporal_sample_index := 0; spatial_sample_index := 1;
              min_scale := 224; max_scale := 224; crop_size := 224 |}).
  - exact Hself.
  - exact Hwf.
  - rewrite Hmode. discriminate.
  - rewrite <- Hobj. vm_compute. split; [discriminate|reflexivity].
  - rewrite <- Hobj. vm_compute. reflexivity.
Defined.

(** The sample 7 of the test data set is read at the first trial. *)
Lemma test_index_witness :
  let w' := demo_dataset (demo_cfg 2 3 false 1) [] "test" 10 in
  let out := returned (__getitem__ (H := demo_library) 0 7 None w') in
  0 ≤ 7 ∧
  ∃ j, 0 ≤ j ≤ 7 ∧ j < __len__ (demo_object w' 0) ∧
       returned_tuple (demo_object w' 0) (w_cfg w') out j.
Proof.
  intros w' out.
  destruct (HvuProofs.init_well_formed (H := demo_library) _ _ _ _ _
              demo_test_run)
    as (self & lines & Hself & _ & Hwf & Hmode & _ & _ & _ & _).
  pose proof Hself as Hobj.
  rewrite demo_test_object in Hobj. injection Hobj as Hobj.
  fold w' in Hobj. rewrite Hobj.
  apply (HvuMore.test_mode_returns_no_later_sample (H := demo_library)
           0%nat self 7 None w'
           (__getitem__ (H := demo_library) 0 7 None w').1 out).
  - exact Hself.
  - exact Hwf.
  - exact Hmode.
  - apply run_eq. reflexivity.
Defined.

(** The test data set has twelve samples: 12 is no index of it. *)
Lemma index_error_witness :
  let w' := demo_dataset (demo_cfg 2 3 false 1) [] "test" 10 in
  (__getitem__ (H := demo_library) 0 12 None w').2 = Raise IndexError.
Proof.
  intros w'.
  destruct (HvuProofs.init_well_formed (H := demo_library) _ _ _ _ _
              demo_test_run)
    as (self & lines & Hself & _ & Hwf & Hmode & _ & _ & _ & _).
  pose proof Hself as Hobj.
  rewrite demo_test_object in Hobj. injection Hobj as Hobj.
  fold w' in Hobj.
  apply (HvuMore.index_out_of_range_is_an_index_error (H := demo_library)
           0%nat self 12 None w').
  - exact Hself.
  - exact Hwf.
  - rewrite <- Hobj.
    assert (Hlen : __len__ (demo_object w' 0) = 12) by (vm_compute; reflexivity).
    rewrite Hlen. lia.
  - rewrite Hmode. discriminate.
Defined.

(** A test data set constructed with [num_retries = 0]. *)
Lemma no_retries_witness :
  let w' := demo_dataset (demo_cfg 2 3 false 1) [] "test" 0 in
  (__getitem__ (H := demo_library) 0 3 None w').2 = Raise RuntimeError.
Proof.
  intros w'.
  apply (HvuMore.no_retries_is_a_runtime_error (H := demo_library)
           0%nat (demo_object w' 0) 3 None w'
           {| temporal_sample_index := 1; spatial_sample_index := 0;
              min_scale := 224; max_scale := 224; crop_size := 224 |}).
  - exact demo_idle_object.
  - vm_compute. discriminate.
  - vm_compute. split; [discriminate|reflexivity].
  - vm_compute. reflexivity.
Defined.

(** A val data set constructed after the test data set of two views and
    three crops: the sample 4 of the test data set is now decoded with the
    temporal index 4 and the spatial index 1. *)
Lemma shared_cfg_witness :
  let w1 := demo_dataset (demo_cfg 2 3 false 1) [] "test" 10 in
  let w2 := (__init__ (H := demo_library) "val" 10 w1).1 in
  NUM_SPATIAL_CROPS (TEST (w_cfg w2)) = 1 ∧
  _num_clips (demo_object w2 0) = 6 ∧
  sampling (demo_object w2 0) (w_cfg w2) 4 None =
    Ok {| temporal_sample_index := 4; spatial_sample_index := 1;
          min_scale := 224; max_scale := 224; crop_size := 224 |}.
Proof.
  intros w1 w2.
  destruct (HvuMore.later_train_set_changes_test_sampling (H := demo_library)
              10 (demo_world (demo_cfg 2 3 false 1) []) w1 0%nat "val" 10
              demo_test_run)
    as (self & Hself & Hclips & _ & Hcrops & Hsampling).
  { apply (bool_decide_unpack _). vm_compute. exact I. }
  fold w2 in Hself, Hcrops, Hsampling.
  assert (Hobj : w_objects w2 !! 0%nat = Some (demo_object w2 0)).
  { apply object_eq. vm_compute. lia. }
  rewrite Hobj in Hself. injection Hself as <-.
  split; [exact Hcrops|]. split; [exact Hclips|].
  apply (Hsampling 4 None). vm_compute. split; [discriminate|reflexivity].
Defined.

(** The samples 4 and 7 of the test data set are clips of two videos. *)
Lemma shared_labels_witness :
  let w' := demo_dataset (demo_cfg 2 3 false 1) [] "test" 10 in
  let self := demo_object w' 0 in
  ∃ vi vj,
    py_index (_labels self) 4 = Ok vi ∧ py_index (_labels self) 7 = Ok vj ∧
    vi ≠ vj.
Proof.
  intros w' self.
  destruct (HvuMore.clips_share_labels_within_a_video (H := demo_library)
              _ _ _ _ _ demo_test_run) as (self' & Hself & Hshare).
  rewrite demo_test_object in Hself. injection Hself as <-.
  fold w' self in Hshare.
  destruct (Hshare 4 7) as (vi & vj & Hi & Hj & _ & _ & Hiff).
  - vm_compute. split; [discriminate|reflexivity].
  - vm_compute. split; [discriminate|reflexivity].
  - exists vi, vj. split; [exact Hi|]. split; [exact Hj|].
    intros Heq. apply Hiff in Heq. revert Heq. vm_compute. discriminate.
Defined.

(** A train data set of the two lines of the split file. *)
Lemma one_sample_per_line_witness :
  let w' := demo_dataset (demo_cfg 2 3 false 1) [] "train" 10 in
  let self := demo_object w' 0 in
  _num_clips self = 1 ∧
  py_index (_path_to_videos self) 1 = Ok "/videos/b.mp4" ∧
  py_index (_spatial_temporal_idx self) 1 = Ok 0.
Proof.
  intros w' self.
  destruct (HvuMore.train_and_val_have_one_sample_per_line (H := demo_library)
              _ _ _ _ _ demo_train_run)
    as (self' & lines & Hself & Hf & Hclips & _ & Hlines & _).
  { apply (bool_decide_unpack _). vm_compute. exact I. }
  rewrite demo_train_object in Hself. injection Hself as <-.
  fold w' self in Hclips, Hlines.
  assert (Hdemo : w_files (demo_world (demo_cfg 2 3 false 1) []) !!
                  split_file (w_cfg (demo_world (demo_cfg 2 3 false 1) [])) "train" =
                  Some demo_lines) by (vm_compute; reflexivity).
  rewrite Hdemo in Hf. injection Hf as <-.
  split; [exact Hclips|].
  apply (Hlines 1%nat "b.mp4 1" "b.mp4" [1]).
  - reflexivity.
  - vm_compute. reflexivity.
Defined.

(** The meta data of the test data set: 11 is a key, -1 is none. *)
Lemma meta_data_witness :
  let w' := demo_dataset (demo_cfg 2 3 false 1) [] "test" 10 in
  let self := demo_object w' 0 in
  _video_meta self !! 11 = Some (empty_meta (Library := demo_library)) ∧
  _video_meta self !! (-1) = None.
Proof.
  intros w' self.
  destruct (HvuMore.meta_data_start_empty (H := demo_library)
              _ _ _ _ _ demo_test_run) as (self' & Hself & Hmeta).
  rewrite demo_test_object in Hself. injection Hself as <-.
  fold w' self in Hmeta.
  assert (Hlen : __len__ self = 12) by (vm_compute; reflexivity).
  split.
  - rewrite (Hmeta 11), Hlen. reflexivity.
  - rewrite (Hmeta (-1)), Hlen. reflexivity.
Defined.

(** The test data set returns one clip. *)
Lemma single_clip_witness :
  let w' := demo_dataset (demo_cfg 2 3 false 1) [] "test" 10 in
  ∃ labels j,
    single_tuple (returned (__getitem__ (H := demo_library) 0 6 None w'))
      labels j.
Proof.
  intros w'.
  apply (HvuMore.only_augmented_training_returns_lists (H := demo_library)
           _ _ _ _ _ demo_test_run
           ltac:(left; discriminate) w' 6 None
           (__getitem__ (H := demo_library) 0 6 None w').1).
  - apply later_now.
  - apply run_eq. reflexivity.
Defined.

(** The first line of the split file. *)
Lemma line_fields_witness :
  parse_line " " ("a.mp4" +:+ " " +:+ str_join "|" ["0"; "2"]) =
  (labels <-? rmap py_int ["0"; "2"] ;; Ok ("a.mp4", labels)).
Proof.
  apply (ParseProofs.line_is_read_as_its_fields " "%char "a.mp4" ["0"; "2"]).
  - discriminate.
  - discriminate.
  - vm_compute. reflexivity.
  - repeat constructor.
  - repeat constructor.
Defined.

(** A line with the labels -1 and 0, for four classes: the vector is 1 at
    the positions 3 and 0. *)
Lemma negative_label_witness :
  let w := labelled_world (demo_cfg 2 3 false 1) ["a.mp4 -1|0"] in
  let w' := (__init__ (H := demo_library) "test" 10 w).1 in
  ∃ t, w_tensors w' !! 0%nat = Some t ∧
       t_data t !! 0%nat = Some 1%float ∧ t_data t !! 1%nat = Some 0%float ∧
       t_data t !! 2%nat = Some 0%float ∧ t_data t !! 3%nat = Some 1%float.
Proof.
  intros w w'.
  assert (Hrun : __init__ (H := demo_library) "test" 10 w = (w', Ok 0%nat)).
  { apply (run_eq (__init__ (H := demo_library) "test" 10 w) (Ok 0%nat)).
    vm_compute. reflexivity. }
  destruct (HvuEdge.negative_labels_count_from_the_end (H := demo_library)
              _ _ _ _ _ Hrun) as (_ & self & lines & Hself & Hf & Hlines).
  assert (Hobj : w_objects w' !! 0%nat = Some (demo_object w' 0)).
  { apply object_eq. vm_compute. lia. }
  rewrite Hobj in Hself. injection Hself as <-.
  assert (Hdemo : w_files w !! split_file (w_cfg w) "test" =
                  Some ["a.mp4 -1|0"]) by (vm_compute; reflexivity).
  rewrite Hdemo in Hf. injection Hf as <-.
  destruct (Hlines 0%nat "a.mp4 -1|0" eq_refl)
    as (path & labels & vec & t & Hparse & _ & Hvec & Ht & _ & Hdata).
  assert (Hp : parse_line (PATH_LABEL_SEPARATOR (DATA (w_cfg w))) "a.mp4 -1|0" =
               Ok ("a.mp4", [-1; 0])) by (vm_compute; reflexivity).
  rewrite Hp in Hparse. injection Hparse as <- <-.
  assert (Hzero : py_index (_labels (demo_object w' 0))
                    (Z.of_nat 0 * _num_clips (demo_object w' 0)) = Ok 0%nat)
    by (vm_compute; reflexivity).
  rewrite Hzero in Hvec. injection Hvec as <-.
  assert (Hentry : ∀ p, 0 ≤ p < 4 →
            t_data t !! Z.to_nat p =
            Some (if bool_decide (p ∈ [-1; 0] ∨ p - 4 ∈ [-1; 0])
                  then 1%float else 0%float)) by exact Hdata.
  exists t. split; [exact Ht|].
  split; [apply (Hentry 0); lia|]. split; [apply (Hentry 1); lia|].
  split; [apply (Hentry 2); lia|]. apply (Hentry 3); lia.
Defined.

(** The sample 7 of the test data set: its video opens and decodes. *)
Lemma first_trial_witness :
  let w' := demo_dataset (demo_cfg 2 3 false 1) [] "test" 10 in
  ∃ w2 out,
    __getitem__ (H := demo_library) 0 7 None w' = (w2, Ok out) ∧
    returned_tuple (demo_object w' 0) (w_cfg w') out 7.
Proof.
  intros w'.
  apply (HvuEdge.first_trial_returns_the_requested_sample (H := demo_library)
           0%nat (demo_object w' 0) 7 None w'
           {| temporal_sample_index := 0; spatial_sample_index := 1;
              min_scale := 224; max_scale := 224; crop_size := 224 |}
           "/videos/b.mp4" ([] : @Meta demo_library) 1%nat
           ("/videos/b.mp4" : @Container demo_library)
           ([8; 0; 2] : @Frames demo_library)).
  - exact demo_test_object.
  - vm_compute. reflexivity.
  - vm_compute. reflexivity.
  - vm_compute. reflexivity.
  - reflexivity.
  - vm_compute. reflexivity.
  - reflexivity.
  - reflexivity.
Defined.

(** The index -1 on the test data set, all of whose videos open. *)
Lemma negative_index_witness :
  let w' := demo_dataset (demo_cfg 2 3 false 1) [] "test" 10 in
  (__getitem__ (H := demo_library) 0 (-1) None w').2 = Raise KeyError.
Proof.
  intros w'.
  destruct (HvuProofs.init_well_formed (H := demo_library) _ _ _ _ _
              demo_test_run)
    as (self & lines & Hself & _ & Hwf & _).
  pose proof Hself as Hobj.
  rewrite demo_test_object in Hobj. injection Hobj as Hobj.
  fold w' in Hobj.
  apply (HvuEdge.negative_index_of_a_readable_video_is_a_key_error
           (H := demo_library) 0%nat self (-1) None w'
           {| temporal_sample_index := 1; spatial_sample_index := 2;
              min_scale := 224; max_scale := 224; crop_size := 224 |}
           "/videos/b.mp4" ("/videos/b.mp4" : @Container demo_library)).
  - exact Hself.
  - exact Hwf.
  - rewrite <- Hobj. vm_compute. reflexivity.
  - rewrite <- Hobj. vm_compute. split; [discriminate|reflexivity].
  - rewrite <- Hobj. vm_compute. reflexivity.
  - rewrite <- Hobj. vm_compute. reflexivity.
  - reflexivity.
Defined.

(** In test mode the short cycle index 1 changes nothing. *)
Lemma short_cycle_ignored_witness :
  let w' := demo_dataset (demo_cfg 2 3 false 1) [] "test" 10 in
  __getitem__ (H := demo_library) 0 3 (Some 1) w' =
  __getitem__ (H := demo_library) 0 3 None w'.
Proof.
  intros w'.
  apply (HvuEdge.short_cycle_index_counts_in_training_only (H := demo_library)
           0%nat (demo_object w' 0) 3 1 w').
  - exact demo_test_object.
  - left. vm_compute. discriminate.
Defined.

End MoreExamples.
